(** * A shallow embedding of the RAG agent core

    The development follows the Python sources of the repository:
    [agent_core.py] (tools, tool manager, agent memory, tool-use policy,
    request processing), [vector_store.py] (retriever),
    [document_processor.py] (loaders, chunker, processing pipeline),
    [config.py] (vector-store configuration) and [llm_integration.py]
    (LLM manager and RAG chain).

    Part I holds the embedding of the sources; Part II the lemmas and
    theorems, with the reasoning rules and the concrete machines they are
    run on. *)

From Stdlib Require Import ZArith QArith Ascii String List Bool Lia.
From stdpp Require Import base option list strings gmap pretty.

Open Scope Z_scope.

(* ===================================================================== *)
(** * Part I. Definitions                                                 *)
(* ===================================================================== *)

(** ** Python values, exceptions and the state-and-exception monad *)

(** Floats. The numbers among them are taken as rationals; the three
    floats that are no numbers are kept apart. *)
Inductive NonFinite : Type := NaN | PosInf | NegInf.

Inductive PyFloat : Type :=
  | FiniteFloat (q : Q)
  | SpecialFloat (x : NonFinite).

(** [a < b] and [a <= b] on floats: every comparison with NaN is
    false. *)
Definition float_lt (a b : PyFloat) : bool :=
  match a, b with
  | FiniteFloat p, FiniteFloat q => negb (Qle_bool q p)
  | FiniteFloat _, SpecialFloat PosInf => true
  | SpecialFloat NegInf, FiniteFloat _ => true
  | SpecialFloat NegInf, SpecialFloat PosInf => true
  | _, _ => false
  end.

Definition float_le (a b : PyFloat) : bool :=
  match a, b with
  | FiniteFloat p, FiniteFloat q => Qle_bool p q
  | FiniteFloat _, SpecialFloat PosInf => true
  | SpecialFloat NegInf, FiniteFloat _ => true
  | SpecialFloat NegInf, SpecialFloat PosInf => true
  | SpecialFloat PosInf, SpecialFloat PosInf => true
  | SpecialFloat NegInf, SpecialFloat NegInf => true
  | _, _ => false
  end.

(** Dynamically typed values, as far as the agent inspects them: the
    payload of a [ToolResult], keyword arguments, dictionary entries.
    A [PDict] keeps its items in insertion order. A float is a [PFloat]
    when it is a number and a [PNonFinite] otherwise. *)
#[warnings="-register-all"]
Inductive PyVal : Type :=
  | PNone
  | PBool (b : bool)
  | PInt (z : Z)
  | PFloat (q : Q)
  | PNonFinite (x : NonFinite)
  | PStr (s : string)
  | PList (items : list PyVal)
  | PDict (items : list (string * PyVal))
  | PObj (class_name : string) (attrs : list (string * PyVal)).

(** Instances of [Exception]: the class name and [str(e)]. Interpreter
    signals that are not instances of [Exception] (keyboard interrupt,
    interpreter exit, task cancellation) are not part of the model.
    Neither is standard output: the [print] calls of the sources are
    left out, a [print] being taken to succeed. *)
Record PyExc : Type := mkExc { exc_class : string; exc_str : string }.

Inductive Exc (A : Type) : Type :=
  | Ok (a : A)
  | Raise (e : PyExc).
Arguments Ok {A} a.
Arguments Raise {A} e.

(** A float as a value. *)
Definition float_value (x : PyFloat) : PyVal :=
  match x with
  | FiniteFloat q => PFloat q
  | SpecialFloat s => PNonFinite s
  end.

Definition exc_bind {A B} (r : Exc A) (k : A -> Exc B) : Exc B :=
  match r with
  | Ok a => k a
  | Raise e => Raise e
  end.

Definition ValueError (msg : string) : PyExc := mkExc "ValueError" msg.
Definition TypeError (msg : string) : PyExc := mkExc "TypeError" msg.
Definition KeyError (msg : string) : PyExc := mkExc "KeyError" msg.
Definition AttributeError (msg : string) : PyExc := mkExc "AttributeError" msg.
Definition FileNotFoundError (msg : string) : PyExc := mkExc "FileNotFoundError" msg.
Definition ZeroDivisionError (msg : string) : PyExc := mkExc "ZeroDivisionError" msg.
Definition ValidationError (msg : string) : PyExc := mkExc "ValidationError" msg.
Definition IndexError (msg : string) : PyExc := mkExc "IndexError" msg.

(** Computations over a mutable state [S] that return or raise. A raise
    keeps the state reached so far, as in Python. *)
Definition Py (S A : Type) : Type := S -> Exc A * S.

Definition py_ret {S A} (a : A) : Py S A := fun s => (Ok a, s).
Definition py_raise {S A} (e : PyExc) : Py S A := fun s => (Raise e, s).
Definition py_bind {S A B} (m : Py S A) (k : A -> Py S B) : Py S B :=
  fun s => match m s with
           | (Ok a, s') => k a s'
           | (Raise e, s') => (Raise e, s')
           end.
(** [try: m  except Exception as e: h e] *)
Definition try_except {S A} (m : Py S A) (h : PyExc -> Py S A) : Py S A :=
  fun s => match m s with
           | (Ok a, s') => (Ok a, s')
           | (Raise e, s') => h e s'
           end.
Definition py_get {S} : Py S S := fun s => (Ok s, s).
Definition py_put {S} (s : S) : Py S unit := fun _ => (Ok tt, s).
Definition py_modify {S} (f : S -> S) : Py S unit := fun s => (Ok tt, f s).
Definition py_lift {S A} (r : Exc A) : Py S A := fun s => (r, s).

Declare Scope py_scope.
Delimit Scope py_scope with py.
Notation "x <- m ;; k" := (py_bind m (fun x => k))
  (at level 100, m at next level, right associativity) : py_scope.
Notation "m ;;; k" := (py_bind m (fun _ => k))
  (at level 100, right associativity) : py_scope.

(** [for x in xs: body x], threading an accumulator. *)
Fixpoint py_for {S A B} (xs : list A) (acc : B) (body : B -> A -> Py S B) : Py S B :=
  match xs with
  | [] => py_ret acc
  | x :: rest => py_bind (body acc x) (fun acc' => py_for rest acc' body)
  end.

(** ** Python strings *)

(** Text is a sequence of 8-bit characters; what Python does with
    characters outside the ASCII range (white space, case) is not
    modelled. *)
Module PyStr.

(** Characters that [str.strip()] and [str.split()] treat as white
    space, in the ASCII range: TAB, LF, VT, FF, CR, FS, GS, RS, US and
    the space. *)
Definition isspace (c : ascii) : bool :=
  let n := nat_of_ascii c in
  ((9 <=? n) && (n <=? 13) || (28 <=? n) && (n <=? 32))%nat.

(** [s.lstrip(chars)], [s.rstrip(chars)] and [s.strip(chars)], the set
    of characters given as a predicate. In [rstrip_by] a character is
    kept when something that is kept follows it, or when it is not in
    the set. *)
Fixpoint lstrip_by (drop : ascii -> bool) (s : string) : string :=
  match s with
  | EmptyString => EmptyString
  | String c rest => if drop c then lstrip_by drop rest else s
  end.

Fixpoint rstrip_by (drop : ascii -> bool) (s : string) : string :=
  match s with
  | EmptyString => EmptyString
  | String c rest =>
      match rstrip_by drop rest with
      | EmptyString => if drop c then EmptyString else String c EmptyString
      | kept => String c kept
      end
  end.

Definition strip_by (drop : ascii -> bool) (s : string) : string :=
  rstrip_by drop (lstrip_by drop s).

(** [s.strip()] *)
Definition strip (s : string) : string := strip_by isspace s.

(** [c in chars] for a character. *)
Fixpoint char_in (chars : string) (c : ascii) : bool :=
  match chars with
  | EmptyString => false
  | String d rest => Ascii.eqb c d || char_in rest c
  end.

(** Truth value of a string: non-empty. *)
Definition truthy (s : string) : bool :=
  match s with EmptyString => false | _ => true end.

(** [not s or not s.strip()] *)
Definition blank (s : string) : bool :=
  negb (truthy s) || negb (truthy (strip s)).

(** [s.startswith(p)] *)
Fixpoint startswith (p s : string) : bool :=
  match p, s with
  | EmptyString, _ => true
  | String a p', String b s' => if Ascii.eqb a b then startswith p' s' else false
  | String _ _, EmptyString => false
  end.

(** [kw in s]: [kw] occurs in [s] as a contiguous run of characters. *)
Fixpoint contains (kw s : string) : bool :=
  startswith kw s ||
  match s with
  | EmptyString => false
  | String _ s' => contains kw s'
  end.

(** [s.split()]: maximal runs of characters that are not white space. *)
Fixpoint split_go (cur : option string) (s : string) : list string :=
  match s with
  | EmptyString =>
      match cur with Some w => [String.rev w] | None => [] end
  | String c rest =>
      if isspace c
      then match cur with
           | Some w => String.rev w :: split_go None rest
           | None => split_go None rest
           end
      else match cur with
           | Some w => split_go (Some (String c w)) rest
           | None => split_go (Some (String c EmptyString)) rest
           end
  end.
Definition split (s : string) : list string := split_go None s.

(** [s.split(sep)] for a one-character separator: always at least one
    piece. *)
Fixpoint split_on_go (sep : ascii) (cur : string) (s : string) : list string :=
  match s with
  | EmptyString => [String.rev cur]
  | String c rest =>
      if Ascii.eqb c sep
      then String.rev cur :: split_on_go sep EmptyString rest
      else split_on_go sep (String c cur) rest
  end.
Definition split_on (sep : ascii) (s : string) : list string :=
  split_on_go sep EmptyString s.

Definition len (s : string) : Z := Z.of_nat (String.length s).

(** [s[:n]] for [0 <= n]. *)
Fixpoint take (n : nat) (s : string) : string :=
  match n, s with
  | S n', String c rest => String c (take n' rest)
  | _, _ => EmptyString
  end.

(** Lower-casing restricted to the ASCII letters. *)
Definition ascii_lower_char (c : ascii) : ascii :=
  let n := nat_of_ascii c in
  if ((65 <=? n) && (n <=? 90))%nat then ascii_of_nat (n + 32) else c.
Fixpoint ascii_lower (s : string) : string :=
  match s with
  | EmptyString => EmptyString
  | String c rest => String (ascii_lower_char c) (ascii_lower rest)
  end.

End PyStr.

(** ** Library functions the sources call

    What the repository takes from the Python runtime and its
    libraries, left open: Unicode lower-casing, the rendering of a value
    inside an f-string, the ISO rendering of a clock reading. *)
Class Runtime : Type := {
  str_lower : string -> string;
  py_format : PyVal -> string;
  isoformat : Z -> string;
}.

(** A runtime to compute with: ASCII lower-casing, and renderings that
    show strings and integers. *)
Definition format_simple (v : PyVal) : string :=
  match v with
  | PNone => "None"
  | PBool true => "True"
  | PBool false => "False"
  | PInt z => pretty z
  | PStr s => s
  | _ => "<object>"
  end.

Definition simple_runtime : Runtime := {|
  str_lower := PyStr.ascii_lower;
  py_format := format_simple;
  isoformat := fun t => pretty t;
|}.

(** ** Operations on dynamically typed values

    What the agent does with a tool's payload: truth value, [len],
    [.get], slicing, subscripting by a key, attribute access, iteration.
    An operation the value's type does not have raises. *)

Definition type_name (v : PyVal) : string :=
  match v with
  | PNone => "NoneType"
  | PBool _ => "bool"
  | PInt _ => "int"
  | PFloat _ => "float"
  | PNonFinite _ => "float"
  | PStr _ => "str"
  | PList _ => "list"
  | PDict _ => "dict"
  | PObj class_name _ => class_name
  end.

Definition py_truthy (v : PyVal) : bool :=
  match v with
  | PNone => false
  | PBool b => b
  | PInt z => negb (z =? 0)
  | PFloat q => negb (Qeq_bool q 0)
  | PNonFinite _ => true
  | PStr s => PyStr.truthy s
  | PList items => match items with [] => false | _ => true end
  | PDict items => match items with [] => false | _ => true end
  | PObj _ _ => true
  end.

(** [a or b] *)
Definition py_or (a b : PyVal) : PyVal := if py_truthy a then a else b.

Fixpoint assoc_lookup (items : list (string * PyVal)) (k : string) : option PyVal :=
  match items with
  | [] => None
  | (k', v) :: rest => if String.eqb k k' then Some v else assoc_lookup rest k
  end.

(** [v.get(key, default)] *)
Definition py_get_method (v : PyVal) (key : string) (fallback : PyVal) : Exc PyVal :=
  match v with
  | PDict items => Ok (default fallback (assoc_lookup items key))
  | _ => Raise (AttributeError ("'" +:+ type_name v +:+ "' object has no attribute 'get'"))
  end.

(** [v[key]] for a string key *)
Definition py_getitem (v : PyVal) (key : string) : Exc PyVal :=
  match v with
  | PDict items =>
      match assoc_lookup items key with
      | Some x => Ok x
      | None => Raise (KeyError ("'" +:+ key +:+ "'"))
      end
  | PStr _ => Raise (TypeError "string indices must be integers")
  | PList _ => Raise (TypeError "list indices must be integers or slices, not str")
  | _ => Raise (TypeError ("'" +:+ type_name v +:+ "' object is not subscriptable"))
  end.

(** [v.attr] *)
Definition py_getattr (v : PyVal) (attr : string) : Exc PyVal :=
  match v with
  | PObj _ attrs =>
      match assoc_lookup attrs attr with
      | Some x => Ok x
      | None =>
          Raise (AttributeError ("'" +:+ type_name v +:+ "' object has no attribute '"
                                 +:+ attr +:+ "'"))
      end
  | _ =>
      Raise (AttributeError ("'" +:+ type_name v +:+ "' object has no attribute '"
                             +:+ attr +:+ "'"))
  end.

(** [v[:n]] for [0 <= n] *)
Definition py_slice_to (n : nat) (v : PyVal) : Exc PyVal :=
  match v with
  | PStr s => Ok (PStr (PyStr.take n s))
  | PList items => Ok (PList (take n items))
  | PDict _ => Raise (TypeError "unhashable type: 'slice'")
  | _ => Raise (TypeError ("'" +:+ type_name v +:+ "' object is not subscriptable"))
  end.

(** [len(v)] *)
Definition py_len (v : PyVal) : Exc Z :=
  match v with
  | PStr s => Ok (PyStr.len s)
  | PList items => Ok (Z.of_nat (length items))
  | PDict items => Ok (Z.of_nat (length items))
  | _ => Raise (TypeError ("object of type '" +:+ type_name v +:+ "' has no len()"))
  end.

Fixpoint chars_of (s : string) : list PyVal :=
  match s with
  | EmptyString => []
  | String c rest => PStr (String c EmptyString) :: chars_of rest
  end.

(** The items that [for x in v] runs through. *)
Definition py_iter (v : PyVal) : Exc (list PyVal) :=
  match v with
  | PList items => Ok items
  | PStr s => Ok (chars_of s)
  | PDict items => Ok (map (fun kv => PStr (fst kv)) items)
  | _ => Raise (TypeError ("'" +:+ type_name v +:+ "' object is not iterable"))
  end.

(** [v + "..."] *)
Definition py_add_str (v : PyVal) (s : string) : Exc PyVal :=
  match v with
  | PStr a => Ok (PStr (a +:+ s))
  | _ => Raise (TypeError ("unsupported operand type(s) for +: '" +:+ type_name v
                           +:+ "' and 'str'"))
  end.

(** ** Tools and their results ([agent_core.py]) *)

Inductive ToolType : Type :=
  | SEARCH | ANALYSIS | GENERATION | UTILITY | EXTERNAL | KNOWLEDGE.

(** [ToolResult]: [result] defaults to [None], [error] to [None], and
    [metadata] to the empty dictionary. *)
Record ToolResult : Type := mkToolResult {
  tool_name : string;
  success : bool;
  result : PyVal;
  error : option string;
  execution_time : Q;
  metadata : gmap string PyVal;
}.

(** The external world a tool acts in; the sources read its clock with
    [datetime.now()]. A reading is a number of microseconds. *)
Class WorldOps (W : Type) : Type := {
  clock : W -> Z * W;
}.

Definition now {W} `{WorldOps W} : Py W Z :=
  fun w => let (t, w') := clock w in (Ok t, w').

(** [(later - earlier).total_seconds()] *)
Definition total_seconds (earlier later : Z) : Q := Qmake (later - earlier) 1000000.

(** A tool: the attributes set by [Tool.__init__] and the [execute]
    method, called as [tool.execute( **kwargs )]. *)
Record Tool (W : Type) : Type := mkTool {
  name : string;
  description : string;
  tool_type : ToolType;
  enabled : bool;
  execute : gmap string PyVal -> Py W ToolResult;
}.
Arguments mkTool {W}.
Arguments name {W}.
Arguments description {W}.
Arguments tool_type {W}.
Arguments enabled {W}.
Arguments execute {W}.

(** The names of the missing parameters, as the interpreter lists
    them: 'a'; 'a' and 'b'; 'a', 'b', and 'c'. *)
Fixpoint quote_names (names : list string) : string :=
  match names with
  | [] => ""
  | [a] => "'" +:+ a +:+ "'"
  | [a; b] => "'" +:+ a +:+ "' and '" +:+ b +:+ "'"
  | a :: (_ :: _ :: _) as rest =>
      "'" +:+ a +:+ "', "
      +:+ match rest with
          | [b; c] => "'" +:+ b +:+ "', and '" +:+ c +:+ "'"
          | _ => quote_names rest
          end
  end.

(** Binding of keyword arguments to the parameters of a method without
    a [**kwargs] parameter, called on an object: a key that names no
    parameter is a [TypeError], the key "self" (whose parameter the
    object already fills) is one too, and so is a parameter without
    default that no key names. When several keys offend, the interpreter
    names the first of them in the order of the keyword arguments, which
    a [gmap] does not keep. *)
Definition bind_kwargs (fname : string) (required optional : list string)
    (kwargs : gmap string PyVal) : Exc unit :=
  match filter (fun k => k ∉ required ++ optional) (map fst (map_to_list kwargs)) with
  | k :: _ =>
      if String.eqb k "self"
      then Raise (TypeError (fname +:+ "() got multiple values for argument 'self'"))
      else Raise (TypeError (fname +:+ "() got an unexpected keyword argument '"
                             +:+ k +:+ "'"))
  | [] =>
      match filter (fun k => kwargs !! k = None) required with
      | [] => Ok tt
      | [k] =>
          Raise (TypeError (fname +:+ "() missing 1 required positional argument: "
                            +:+ quote_names [k]))
      | missing =>
          Raise (TypeError (fname +:+ "() missing " +:+ pretty (length missing)
                            +:+ " required positional arguments: "
                            +:+ quote_names missing))
      end
  end.

(** ** Text analysis ([TextAnalysisTool]) *)

(** Items of a dictionary in insertion order: lookup, and assignment
    that keeps the position of a key already present. *)
Definition dict_lookup (d : list (string * PyVal)) (k : string) : option PyVal :=
  assoc_lookup d k.

Fixpoint dict_set (d : list (string * PyVal)) (k : string) (v : PyVal)
    : list (string * PyVal) :=
  match d with
  | [] => [(k, v)]
  | (k', v') :: rest =>
      if String.eqb k k' then (k', v) :: rest else (k', v') :: dict_set rest k v
  end.

(** [d.update(other)] *)
Definition dict_update (d other : list (string * PyVal)) : list (string * PyVal) :=
  fold_left (fun acc kv => dict_set acc (fst kv) (snd kv)) other d.

(** [a / b] on integers: a float, or [ZeroDivisionError]. *)
Definition truediv (a b : Z) : Exc PyVal :=
  match b with
  | Zpos p => Ok (PFloat (Qmake a p))
  | Zneg p => Ok (PFloat (Qmake (- a) p))
  | Z0 => Raise (ZeroDivisionError "division by zero")
  end.

Definition zlen {A} (l : list A) : Z := Z.of_nat (length l).

Definition sum_Z (l : list Z) : Z := fold_right Z.add 0 l.

Section TextAnalysis.
Context `{Runtime}.

(** [TextAnalysisTool._basic_analysis] *)
Definition _basic_analysis (text : string) : Exc PyVal :=
  let lines := PyStr.split_on "010"%char text in
  let words := PyStr.split text in
  exc_bind
    (match words with
     | [] => Ok (PInt 0)
     | _ => truediv (sum_Z (map PyStr.len words)) (zlen words)
     end)
    (fun average_word_length =>
       Ok (PDict
             [ ("character_count", PInt (PyStr.len text));
               ("word_count", PInt (zlen words));
               ("line_count", PInt (zlen lines));
               ("paragraph_count",
                 PInt (zlen (filter (fun line => PyStr.truthy (PyStr.strip line) = true) lines)));
               ("average_word_length", average_word_length) ])).

(** [word.lower().strip(punctuation)], the punctuation being the
    characters . , ! ? ; : the double quote and ( ) [ ] { } *)
Definition normalise_word (word : string) : string :=
  PyStr.strip_by
    (PyStr.char_in (String.app ".,!?;:" (String "034"%char "()[]{}")))
    (str_lower word).

(** [TextAnalysisTool._detailed_analysis] *)
Definition _detailed_analysis (text : string) : Exc PyVal :=
  exc_bind (_basic_analysis text) (fun basic =>
  let sentences := PyStr.split_on "."%char text in
  let unique_words := remove_dups (map normalise_word (PyStr.split text)) in
  exc_bind
    (match PyStr.split text with
     | [] => Ok (PInt 0)
     | _ => truediv (zlen unique_words) (zlen (PyStr.split text))
     end)
    (fun vocabulary_richness =>
  exc_bind
    (match sentences with
     | [] => Ok (PInt 0)
     | _ => truediv (zlen (PyStr.split text)) (zlen sentences)
     end)
    (fun average_sentence_length =>
       match basic with
       | PDict items =>
           Ok (PDict (dict_update items
             [ ("sentence_count",
                 PInt (zlen (filter (fun s => PyStr.truthy (PyStr.strip s) = true) sentences)));
               ("unique_words", PInt (zlen unique_words));
               ("vocabulary_richness", vocabulary_richness);
               ("average_sentence_length", average_sentence_length) ]))
       | _ => Raise (AttributeError "object has no attribute 'update'")
       end))).

(** The body of [TextAnalysisTool.execute] inside its [try]: a [text]
    that is no string has no [split] method. *)
Definition analysis_body (text analysis_type : PyVal) : Exc PyVal :=
  match analysis_type with
  | PStr "basic" =>
      match text with
      | PStr s => _basic_analysis s
      | _ => Raise (AttributeError "object has no attribute 'split'")
      end
  | PStr "detailed" =>
      match text with
      | PStr s => _detailed_analysis s
      | _ => Raise (AttributeError "object has no attribute 'split'")
      end
  | _ => Raise (ValueError ("Unknown analysis type: " +:+ py_format analysis_type))
  end.

Context {W : Type} `{WorldOps W}.

(** [TextAnalysisTool.execute(text, analysis_type="basic")] *)
Definition TextAnalysisTool_execute (text analysis_type : PyVal) : Py W ToolResult :=
  (start_time <- now ;;
   try_except
     (result <- py_lift (analysis_body text analysis_type) ;;
      end_time <- now ;;
      py_ret (mkToolResult "text_analysis" true result None
                (total_seconds start_time end_time)
                (<["analysis_type" := analysis_type]> ∅)))
     (fun e =>
        end_time <- now ;;
        py_ret (mkToolResult "text_analysis" false PNone (Some (exc_str e))
                  (total_seconds start_time end_time) ∅)))%py.

(** The call [tool.execute( **kwargs )] on the text-analysis tool. *)
Definition TextAnalysisTool_call (kwargs : gmap string PyVal) : Py W ToolResult :=
  (_ <- py_lift (bind_kwargs "TextAnalysisTool.execute" ["text"] ["analysis_type"] kwargs) ;;
   TextAnalysisTool_execute
     (default PNone (kwargs !! "text"))
     (default (PStr "basic") (kwargs !! "analysis_type")))%py.

Definition TextAnalysisTool : Tool W :=
  mkTool "text_analysis"
    "Analyze text content for length, structure, and basic statistics"
    ANALYSIS true TextAnalysisTool_call.

End TextAnalysis.

(** ** Agent memory ([AgentMemory]) *)

(** [l[start:]] for any integer [start]: a negative [start] counts from
    the end, and both ends are clamped. *)
Definition slice_from {A} (start : Z) (l : list A) : list A :=
  let n := Z.of_nat (length l) in
  let first := if start <? 0 then Z.max (n + start) 0 else Z.min start n in
  drop (Z.to_nat first) l.

Record LongTermEntry : Type := mkLongTermEntry {
  entry_value : PyVal;
  stored_at : string;
}.

Record AgentMemory : Type := mkAgentMemory {
  memory_id : string;
  short_term_memory : list (gmap string PyVal);
  long_term_memory : gmap string LongTermEntry;
  working_memory : gmap string PyVal;
  created_at : Z;
  updated_at : Z;
}.

Definition new_memory (memory_id : string) (t : Z) : AgentMemory :=
  mkAgentMemory memory_id [] ∅ ∅ t t.

Section Memory.
Context `{Runtime}.

(** The dictionary passed in, with its "timestamp" entry set. *)
Definition stamp (memory_item : gmap string PyVal) (t : Z) : gmap string PyVal :=
  <["timestamp" := PStr (isoformat t)]> memory_item.

(** [AgentMemory.add_to_short_term]; [t_item] and [t_update] are the two
    clock readings of the method. *)
Definition add_to_short_term (memory_item : gmap string PyVal)
    (t_item t_update : Z) (self : AgentMemory) : AgentMemory :=
  let memory_item := stamp memory_item t_item in
  let appended := short_term_memory self ++ [memory_item] in
  let kept := if (50 <? Z.of_nat (length appended))
              then slice_from (-50) appended
              else appended in
  mkAgentMemory (memory_id self) kept (long_term_memory self)
    (working_memory self) (created_at self) t_update.

(** [AgentMemory.store_in_long_term] *)
Definition store_in_long_term (key : string) (value : PyVal)
    (t_item t_update : Z) (self : AgentMemory) : AgentMemory :=
  mkAgentMemory (memory_id self) (short_term_memory self)
    (<[key := mkLongTermEntry value (isoformat t_item)]> (long_term_memory self))
    (working_memory self) (created_at self) t_update.

(** [AgentMemory.get_from_long_term] *)
Definition get_from_long_term (key : string) (self : AgentMemory) : option PyVal :=
  entry_value <$> long_term_memory self !! key.

(** [AgentMemory.update_working_memory] *)
Definition update_working_memory (key : string) (value : PyVal)
    (t_update : Z) (self : AgentMemory) : AgentMemory :=
  mkAgentMemory (memory_id self) (short_term_memory self) (long_term_memory self)
    (<[key := value]> (working_memory self)) (created_at self) t_update.

(** [AgentMemory.get_recent_activities] *)
Definition get_recent_activities (limit : Z) (self : AgentMemory)
    : list (gmap string PyVal) :=
  match short_term_memory self with
  | [] => []
  | items => slice_from (- limit) items
  end.

(** A run of appends, each with the clock readings it sees. *)
Definition append_all (items : list (gmap string PyVal * Z * Z))
    (self : AgentMemory) : AgentMemory :=
  fold_left (fun mem '(memory_item, t_item, t_update) =>
               add_to_short_term memory_item t_item t_update mem)
            items self.

Definition stamped (entry : gmap string PyVal * Z * Z) : gmap string PyVal :=
  let '(memory_item, t_item, _) := entry in stamp memory_item t_item.

End Memory.

(** ** Chunks, search results and the retriever
       ([document_processor.py], [vector_store.py]) *)

Record DocumentChunk : Type := mkDocumentChunk {
  chunk_id : string;
  content : string;
  chunk_index : Z;
  source_document : string;
  chunk_metadata : gmap string PyVal;
}.

(** [DocumentChunk.validate_content] *)
Definition validate_content (v : string) : Exc string :=
  if PyStr.blank v then Raise (ValueError "Chunk content cannot be empty")
  else Ok (PyStr.strip v).

(** Construction of a [DocumentChunk], which runs the validator. *)
Definition DocumentChunk_new (chunk_id content : string) (chunk_index : Z)
    (source_document : string) (chunk_metadata : gmap string PyVal)
    : Exc DocumentChunk :=
  exc_bind (validate_content content) (fun content =>
    Ok (mkDocumentChunk chunk_id content chunk_index source_document chunk_metadata)).

Record SearchResult : Type := mkSearchResult {
  chunk : DocumentChunk;
  score : Q;
  rank : Z;
  search_metadata : gmap string PyVal;
}.

(** [SearchResult.validate_score] *)
Definition validate_score (v : Q) : Exc Q :=
  if negb (Qle_bool 0 v && Qle_bool v 1)
  then Raise (ValueError "Score must be between 0.0 and 1.0")
  else Ok v.

Definition SearchResult_new (chunk : DocumentChunk) (score : Q) (rank : Z)
    (search_metadata : gmap string PyVal) : Exc SearchResult :=
  exc_bind (validate_score score) (fun score =>
    Ok (mkSearchResult chunk score rank search_metadata)).

(** What the validator of [SearchResult] leaves through. *)
Definition valid_search_result (r : SearchResult) : Prop :=
  (0 <= score r /\ score r <= 1)%Q.

(** The abstract [VectorStore]: the two methods the core calls. Both
    backends of the repository catch their own failures and answer
    [False] or the empty list. *)
Class VectorStore (VS : Type) : Type := {
  add_documents : list DocumentChunk -> VS -> bool * VS;
  similarity_search : string -> Z -> VS -> list SearchResult * VS;
}.

Section Retriever.
Context {VS : Type} `{VectorStore VS}.

(** [DocumentRetriever.retrieve_documents]; the threshold is any
    float, the scores are numbers that passed the validator. *)
Definition retrieve_documents (query : string) (k : Z) (min_score : PyFloat)
    (vector_store : VS) : list SearchResult * VS :=
  if PyStr.blank query then ([], vector_store)
  else
    let (results, vector_store) := similarity_search query k vector_store in
    let results :=
      if float_lt (FiniteFloat 0) min_score
      then List.filter (fun result => float_le min_score (FiniteFloat (score result)))
             results
      else results in
    (results, vector_store).

End Retriever.

(** A store that records every [similarity_search] call it receives. *)
Record Logged (VS : Type) : Type := mkLogged {
  backend : VS;
  search_calls : list (string * Z);
}.
Arguments mkLogged {VS}.
Arguments backend {VS}.
Arguments search_calls {VS}.

#[export] Instance logged_store {VS : Type} `{VectorStore VS} : VectorStore (Logged VS) := {|
  add_documents chunks st :=
    let (ok, vs) := add_documents chunks (backend st) in
    (ok, mkLogged vs (search_calls st));
  similarity_search query k st :=
    let (results, vs) := similarity_search query k (backend st) in
    (results, mkLogged vs (search_calls st ++ [(query, k)]));
|}.

(** An in-memory store to compute with: it answers a query that is not
    blank with its first [k] entries, ranked in stored order, at the given
    scores. *)
Definition rank_results (entries : list (DocumentChunk * Q)) : list SearchResult :=
  imap (fun i entry => mkSearchResult (fst entry) (snd entry) (Z.of_nat i) ∅) entries.

#[export] Instance list_store : VectorStore (list (DocumentChunk * Q)) := {|
  add_documents chunks st := (true, st ++ map (fun c => (c, 1%Q)) chunks);
  similarity_search query k st :=
    if PyStr.blank query then ([], st)
    else (rank_results (take (Z.to_nat k) st), st);
|}.

(** ** Vector-store configuration ([config.py]) *)

Record VectorStoreConfig : Type := mkVectorStoreConfig {
  vector_store_type : string;
  collection_name : string;
  persist_directory : string;
  embedding_model : string;
  config_chunk_size : Z;
  config_chunk_overlap : Z;
  search_k : Z;
  search_type : string;
}.

(** Construction of a [VectorStoreConfig]: the field constraints
    [chunk_size > 0], [chunk_overlap >= 0] and [search_k > 0] are the
    whole validation. *)
Definition VectorStoreConfig_new
    (vector_store_type collection_name persist_directory embedding_model : string)
    (chunk_size chunk_overlap search_k : Z) (search_type : string)
    : Exc VectorStoreConfig :=
  if negb (0 <? chunk_size)
  then Raise (ValidationError "chunk_size: Input should be greater than 0")
  else if negb (0 <=? chunk_overlap)
  then Raise (ValidationError "chunk_overlap: Input should be greater than or equal to 0")
  else if negb (0 <? search_k)
  then Raise (ValidationError "search_k: Input should be greater than 0")
  else Ok (mkVectorStoreConfig vector_store_type collection_name persist_directory
             embedding_model chunk_size chunk_overlap search_k search_type).

(** The configuration that [load_config] builds from the environment
    values [CHUNK_SIZE] and [CHUNK_OVERLAP]; the other fields keep their
    defaults. *)
Definition load_vector_store_config
    (vector_store_type collection_name persist_directory : string)
    (chunk_size chunk_overlap : Z) : Exc VectorStoreConfig :=
  VectorStoreConfig_new vector_store_type collection_name persist_directory
    "text-embedding-ada-002" chunk_size chunk_overlap 5 "similarity".

(** ** Chunker ([TextChunker]) *)

Inductive ChunkingStrategy : Type :=
  | RECURSIVE | CHARACTER | TOKEN | SENTENCE | PARAGRAPH.

Definition strategy_value (s : ChunkingStrategy) : string :=
  match s with
  | RECURSIVE => "recursive"
  | CHARACTER => "character"
  | TOKEN => "token"
  | SENTENCE => "sentence"
  | PARAGRAPH => "paragraph"
  end.

(** The constructor calls that [_create_splitter] makes into the
    text-splitter library. *)
Inductive SplitterCall : Type :=
  | RecursiveCharacterTextSplitter (chunk_size chunk_overlap : Z)
      (separators : option (list string))
  | CharacterTextSplitter (chunk_size chunk_overlap : Z) (separator : string)
  | TokenTextSplitter (chunk_size chunk_overlap : Z).

Definition call_chunk_size (c : SplitterCall) : Z :=
  match c with
  | RecursiveCharacterTextSplitter n _ _ => n
  | CharacterTextSplitter n _ _ => n
  | TokenTextSplitter n _ => n
  end.

Definition call_chunk_overlap (c : SplitterCall) : Z :=
  match c with
  | RecursiveCharacterTextSplitter _ n _ => n
  | CharacterTextSplitter _ n _ => n
  | TokenTextSplitter _ n => n
  end.

(** The text-splitter library, which is not part of the repository:
    what its constructors do after the check they share, and the
    splitting. Both may fail. *)
Class TextSplitters : Type := {
  Splitter : Type;
  build_splitter : SplitterCall -> Exc Splitter;
  split_text : Splitter -> string -> Exc (list string);
}.

(** A constructor call into the library. The three splitters share
    the base constructor [TextSplitter.__init__], which compares the two
    numbers before anything else is done:
    [if chunk_overlap > chunk_size: raise ValueError(...)]. Releases of
    the library that look at the sign of each number first raise a
    [ValueError] there as well, with another text; what follows relies
    on the class of this exception only. *)
Definition new_splitter `{TextSplitters} (c : SplitterCall) : Exc Splitter :=
  if call_chunk_size c <? call_chunk_overlap c
  then Raise (ValueError ("Got a larger chunk overlap ("
                          +:+ pretty (call_chunk_overlap c)
                          +:+ ") than chunk size (" +:+ pretty (call_chunk_size c)
                          +:+ "), should be smaller."))
  else build_splitter c.

(** [f"{i:04d}"] for [0 <= i] *)
Definition format_04d (i : Z) : string :=
  let digits := pretty i in
  String.concat "" (replicate (4 - String.length digits) "0") +:+ digits.

Section Chunker.
Context `{TextSplitters}.

Record TextChunker : Type := mkTextChunker {
  strategy : ChunkingStrategy;
  chunk_size : Z;
  chunk_overlap : Z;
  _splitter : Splitter;
}.

(** [TextChunker._create_splitter] *)
Definition _create_splitter (strategy : ChunkingStrategy)
    (chunk_size chunk_overlap : Z) : Exc Splitter :=
  match strategy with
  | RECURSIVE =>
      new_splitter
        (RecursiveCharacterTextSplitter chunk_size chunk_overlap
           (Some [ String "010"%char (String "010"%char EmptyString);
                   String "010"%char EmptyString; ". "; " "; "" ]))
  | CHARACTER =>
      new_splitter
        (CharacterTextSplitter chunk_size chunk_overlap (String "010"%char EmptyString))
  | TOKEN => new_splitter (TokenTextSplitter chunk_size chunk_overlap)
  | _ => new_splitter (RecursiveCharacterTextSplitter chunk_size chunk_overlap None)
  end.

(** [TextChunker.__init__]: the three attributes are stored as given,
    then the splitter is created. *)
Definition TextChunker_init (strategy : ChunkingStrategy)
    (chunk_size chunk_overlap : Z) : Exc TextChunker :=
  exc_bind (_create_splitter strategy chunk_size chunk_overlap) (fun splitter =>
    Ok (mkTextChunker strategy chunk_size chunk_overlap splitter)).

(** The loop of [chunk_text] over [enumerate(chunks)]. *)
Fixpoint make_chunks (self : TextChunker) (source_document : string)
    (i : Z) (chunks : list string) : Exc (list DocumentChunk) :=
  match chunks with
  | [] => Ok []
  | chunk_content :: rest =>
      if PyStr.truthy (PyStr.strip chunk_content)
      then
        exc_bind
          (DocumentChunk_new (source_document +:+ "_" +:+ format_04d i)
             chunk_content i source_document
             (<["chunking_strategy" := PStr (strategy_value (strategy self))]>
              (<["chunk_size" := PInt (chunk_size self)]>
              (<["chunk_overlap" := PInt (chunk_overlap self)]>
              (<["character_count" := PInt (PyStr.len chunk_content)]> ∅)))))
          (fun chunk =>
             exc_bind (make_chunks self source_document (i + 1) rest) (fun more =>
               Ok (chunk :: more)))
      else make_chunks self source_document (i + 1) rest
  end.

(** [TextChunker.chunk_text] *)
Definition chunk_text (self : TextChunker) (text source_document : string)
    : Exc (list DocumentChunk) :=
  if PyStr.blank text then Ok []
  else exc_bind (split_text (_splitter self) text) (fun chunks =>
         make_chunks self source_document 0 chunks).

End Chunker.

(** A splitter library to compute with: every configuration that
    passes the shared check is accepted, and a text is cut into pieces of
    [chunk_size] characters (at least one character each). *)
Fixpoint cut_pieces (fuel size : nat) (s : string) : list string :=
  match fuel with
  | O => []
  | S fuel' =>
      match s with
      | EmptyString => []
      | _ =>
          PyStr.take (S (Nat.pred size)) s
          :: cut_pieces fuel' size (String.substring (S (Nat.pred size)) (String.length s) s)
      end
  end.

Definition fixed_width_splitters : TextSplitters := {|
  Splitter := nat;
  build_splitter c := Ok (Z.to_nat (call_chunk_size c));
  split_text size s := Ok (cut_pieces (String.length s) size s);
|}.

(** ** Document processing ([document_processor.py]) *)

Inductive DocumentType : Type :=
  | PDF | DOCX | DOC | TXT | MD | HTML | JSON | CSV | UNKNOWN.

Definition document_type_value (t : DocumentType) : string :=
  match t with
  | PDF => "pdf" | DOCX => "docx" | DOC => "doc" | TXT => "txt" | MD => "md"
  | HTML => "html" | JSON => "json" | CSV => "csv" | UNKNOWN => "unknown"
  end.

(** A path as [pathlib] takes it apart: directory, stem and suffix of
    the final component. *)
Record Path : Type := mkPath {
  parent : string;
  stem : string;
  suffix : string;
}.

Definition path_name (p : Path) : string := stem p +:+ suffix p.
Definition path_str (p : Path) : string := parent p +:+ "/" +:+ path_name p.

Inductive Encoding : Type := utf_8 | utf_8_sig | latin_1 | cp1252.

(** What the processing takes from the platform: the codecs, the hash,
    and the PDF and Word extraction behind the optional imports. File
    contents are sequences of bytes. [encode_text] gives the bytes that
    a file opened for writing text stores for a text, or the exception
    that [f.write] raises for a text the encoding of the file cannot
    represent; [decode] answers [None] for a [UnicodeDecodeError]. *)
Class Platform : Type := {
  encode_text : string -> Exc string;
  decode : Encoding -> string -> option string;
  md5_hexdigest : string -> string;
  HAS_PDF_SUPPORT : bool;
  HAS_DOCX_SUPPORT : bool;
  pdf_load_content : string -> Exc string;
  docx_load_content : string -> Exc string;
}.

Inductive Loader : Type := TextLoader | PDFLoader | DOCXLoader.

Record DocumentMetadata : Type := mkDocumentMetadata {
  md_filename : string;
  md_filepath : string;
  md_file_size : Z;
  md_file_hash : string;
  md_document_type : DocumentType;
  md_processed_at : Z;
  md_chunk_count : Z;
  md_total_characters : Z;
  md_chunking_strategy : ChunkingStrategy;
  md_chunk_size : Z;
  md_chunk_overlap : Z;
}.

(** The dictionary that [process_document] returns. *)
Record ProcessingResult : Type := mkProcessingResult {
  chunks : list DocumentChunk;
  processing_metadata : DocumentMetadata;
  original_content : string;
}.

Section Processing.
Context `{Runtime} `{Platform} `{TextSplitters}.

(** The files of the machine, by the string of their path. *)
Local Abbreviation Files := (gmap string string).

(** [DocumentProcessor._get_document_type], on the lower-cased suffix *)
Definition _get_document_type (file_path : Path) : DocumentType :=
  let extension := str_lower (suffix file_path) in
  if String.eqb extension ".pdf" then PDF
  else if String.eqb extension ".docx" then DOCX
  else if String.eqb extension ".doc" then DOC
  else if String.eqb extension ".txt" then TXT
  else if String.eqb extension ".md" then MD
  else if String.eqb extension ".html" then HTML
  else if String.eqb extension ".json" then JSON
  else if String.eqb extension ".csv" then CSV
  else UNKNOWN.

(** [DocumentLoader._validate_file]: every entry of [Files] is a
    readable regular file. *)
Definition _validate_file (files : Files) (file_path : Path) : Exc string :=
  match files !! path_str file_path with
  | Some bytes => Ok bytes
  | None => Raise (FileNotFoundError ("File not found: " +:+ path_str file_path))
  end.

Definition encoding_attempts : list Encoding := [utf_8; utf_8_sig; latin_1; cp1252].

(** The loop of [TextLoader.load_content] over the encodings: a
    decoding error moves on to the next encoding, and so does content
    that is blank. *)
Fixpoint try_encodings (encodings : list Encoding) (bytes : string) : option string :=
  match encodings with
  | [] => None
  | encoding :: rest =>
      match decode encoding bytes with
      | Some content =>
          if PyStr.truthy (PyStr.strip content) then Some content
          else try_encodings rest bytes
      | None => try_encodings rest bytes
      end
  end.

(** [load_content] of the three loaders *)
Definition load_content (loader : Loader) (files : Files) (file_path : Path)
    : Exc string :=
  exc_bind (_validate_file files file_path) (fun bytes =>
    match loader with
    | TextLoader =>
        match try_encodings encoding_attempts bytes with
        | Some content => Ok content
        | None =>
            Raise (ValueError ("Could not decode file " +:+ path_str file_path
                               +:+ " with any supported encoding"))
        end
    | PDFLoader => pdf_load_content bytes
    | DOCXLoader => docx_load_content bytes
    end).

Record DocumentProcessor : Type := mkDocumentProcessor {
  processor_config : VectorStoreConfig;
  chunker : TextChunker;
}.

(** [DocumentProcessor._initialize_loaders], as the lookup
    [self.loaders.get(document_type)] *)
Definition loaders (document_type : DocumentType) : option Loader :=
  match document_type with
  | TXT | MD => Some TextLoader
  | PDF => if HAS_PDF_SUPPORT then Some PDFLoader else None
  | DOCX | DOC => if HAS_DOCX_SUPPORT then Some DOCXLoader else None
  | _ => None
  end.

(** [DocumentProcessor.__init__] *)
Definition DocumentProcessor_init (config : VectorStoreConfig) : Exc DocumentProcessor :=
  exc_bind (TextChunker_init RECURSIVE (config_chunk_size config)
              (config_chunk_overlap config))
    (fun chunker => Ok (mkDocumentProcessor config chunker)).

(** [DocumentProcessor.process_document]; [t] is the clock reading
    kept in the metadata. *)
Definition process_document (self : DocumentProcessor) (files : Files)
    (file_path : Path) (t : Z) : Exc ProcessingResult :=
  match files !! path_str file_path with
  | None => Raise (FileNotFoundError ("File not found: " +:+ path_str file_path))
  | Some bytes =>
      let document_type := _get_document_type file_path in
      match loaders document_type with
      | None =>
          Raise (ValueError ("Unsupported document type: "
                             +:+ document_type_value document_type
                             +:+ " for file " +:+ path_str file_path))
      | Some loader =>
          exc_bind
            (match load_content loader files file_path with
             | Ok content => Ok content
             | Raise e =>
                 Raise (ValueError ("Failed to load content from "
                                    +:+ path_str file_path +:+ ": " +:+ exc_str e))
             end)
            (fun content =>
               if PyStr.blank content
               then Raise (ValueError ("No content extracted from " +:+ path_str file_path))
               else
                 exc_bind (chunk_text (chunker self) content (path_name file_path))
                   (fun chunks =>
                      Ok (mkProcessingResult chunks
                            (mkDocumentMetadata (path_name file_path) (path_str file_path)
                               (PyStr.len bytes) (md5_hexdigest bytes) document_type t
                               (zlen chunks) (PyStr.len content)
                               (strategy (chunker self)) (chunk_size (chunker self))
                               (chunk_overlap (chunker self)))
                            content)))
      end
  end.

End Processing.

(** ** Knowledge-base insertion ([AddToKnowledgeBaseTool]) *)

(** The statistics kept by [DocumentManager] ([main_app.py]). *)
Record ProcessedDocument : Type := mkProcessedDocument {
  pd_filename : string;
  pd_path : string;
  pd_chunks : Z;
  pd_processed_at : string;
}.

Record DocumentManager : Type := mkDocumentManager {
  processed_documents : list ProcessedDocument;
  total_documents : Z;
  total_chunks : Z;
  last_updated : option string;
}.

Definition new_document_manager : DocumentManager := mkDocumentManager [] 0 0 None.

(** What [execute] reads and writes: the files, a counter naming the
    temporary files, the vector store, the document manager when one is
    attached, and the rest of the world with its clock. *)
Record KnowledgeBase (VS W : Type) : Type := mkKnowledgeBase {
  kb_files : gmap string string;
  kb_temp_counter : nat;
  kb_vector_store : VS;
  kb_document_manager : option DocumentManager;
  kb_world : W;
}.
Arguments mkKnowledgeBase {VS W}.
Arguments kb_files {VS W}.
Arguments kb_temp_counter {VS W}.
Arguments kb_vector_store {VS W}.
Arguments kb_document_manager {VS W}.
Arguments kb_world {VS W}.

(** [try: m finally: cleanup] *)
Definition try_finally {S A} (m : Py S A) (cleanup : Py S unit) : Py S A :=
  fun s => match m s with
           | (r, s') =>
               match cleanup s' with
               | (Ok _, s'') => (r, s'')
               | (Raise e, s'') => (Raise e, s'')
               end
           end.

Section KnowledgeBaseTool.
Context `{Runtime} `{Platform} `{TextSplitters}.
Context {VS W : Type} `{VectorStore VS} `{WorldOps W}.

Local Abbreviation KB := (KnowledgeBase VS W).

Definition kb_now : Py KB Z :=
  fun kb => let (t, w) := clock (kb_world kb) in
            (Ok t, mkKnowledgeBase (kb_files kb) (kb_temp_counter kb)
                     (kb_vector_store kb) (kb_document_manager kb) w).

(** [with tempfile.NamedTemporaryFile(mode='w', suffix='.txt',
    delete=False) as f: f.write(content); temp_path = f.name]: a new
    file in the temporary directory. When [f.write] raises, the block is
    left with the file created and nothing written to it, and no name
    is handed on. *)
Definition write_temp_file (content : string) : Py KB Path :=
  fun kb =>
    let temp_path := mkPath "/tmp" ("tmp" +:+ pretty (kb_temp_counter kb)) ".txt" in
    let created (bytes : string) :=
      mkKnowledgeBase (<[path_str temp_path := bytes]> (kb_files kb))
        (S (kb_temp_counter kb)) (kb_vector_store kb) (kb_document_manager kb)
        (kb_world kb) in
    match encode_text content with
    | Ok bytes => (Ok temp_path, created bytes)
    | Raise e => (Raise e, created "")
    end.

(** [os.unlink(temp_path)] *)
Definition unlink (file_path : Path) : Py KB unit :=
  fun kb =>
    match kb_files kb !! path_str file_path with
    | Some _ =>
        (Ok tt,
         mkKnowledgeBase (delete (path_str file_path) (kb_files kb))
           (kb_temp_counter kb) (kb_vector_store kb) (kb_document_manager kb)
           (kb_world kb))
    | None =>
        (Raise (FileNotFoundError ("No such file or directory: '"
                                   +:+ path_str file_path +:+ "'")), kb)
    end.

Definition kb_process_document (processor : DocumentProcessor) (file_path : Path)
    : Py KB ProcessingResult :=
  (t <- kb_now ;;
   fun kb => (process_document processor (kb_files kb) file_path t, kb))%py.

(** The diagnostic reading of the temporary file, made inside the
    inner [try] when no chunk came back:
    [open(temp_path, 'r', encoding='utf-8').read()] *)
Definition diagnostic_read (file_path : Path) : Py KB unit :=
  fun kb =>
    match kb_files kb !! path_str file_path with
    | Some bytes =>
        match decode utf_8 bytes with
        | Some _ => (Ok tt, kb)
        | None =>
            (Raise (mkExc "UnicodeDecodeError" "'utf-8' codec can't decode bytes"), kb)
        end
    | None => (Ok tt, kb)
    end.

(** The loop that retitles the chunks and extends their metadata;
    every chunk reads the clock. Entries of the caller's [metadata]
    override "source_type" and "added_at"; all of them override what the
    chunk carried. *)
Definition retitle_chunk (title source : string)
    (metadata : option (gmap string PyVal)) (chunk : DocumentChunk)
    : Py KB DocumentChunk :=
  (t <- kb_now ;;
   py_ret (mkDocumentChunk (chunk_id chunk) (content chunk) (chunk_index chunk) title
             (default ∅ metadata
              ∪ (<["source_type" := PStr source]>
                 (<["added_at" := PStr (isoformat t)]> ∅))
              ∪ chunk_metadata chunk)))%py.

Fixpoint retitle_chunks (title source : string)
    (metadata : option (gmap string PyVal)) (chunks : list DocumentChunk)
    : Py KB (list DocumentChunk) :=
  match chunks with
  | [] => py_ret []
  | chunk :: rest =>
      (chunk' <- retitle_chunk title source metadata chunk ;;
       rest' <- retitle_chunks title source metadata rest ;;
       py_ret (chunk' :: rest'))%py
  end.

(** [self.vector_store.add_documents(chunks)] *)
Definition kb_add_documents (chunks : list DocumentChunk) : Py KB bool :=
  fun kb =>
    let (ok, vs) := add_documents chunks (kb_vector_store kb) in
    (Ok ok, mkKnowledgeBase (kb_files kb) (kb_temp_counter kb) vs
              (kb_document_manager kb) (kb_world kb)).

(** The update of the document manager's statistics. *)
Definition record_document (title source : string) (n_chunks : Z)
    (t_processed t_updated : Z) (dm : DocumentManager) : DocumentManager :=
  mkDocumentManager
    (processed_documents dm
     ++ [mkProcessedDocument title ("tool:" +:+ source) n_chunks (isoformat t_processed)])
    (total_documents dm + 1)
    (total_chunks dm + n_chunks)
    (Some (isoformat t_updated)).

Definition update_document_manager (title source : string) (n_chunks : Z)
    : Py KB unit :=
  (t_processed <- kb_now ;;
   t_updated <- kb_now ;;
   py_modify (fun kb =>
     mkKnowledgeBase (kb_files kb) (kb_temp_counter kb) (kb_vector_store kb)
       (record_document title source n_chunks t_processed t_updated
          <$> kb_document_manager kb)
       (kb_world kb)))%py.

Definition failure (tool : string) (message : string) (seconds : Q) : ToolResult :=
  mkToolResult tool false PNone (Some message) seconds ∅.

(** [AddToKnowledgeBaseTool.execute] *)
Definition AddToKnowledgeBaseTool_execute (processor : DocumentProcessor)
    (content title source : string) (metadata : option (gmap string PyVal))
    : Py KB ToolResult :=
  (start_time <- kb_now ;;
   try_except
     (temp_path <- write_temp_file content ;;
      try_finally
        (processed <-
           try_except
             (result <- kb_process_document processor temp_path ;;
              _ <- match chunks result with
                   | [] => diagnostic_read temp_path
                   | _ => py_ret tt
                   end ;;
              py_ret (inr (chunks result)))
             (fun process_error =>
                end_time <- kb_now ;;
                py_ret (inl (failure "add_to_knowledge_base"
                               ("DocumentProcessor failed: " +:+ exc_str process_error)
                               (total_seconds start_time end_time)))) ;;
         match processed with
         | inl early_result => py_ret early_result
         | inr [] =>
             py_ret (failure "add_to_knowledge_base" "No content could be extracted" 0)
         | inr chunks =>
             chunks <- retitle_chunks title source metadata chunks ;;
             success <- kb_add_documents chunks ;;
             kb <- py_get ;;
             _ <- (if success && bool_decide (is_Some (kb_document_manager kb))
                   then update_document_manager title source (zlen chunks)
                   else py_ret tt) ;;
             end_time <- kb_now ;;
             kb <- py_get ;;
             py_ret (mkToolResult "add_to_knowledge_base" success
                       (PDict [ ("title", PStr title);
                                ("chunks_added", PInt (zlen chunks));
                                ("total_characters", PInt (PyStr.len content));
                                ("source", PStr source);
                                ("stats_updated",
                                  PBool (bool_decide (is_Some (kb_document_manager kb)))) ])
                       None
                       (total_seconds start_time end_time)
                       (<["source_type" := PStr source]> ∅))
         end)
        (unlink temp_path))
     (fun e =>
        end_time <- kb_now ;;
        py_ret (failure "add_to_knowledge_base" (exc_str e)
                  (total_seconds start_time end_time))))%py.

End KnowledgeBaseTool.

(** A platform to compute with: files hold their text as written, every
    codec reads it back, no PDF or Word support. *)
Definition plain_platform : Platform := {|
  encode_text s := Ok s;
  decode _ bytes := Some bytes;
  md5_hexdigest bytes := "md5:" +:+ bytes;
  HAS_PDF_SUPPORT := false;
  HAS_DOCX_SUPPORT := false;
  pdf_load_content _ := Raise (mkExc "ImportError" "PDF loading requires pypdf or langchain-community packages");
  docx_load_content _ := Raise (mkExc "ImportError" "DOCX loading requires python-docx or langchain-community packages");
|}.

(** The same platform with files in a seven-bit encoding: a text with
    a character outside that range cannot be written. *)
Fixpoint seven_bit (s : string) : bool :=
  match s with
  | EmptyString => true
  | String c rest => (nat_of_ascii c <? 128)%nat && seven_bit rest
  end.

Definition seven_bit_platform : Platform := {|
  encode_text s :=
    if seven_bit s then Ok s
    else Raise (mkExc "UnicodeEncodeError"
                  "'ascii' codec can't encode character: ordinal not in range(128)");
  decode _ bytes := Some bytes;
  md5_hexdigest bytes := "md5:" +:+ bytes;
  HAS_PDF_SUPPORT := false;
  HAS_DOCX_SUPPORT := false;
  pdf_load_content _ := Raise (mkExc "ImportError" "PDF loading requires pypdf or langchain-community packages");
  docx_load_content _ := Raise (mkExc "ImportError" "DOCX loading requires python-docx or langchain-community packages");
|}.

(** A world that is only a clock, advancing by one at every reading. *)
#[export] Instance counter_clock : WorldOps Z := {| clock t := (t, t + 1) |}.

(** ** Tool-use policy ([Agent._decide_tool_usage]) *)

(** One recommendation: [{"tool_name": ..., "parameters": {...}}]. *)
Record ToolCall : Type := mkToolCall {
  call_tool_name : string;
  call_parameters : gmap string PyVal;
}.

Record ToolDecision : Type := mkToolDecision {
  use_tools : bool;
  recommended_tools : list ToolCall;
  reasoning : string;
}.

Definition option_str (o : option string) : PyVal :=
  match o with Some s => PStr s | None => PNone end.

Section Policy.
Context `{Runtime}.

Definition keywords_for_search : list string :=
  ["search"; "find"; "lookup"; "document"; "information";
   "what"; "who"; "when"; "where"; "how"].
Definition keywords_for_analysis : list string :=
  ["analyze"; "analysis"; "statistics"; "count"; "length"; "structure"].
Definition keywords_for_github : list string :=
  ["github"; "code"; "repository"; "repo"; "function"; "class";
   "implementation"; "example"; "library"; "package"].
Definition keywords_for_code_search : list string :=
  ["def"; "function"; "class"; "import"; "async"; "await";
   "python"; "javascript"; "java"; "c++"].

(** [any(keyword in text for keyword in keywords)] *)
Definition any_keyword_in (keywords : list string) (text : string) : bool :=
  existsb (fun keyword => PyStr.contains keyword text) keywords.

(** The dictionary of [_detect_programming_language], in insertion
    order, which is the order a Python [dict] is iterated in. *)
Definition language_keywords : list (string * list string) :=
  [ ("python", ["python"; "def"; "import"; "class"; "pip"; "django"; "flask"; "pandas"]);
    ("javascript", ["javascript"; "js"; "function"; "var"; "let"; "const"; "node"; "react"; "vue"]);
    ("java", ["java"; "public"; "private"; "class"; "import"; "spring"; "maven"]);
    ("typescript", ["typescript"; "ts"; "interface"; "type"]);
    ("c++", ["c++"; "cpp"; "include"; "namespace"; "std"]);
    ("go", ["golang"; "go"; "func"; "package"]);
    ("rust", ["rust"; "fn"; "cargo"; "crate"]);
    ("php", ["php"; "function"; "class"; "composer"]);
    ("ruby", ["ruby"; "def"; "class"; "gem"]);
    ("swift", ["swift"; "func"; "class"; "var"; "let"]) ].

Fixpoint scan_languages (table : list (string * list string))
    (query_lower : string) : option string :=
  match table with
  | [] => None
  | (language, keywords) :: rest =>
      if any_keyword_in keywords query_lower then Some language
      else scan_languages rest query_lower
  end.

Definition _detect_programming_language (query : string) : option string :=
  let query_lower := str_lower query in
  scan_languages language_keywords query_lower.

Definition github_call (user_input : string) : ToolCall :=
  mkToolCall "github_search_with_content"
    (<["query" := PStr user_input]>
     (<["search_type" := PStr "code"]>
     (<["language" := option_str (_detect_programming_language user_input)]>
     (<["fetch_content" := PBool true]>
     (<["max_content_files" := PInt 3]> ∅))))).

Definition document_search_call (user_input : string) : ToolCall :=
  mkToolCall "document_search"
    (<["query" := PStr user_input]> (<["k" := PInt 5]> ∅)).

Definition text_analysis_call (user_input : string) : ToolCall :=
  mkToolCall "text_analysis"
    (<["text" := PStr user_input]> (<["analysis_type" := PStr "basic"]> ∅)).

Definition _decide_tool_usage (user_input : string) : ToolDecision :=
  let user_lower := str_lower user_input in
  let recommended_tools : list ToolCall := [] in
  let recommended_tools :=
    if any_keyword_in keywords_for_github user_lower
       || any_keyword_in keywords_for_code_search user_lower
    then recommended_tools ++ [github_call user_input]
    else if any_keyword_in keywords_for_search user_lower
    then recommended_tools ++ [document_search_call user_input]
    else recommended_tools in
  let recommended_tools :=
    if any_keyword_in keywords_for_analysis user_lower
    then recommended_tools ++ [text_analysis_call user_input]
    else recommended_tools in
  {| use_tools := bool_decide (0 < length recommended_tools)%nat;
     recommended_tools := recommended_tools;
     reasoning := "Found " +:+ pretty (length recommended_tools)
                  +:+ " relevant tools for this request" |}.

End Policy.

(** ** Tool manager ([ToolManager]) *)

(** One entry of the execution history. *)
Record HistoryEntry : Type := mkHistoryEntry {
  entry_tool_name : string;
  entry_parameters : gmap string PyVal;
  entry_result : ToolResult;
  entry_timestamp : string;
}.

Record ToolManager (W : Type) : Type := mkToolManager {
  tools : gmap string (Tool W);
  execution_history : list HistoryEntry;
}.
Arguments mkToolManager {W}.
Arguments tools {W}.
Arguments execution_history {W}.

(** The manager together with the world its tools act in. *)
Record Managed (W : Type) : Type := mkManaged {
  manager : ToolManager W;
  manager_world : W;
}.
Arguments mkManaged {W}.
Arguments manager {W}.
Arguments manager_world {W}.

Section ToolManagement.
Context `{Runtime} {W : Type} `{WorldOps W}.

Definition new_tool_manager : ToolManager W := mkToolManager ∅ [].

(** [ToolManager.register_tool] *)
Definition register_tool (tool : Tool W) (self : ToolManager W) : ToolManager W :=
  mkToolManager (<[name tool := tool]> (tools self)) (execution_history self).

(** [ToolManager.unregister_tool] *)
Definition unregister_tool (tool_name : string) (self : ToolManager W)
    : bool * ToolManager W :=
  match tools self !! tool_name with
  | Some _ => (true, mkToolManager (delete tool_name (tools self)) (execution_history self))
  | None => (false, self)
  end.

(** [ToolManager.get_tool] *)
Definition get_tool (tool_name : string) (self : ToolManager W) : option (Tool W) :=
  tools self !! tool_name.

(** [await tool.execute( **kwargs )] *)
Definition run_tool (tool : Tool W) (kwargs : gmap string PyVal)
    : Py (Managed W) ToolResult :=
  fun st =>
    let (r, w) := execute tool kwargs (manager_world st) in
    (r, mkManaged (manager st) w).

Definition managed_now : Py (Managed W) Z :=
  fun st =>
    let (t, w) := clock (manager_world st) in
    (Ok t, mkManaged (manager st) w).

(** [self.execution_history.append({...})] *)
Definition record_execution (tool_name : string) (kwargs : gmap string PyVal)
    (outcome : ToolResult) : Py (Managed W) unit :=
  (t <- managed_now ;;
   py_modify (fun st =>
     mkManaged
       (mkToolManager (tools (manager st))
          (execution_history (manager st)
           ++ [mkHistoryEntry tool_name kwargs outcome (isoformat t)]))
       (manager_world st)))%py.

(** The method is declared as [execute_tool(self, tool_name, **kwargs)].
    A keyword argument named like one of its own two parameters cannot
    be bound: the interpreter raises a [TypeError] at the call, before
    the body runs. When both names occur, the interpreter names the
    first of them in the order of the keyword arguments, which a [gmap]
    does not keep. *)
Definition binding_collision (kwargs : gmap string PyVal) : option string :=
  if bool_decide (is_Some (kwargs !! "tool_name")) then Some "tool_name"
  else if bool_decide (is_Some (kwargs !! "self")) then Some "self"
  else None.

(** [ToolManager.execute_tool], called as
    [execute_tool(tool_name, **kwargs)] *)
Definition execute_tool (tool_name : string) (kwargs : gmap string PyVal)
    : Py (Managed W) ToolResult :=
  match binding_collision kwargs with
  | Some parameter =>
      py_raise (TypeError ("ToolManager.execute_tool() got multiple values for argument '"
                           +:+ parameter +:+ "'"))
  | None =>
  (st <- py_get ;;
   match get_tool tool_name (manager st) with
   | None =>
       py_ret (mkToolResult tool_name false PNone
                 (Some ("Tool '" +:+ tool_name +:+ "' not found")) 0 ∅)
   | Some tool =>
       if negb (enabled tool)
       then py_ret (mkToolResult tool_name false PNone
                      (Some ("Tool '" +:+ tool_name +:+ "' is disabled")) 0 ∅)
       else
         try_except
           (outcome <- run_tool tool kwargs ;;
            _ <- record_execution tool_name kwargs outcome ;;
            py_ret outcome)
           (fun e =>
              let error_result :=
                mkToolResult tool_name false PNone
                  (Some ("Tool execution failed: " +:+ exc_str e)) 0 ∅ in
              _ <- record_execution tool_name kwargs error_result ;;
              py_ret error_result)
   end)%py
  end.

(** [ToolManager.get_execution_history] *)
Definition get_execution_history (limit : Z) (self : ToolManager W) : list HistoryEntry :=
  match execution_history self with
  | [] => []
  | entries => slice_from (- limit) entries
  end.

End ToolManagement.

(** ** LLM manager, conversations and the RAG chain ([llm_integration.py]) *)

Inductive MessageRole : Type := SYSTEM | USER | ASSISTANT.

Definition role_value (role : MessageRole) : string :=
  match role with
  | SYSTEM => "system"
  | USER => "user"
  | ASSISTANT => "assistant"
  end.

(** A message as it is sent to the model: [{"role": ..., "content": ...}] *)
Record ChatMessage : Type := mkChatMessage {
  chat_role : string;
  chat_content : string;
}.

Record ConversationMessage : Type := mkConversationMessage {
  message_role : MessageRole;
  message_content : string;
}.

Record Conversation : Type := mkConversation {
  conversation_key : string;
  messages : list ConversationMessage;
}.

(** [Conversation.add_message]; the validator of [ConversationMessage]
    rejects blank content and strips the rest. *)
Definition add_message (role : MessageRole) (text : string) (self : Conversation)
    : Exc Conversation :=
  if PyStr.blank text then Raise (ValueError "Message content cannot be empty")
  else Ok (mkConversation (conversation_key self)
             (messages self ++ [mkConversationMessage role (PyStr.strip text)])).

(** [Conversation.get_messages_for_llm] *)
Definition get_messages_for_llm (max_messages : option Z) (self : Conversation)
    : list ChatMessage :=
  let selected :=
    match max_messages with
    | Some n => if n =? 0 then messages self else slice_from (- n) (messages self)
    | None => messages self
    end in
  map (fun msg => mkChatMessage (role_value (message_role msg)) (message_content msg))
      selected.

(** What the chat-completion endpoint answers. *)
Record Completion : Type := mkCompletion {
  completion_content : string;
  completion_model : string;
  prompt_tokens : Z;
  completion_tokens : Z;
  total_tokens : Z;
  finish_reason : string;
  completion_id : string;
}.

Record LLMResponse : Type := mkLLMResponse {
  llm_content : string;
  llm_model : string;
  llm_usage : list (string * PyVal);
  llm_metadata : list (string * PyVal);
}.

(** The model endpoint, part of the world: a call returns a completion
    or raises. *)
Class LLMClient (W : Type) : Type := {
  chat_completions_create : list ChatMessage -> W -> Exc Completion * W;
}.

(** [LLMManager]: [client] tells whether the client was initialised
    (an API key was found and the library imported). *)
Record LLMManager : Type := mkLLMManager {
  client : bool;
}.

(** A prompt template, its replacement fields taken apart from the
    text between them. [Field f] is the replacement field written [{f}],
    with nothing but a name or a number between the braces: a field with
    an attribute or an index access, a conversion or a format
    specification is not one of these pieces. *)
Inductive TemplatePiece : Type :=
  | Text (s : string)
  | Field (field_name : string).

(** The characters that make more of a field than a name or a
    number, and the field names without any of them. *)
Definition field_syntax : string := ".[]!:{}".

Fixpoint name_or_number (f : string) : bool :=
  match f with
  | EmptyString => true
  | String c rest => negb (PyStr.char_in field_syntax c) && name_or_number rest
  end.

Record PromptTemplate : Type := mkPromptTemplate {
  template_name : string;
  system_prompt : string;
  user_prompt_template : list TemplatePiece;
}.

(** A field whose name is empty or a run of decimal digits refers to
    a positional argument, by its place or by the number. *)
Definition is_digit (c : ascii) : bool :=
  let n := nat_of_ascii c in ((48 <=? n) && (n <=? 57))%nat.

Fixpoint positional (f : string) : bool :=
  match f with
  | EmptyString => true
  | String c rest => is_digit c && positional rest
  end.

Fixpoint digits_value (acc : Z) (f : string) : Z :=
  match f with
  | EmptyString => acc
  | String c rest => digits_value (10 * acc + (Z.of_nat (nat_of_ascii c) - 48)) rest
  end.

(** What a positional field raises when there are no positional
    arguments: an [IndexError], or a [ValueError] for a number beyond
    the largest index of a 64-bit interpreter. *)
Definition positional_error (f : string) : PyExc :=
  if digits_value 0 f <=? 9223372036854775807
  then IndexError ("Replacement index " +:+ pretty (digits_value 0 f)
                   +:+ " out of range for positional args tuple")
  else ValueError "Too many decimal digits in format string".

(** [str.format( **kwargs )], without positional arguments: the fields
    are replaced from left to right; a named field without value is a
    [KeyError]. *)
Fixpoint format_pieces (pieces : list TemplatePiece) (kwargs : gmap string string)
    : Exc string :=
  match pieces with
  | [] => Ok ""
  | Text s :: rest => exc_bind (format_pieces rest kwargs) (fun tail => Ok (s +:+ tail))
  | Field f :: rest =>
      if positional f then Raise (positional_error f)
      else
        match kwargs !! f with
        | Some v => exc_bind (format_pieces rest kwargs) (fun tail => Ok (v +:+ tail))
        | None => Raise (KeyError ("'" +:+ f +:+ "'"))
        end
  end.

(** [PromptTemplate.format_user_prompt], declared as
    [format_user_prompt(self, **kwargs)]: a keyword argument named
    "self" cannot be bound, and only the [KeyError] of the formatting is
    turned into a [ValueError]. *)
Definition format_user_prompt (self : PromptTemplate) (kwargs : gmap string string)
    : Exc string :=
  if bool_decide (is_Some (kwargs !! "self"))
  then Raise (TypeError
                "PromptTemplate.format_user_prompt() got multiple values for argument 'self'")
  else
    match format_pieces (user_prompt_template self) kwargs with
    | Ok s => Ok s
    | Raise e =>
        if String.eqb (exc_class e) "KeyError"
        then Raise (ValueError ("Missing required template variable: "
                                +:+ PyStr.strip_by (PyStr.char_in "'") (exc_str e)))
        else Raise e
    end.

Definition newline : string := String "010"%char EmptyString.

(** [RAGChain._setup_default_templates] *)
Definition default_templates : gmap string PromptTemplate :=
  <["rag_qa" :=
      mkPromptTemplate "rag_qa"
        ("You are a helpful AI assistant that answers questions based on provided context. "
         +:+ newline
         +:+ "Use the retrieved documents to provide accurate responses. If the context doesn't contain enough information, say so clearly.")
        [ Text ("Context from retrieved documents:" +:+ newline);
          Field "context";
          Text (newline +:+ newline +:+ "Question: ");
          Field "question";
          Text (newline +:+ newline
                +:+ "Please provide a helpful answer based on the context above.") ]]>
  (<["chat" :=
      mkPromptTemplate "chat"
        ("You are a helpful AI assistant engaging in conversation. " +:+ newline
         +:+ "Use retrieved context when relevant.")
        [ Text ("Retrieved Context:" +:+ newline);
          Field "context";
          Text (newline +:+ newline +:+ "User Message: ");
          Field "user_message";
          Text (newline +:+ newline +:+ "Please respond naturally.") ]]> ∅).

(** The dictionary that [process_query] returns: with [response] on
    success, with [error] on failure. *)
Record RagResult : Type := mkRagResult {
  rag_success : bool;
  rag_response : option string;
  rag_error : option string;
  retrieval_results : list SearchResult;
  context_used : string;
}.

(** [enumerate(items, start)] *)
Fixpoint enumerate_from {A} (start : Z) (items : list A) : list (Z * A) :=
  match items with
  | [] => []
  | x :: rest => (start, x) :: enumerate_from (start + 1) rest
  end.

(** [separator.join(parts)] *)
Definition join (separator : string) (parts : list string) : string :=
  String.concat separator parts.

(** The state the chain works on: the conversations of the
    conversation manager, and the world that holds the vector store, the
    model endpoint and the clock. *)
Record ChainState (W : Type) : Type := mkChainState {
  conversations : gmap string Conversation;
  chain_world : W;
}.
Arguments mkChainState {W}.
Arguments conversations {W}.
Arguments chain_world {W}.

Section RAGChain.
Context {W : Type} `{VectorStore W} `{LLMClient W}.

(** [LLMManager.generate_response] *)
Definition generate_response (self : LLMManager) (msgs : list ChatMessage)
    : Py W LLMResponse :=
  if negb (client self)
  then py_raise (ValueError "OpenAI client not initialized. Check API key and dependencies.")
  else
    try_except
      (fun w =>
         match chat_completions_create msgs w with
         | (Ok response, w') =>
             (Ok (mkLLMResponse (completion_content response) (completion_model response)
                    [ ("prompt_tokens", PInt (prompt_tokens response));
                      ("completion_tokens", PInt (completion_tokens response));
                      ("total_tokens", PInt (total_tokens response)) ]
                    [ ("finish_reason", PStr (finish_reason response));
                      ("response_id", PStr (completion_id response)) ]),
              w')
         | (Raise e, w') => (Raise e, w')
         end)
      (fun e => py_raise (ValueError ("Failed to generate response: " +:+ exc_str e))).

(** A computation on the world, run inside the chain's state. *)
Definition in_world {A} (m : Py W A) : Py (ChainState W) A :=
  fun st =>
    let (r, w) := m (chain_world st) in
    (r, mkChainState (conversations st) w).

Definition chain_retrieve (query : string) (k : Z) (min_score : PyFloat)
    : Py (ChainState W) (list SearchResult) :=
  fun st =>
    let (results, w) := retrieve_documents query k min_score (chain_world st) in
    (Ok results, mkChainState (conversations st) w).

(** Step 6 of [process_query]: both turns are added to the
    conversation, which is created when it does not exist. *)
Definition update_conversation (conversation_id : string) (query answer : string)
    : Py (ChainState W) unit :=
  fun st =>
    let conversation :=
      default (mkConversation conversation_id []) (conversations st !! conversation_id) in
    match add_message USER query conversation with
    | Raise e =>
        (Raise e, mkChainState (<[conversation_id := conversation]> (conversations st))
                    (chain_world st))
    | Ok with_query =>
        match add_message ASSISTANT answer with_query with
        | Raise e =>
            (Raise e, mkChainState (<[conversation_id := with_query]> (conversations st))
                        (chain_world st))
        | Ok with_answer =>
            (Ok tt, mkChainState (<[conversation_id := with_answer]> (conversations st))
                      (chain_world st))
        end
    end.

(** [RAGChain.process_query] *)
Definition process_query (llm_manager : LLMManager)
    (templates : gmap string PromptTemplate)
    (query : string) (conversation_id : option string) (template : string)
    (retrieval_k : Z) (min_score : PyFloat) : Py (ChainState W) RagResult :=
  (search_results <- chain_retrieve query retrieval_k min_score ;;
   let context_parts :=
     map (fun '(i, found) =>
            "Document " +:+ pretty i +:+ ":" +:+ newline +:+ content (chunk found))
         (enumerate_from 1 search_results) in
   let context :=
     match context_parts with
     | [] => "No relevant documents found."
     | _ => join (newline +:+ newline) context_parts
     end in
   match templates !! template with
   | None => py_raise (ValueError ("Template '" +:+ template +:+ "' not found"))
   | Some template =>
       st <- py_get ;;
       let history :=
         match conversation_id with
         | Some id =>
             if PyStr.truthy id
             then match conversations st !! id with
                  | Some conversation => get_messages_for_llm (Some 10) conversation
                  | None => []
                  end
             else []
         | None => []
         end in
       user_prompt <-
         py_lift (format_user_prompt template
                    (<["context" := context]>
                     (<["question" := query]> (<["user_message" := query]> ∅)))) ;;
       let msgs :=
         [mkChatMessage "system" (system_prompt template)] ++ history
         ++ [mkChatMessage "user" user_prompt] in
       try_except
         (llm_response <- in_world (generate_response llm_manager msgs) ;;
          _ <- match conversation_id with
               | Some id =>
                   if PyStr.truthy id
                   then update_conversation id query (llm_content llm_response)
                   else py_ret tt
               | None => py_ret tt
               end ;;
          py_ret (mkRagResult true (Some (llm_content llm_response)) None
                    search_results context))
         (fun e =>
            py_ret (mkRagResult false None (Some (exc_str e)) search_results context))
   end)%py.

End RAGChain.

(** ** The agent ([Agent]) *)

(** The dictionary returned by [_generate_simple_response] and
    [_generate_response_with_tools]. *)
Record GeneratedResponse : Type := mkGeneratedResponse {
  response : string;
  tools_used : list string;
  rag_results : list SearchResult;
  response_error : option string;
  fallback_response : bool;
  combined_context : bool;
}.

(** The dictionary returned by [process_request]: with [response],
    [tools_used] and [memory_items] on success, with [error] on failure. *)
Record RequestResult : Type := mkRequestResult {
  request_success : bool;
  request_response : option string;
  request_tools_used : option (list string);
  request_error : option string;
  request_execution_time : Q;
  request_conversation_id : string;
  memory_items : option Z;
}.

(** The attributes of an agent that a request does not change. *)
Record Agent : Type := mkAgent {
  conversation_id : string;
  llm_manager : LLMManager;
}.

(** What a request reads and writes. *)
Record AgentState (W : Type) : Type := mkAgentState {
  memory : AgentMemory;
  tool_manager : ToolManager W;
  agent_conversations : gmap string Conversation;
  agent_world : W;
}.
Arguments mkAgentState {W}.
Arguments memory {W}.
Arguments tool_manager {W}.
Arguments agent_conversations {W}.
Arguments agent_world {W}.

(** [ToolResult] as a value, for the working memory. *)
Definition ToolResult_value (r : ToolResult) : PyVal :=
  PObj "ToolResult"
    [ ("tool_name", PStr (tool_name r));
      ("success", PBool (success r));
      ("result", result r);
      ("error", option_str (error r));
      ("execution_time", PFloat (execution_time r));
      ("metadata", PDict (map_to_list (metadata r))) ].

Section AgentCore.
Context `{Runtime} {W : Type} `{WorldOps W} `{VectorStore W} `{LLMClient W}.

Local Abbreviation St := (AgentState W).

(** Running a computation of the tool manager, of the chain, or of the
    world inside the agent's state. *)
Definition with_manager {A} (m : Py (Managed W) A) : Py St A :=
  fun st =>
    let (r, ms) := m (mkManaged (tool_manager st) (agent_world st)) in
    (r, mkAgentState (memory st) (manager ms) (agent_conversations st)
          (manager_world ms)).

Definition with_chain {A} (m : Py (ChainState W) A) : Py St A :=
  fun st =>
    let (r, cs) := m (mkChainState (agent_conversations st) (agent_world st)) in
    (r, mkAgentState (memory st) (tool_manager st) (conversations cs) (chain_world cs)).

Definition with_world {A} (m : Py W A) : Py St A :=
  fun st =>
    let (r, w) := m (agent_world st) in
    (r, mkAgentState (memory st) (tool_manager st) (agent_conversations st) w).

Definition agent_now : Py St Z := with_world now.

(** [self.memory.add_to_short_term(item)], with its two clock readings *)
Definition remember (memory_item : gmap string PyVal) : Py St unit :=
  (t_item <- agent_now ;;
   t_update <- agent_now ;;
   py_modify (fun st : St =>
     mkAgentState (add_to_short_term memory_item t_item t_update (memory st))
       (tool_manager st) (agent_conversations st) (agent_world st)))%py.

(** [self.memory.update_working_memory(key, value)] *)
Definition note_working_memory (key : string) (value : PyVal) : Py St unit :=
  (t_update <- agent_now ;;
   py_modify (fun st : St =>
     mkAgentState (update_working_memory key value t_update (memory st))
       (tool_manager st) (agent_conversations st) (agent_world st)))%py.

(** [Agent._execute_recommended_tools] *)
Definition _execute_recommended_tools (recommended : list ToolCall)
    : Py St (list ToolResult) :=
  py_for recommended []
    (fun results tool_config =>
       outcome <- with_manager
                    (execute_tool (call_tool_name tool_config)
                       (call_parameters tool_config)) ;;
       py_ret (results ++ [outcome]))%py.

(** *** The context built from the tool results *)

(** One hit of the document search, in the loop over
    [enumerate(search_results[:3], 1)]. *)
Definition render_search_hit (acc : Exc (list string)) (entry : Z * PyVal)
    : Exc (list string) :=
  let '(i, search_result) := entry in
  exc_bind acc (fun parts =>
  exc_bind (py_getitem search_result "content") (fun text =>
  exc_bind (py_slice_to 200 text) (fun preview =>
    Ok (parts ++ ["Search Result " +:+ pretty i +:+ ": "
                  +:+ py_format preview +:+ "..."])))).

(** The branch for "document_search": the first three hits, each cut
    to 200 characters. *)
Definition render_document_search (payload : PyVal) (parts : list string)
    : Exc (list string) :=
  exc_bind (py_get_method payload "results" (PList [])) (fun search_results =>
  exc_bind (py_slice_to 3 search_results) (fun top =>
  exc_bind (py_iter top) (fun items =>
    fold_left render_search_hit (enumerate_from 1 items) (Ok parts)))).

(** The branch for "text_analysis". *)
Definition render_text_analysis (analysis : PyVal) (parts : list string)
    : Exc (list string) :=
  exc_bind (py_get_method analysis "word_count" (PInt 0)) (fun word_count =>
  exc_bind (py_get_method analysis "character_count" (PInt 0)) (fun character_count =>
    Ok (parts ++ ["Text Analysis: " +:+ py_format word_count +:+ " words, "
                  +:+ py_format character_count +:+ " characters"]))).

(** One result of the repository search, an object read by
    attribute. *)
Definition render_github_result (acc : Exc (list string)) (entry : Z * PyVal)
    : Exc (list string) :=
  let '(i, github_result) := entry in
  exc_bind acc (fun parts =>
  exc_bind (py_getattr github_result "title") (fun title =>
  exc_bind (py_getattr github_result "url") (fun url =>
  exc_bind (py_getattr github_result "description") (fun description =>
  exc_bind (py_getattr github_result "repository") (fun repository =>
  exc_bind (py_getattr github_result "language") (fun language =>
  let description := py_or description (PStr "No description") in
  let repository := py_or repository (PStr "Unknown repo") in
  let language := py_or language (PStr "Unknown language") in
  exc_bind (py_slice_to 150 description) (fun short_description =>
    Ok (parts ++ ["GitHub Result " +:+ pretty i +:+ ": " +:+ py_format title
                  +:+ newline
                  +:+ "Repository: " +:+ py_format repository +:+ " ("
                  +:+ py_format language +:+ ")" +:+ newline
                  +:+ "Description: " +:+ py_format short_description +:+ "..."
                  +:+ newline
                  +:+ "URL: " +:+ py_format url])))))))).

(** The branch for "github_search" and "github_code_search". *)
Definition render_github_search (payload : PyVal) (parts : list string)
    : Exc (list string) :=
  exc_bind (py_get_method payload "results" (PList [])) (fun github_results =>
  exc_bind (py_get_method payload "total_count" (PInt 0)) (fun total_count =>
  exc_bind (py_get_method payload "search_type" (PStr "code")) (fun search_type =>
  let parts :=
    parts ++ ["GitHub Search Results (" +:+ py_format search_type +:+ "): Found "
              +:+ py_format total_count +:+ " total results"] in
  exc_bind (py_slice_to 3 github_results) (fun top =>
  exc_bind (py_iter top) (fun items =>
    fold_left render_github_result (enumerate_from 1 items) (Ok parts)))))).

(** [self._detect_programming_language(content)] on a value: only a
    string has [lower]. *)
Definition detect_language_of (text : PyVal) : Exc (option string) :=
  match text with
  | PStr s => Ok (_detect_programming_language s)
  | _ => Raise (AttributeError ("'" +:+ type_name text
                                +:+ "' object has no attribute 'lower'"))
  end.

(** The [try] block that feeds fetched content to the knowledge base;
    whatever it raises is caught and printed. *)
Definition add_fetched_content (user_input : string)
    (repository title url text : PyVal) : Py St unit :=
  try_except
    (language <- py_lift (detect_language_of text) ;;
     add_result <-
       with_manager
         (execute_tool "add_to_knowledge_base"
            (<["content" := text]>
             (<["title" := PStr ("GitHub: " +:+ py_format repository +:+ "/"
                                 +:+ py_format title)]>
             (<["source" := PStr "github"]>
             (<["metadata" :=
                  PDict [ ("repository", repository);
                          ("url", url);
                          ("language", option_str language);
                          ("search_query", PStr user_input) ]]> ∅))))) ;;
     if success add_result
     then _ <- py_lift (py_get_method (result add_result) "chunks_added" (PInt 0)) ;;
          py_ret tt
     else py_ret tt)%py
    (fun _ => py_ret tt).

(** The preview of fetched content: 500 characters and an ellipsis
    when it is longer, the content itself otherwise, or a placeholder. *)
Definition content_preview (text : PyVal) : Exc PyVal :=
  exc_bind (if py_truthy text
            then exc_bind (py_len text) (fun n => Ok (500 <? n))
            else Ok false)
    (fun long =>
       if long
       then exc_bind (py_slice_to 500 text) (fun cut => py_add_str cut "...")
       else Ok (py_or text (PStr "No content available"))).

(** One result of the search with content: the fetched content goes
    to the knowledge base and, as a preview, into the context. *)
Definition render_content_result (user_input : string) (parts : list string)
    (entry : Z * PyVal) : Py St (list string) :=
  let '(i, github_result) := entry in
  (title <- py_lift (py_get_method github_result "title" (PStr "Unknown")) ;;
   repository <- py_lift (py_get_method github_result "repository"
                            (PStr "Unknown repo")) ;;
   url <- py_lift (py_get_method github_result "url" (PStr "")) ;;
   text <- py_lift (py_get_method github_result "content" PNone) ;;
   _ <- (if py_truthy text
         then _ <- py_lift (py_len text) ;;
              add_fetched_content user_input repository title url text
         else py_ret tt) ;;
   preview <- py_lift (content_preview text) ;;
   py_ret (parts ++ ["GitHub Result " +:+ pretty i +:+ ": " +:+ py_format title
                     +:+ newline
                     +:+ "Repository: " +:+ py_format repository +:+ newline
                     +:+ "URL: " +:+ py_format url +:+ newline
                     +:+ "Content: " +:+ py_format preview]))%py.

(** The branch for "github_search_with_content". *)
Definition render_github_content (user_input : string) (payload : PyVal)
    (parts : list string) : Py St (list string) :=
  (github_results <- py_lift (py_get_method payload "results" (PList [])) ;;
   total_count <- py_lift (py_get_method payload "total_count" (PInt 0)) ;;
   files_with_content <- py_lift (py_get_method payload "files_with_content" (PInt 0)) ;;
   let parts :=
     parts ++ ["GitHub Search with Content: Found " +:+ py_format total_count
               +:+ " total results, fetched content from "
               +:+ py_format files_with_content +:+ " files"] in
   top <- py_lift (py_slice_to 3 github_results) ;;
   items <- py_lift (py_iter top) ;;
   py_for (enumerate_from 1 items) parts (render_content_result user_input))%py.

(** The loop of [_generate_response_with_tools] over the tool results:
    the parts of the tool context and the names of the tools that
    succeeded. *)
Definition build_tool_context (user_input : string) (tool_results : list ToolResult)
    : Py St (list string * list string) :=
  py_for tool_results ([], [])
    (fun '(parts, used) outcome =>
       if success outcome
       then
         let used := used ++ [tool_name outcome] in
         let named (n : string) := String.eqb (tool_name outcome) n in
         if named "document_search" && py_truthy (result outcome)
         then parts <- py_lift (render_document_search (result outcome) parts) ;;
              py_ret (parts, used)
         else if named "text_analysis" && py_truthy (result outcome)
         then parts <- py_lift (render_text_analysis (result outcome) parts) ;;
              py_ret (parts, used)
         else if (named "github_search" || named "github_code_search")
                 && py_truthy (result outcome)
         then parts <- py_lift (render_github_search (result outcome) parts) ;;
              py_ret (parts, used)
         else if named "github_search_with_content" && py_truthy (result outcome)
         then parts <- render_github_content user_input (result outcome) parts ;;
              py_ret (parts, used)
         else py_ret (parts, used)
       else py_ret (parts, used))%py.

Definition agent_process_query (self : Agent) (user_input : string)
    : Py St RagResult :=
  with_chain
    (process_query (llm_manager self) default_templates user_input
       (Some (conversation_id self)) "rag_qa" 5 (FiniteFloat 0)).

Definition agent_generate (self : Agent) (msgs : list ChatMessage)
    : Py St LLMResponse :=
  with_world (generate_response (llm_manager self) msgs).

Definition combined_system_prompt : string :=
  "You are a helpful AI assistant. Use both the knowledge base documents and tool results to provide comprehensive and accurate responses. Prioritize recent information from tools while leveraging foundational knowledge from documents.".

Definition combined_user_prompt (user_input rag_context tool_context : string) : string :=
  "User Request: " +:+ user_input +:+ newline +:+ newline
  +:+ "Knowledge Base Context:" +:+ newline
  +:+ (if PyStr.truthy rag_context then rag_context
       else "No relevant documents found in knowledge base.")
  +:+ newline +:+ newline
  +:+ "Tool Results:" +:+ newline +:+ tool_context +:+ newline +:+ newline
  +:+ "Please provide a comprehensive response that combines insights from both the knowledge base and tool results.".

(** [Agent._generate_response_with_tools] *)
Definition _generate_response_with_tools (self : Agent) (user_input : string)
    (tool_results : list ToolResult) : Py St GeneratedResponse :=
  (built <- build_tool_context user_input tool_results ;;
   let '(tool_context_parts, used) := built in
   let tool_context :=
     match tool_context_parts with
     | [] => "No tool results available."
     | _ => join (newline +:+ newline) tool_context_parts
     end in
   rag_result <- agent_process_query self user_input ;;
   let rag_context :=
     if rag_success rag_result
        && match retrieval_results rag_result with [] => false | _ => true end
     then join (newline +:+ newline)
            (map (fun '(i, found) =>
                    "Knowledge Base Document " +:+ pretty i +:+ ": "
                    +:+ PyStr.take 300 (content (chunk found)) +:+ "...")
                 (enumerate_from 1 (take 3 (retrieval_results rag_result))))
     else "" in
   if match tool_context_parts with [] => false | _ => true end
      || PyStr.truthy rag_context
   then
     let msgs :=
       [ mkChatMessage "system" combined_system_prompt;
         mkChatMessage "user" (combined_user_prompt user_input rag_context tool_context) ] in
     try_except
       (llm_response <- agent_generate self msgs ;;
        py_ret (mkGeneratedResponse (llm_content llm_response) used
                  (retrieval_results rag_result) None false true))
       (fun e =>
          py_ret (mkGeneratedResponse
                    ("I encountered an issue generating a response: " +:+ exc_str e)
                    used [] (Some (exc_str e)) false false))
   else if rag_success rag_result
   then
     match rag_response rag_result with
     | Some answer =>
         py_ret (mkGeneratedResponse answer used (retrieval_results rag_result)
                   None false false)
     | None => py_raise (KeyError "'response'")
     end
   else
     py_ret (mkGeneratedResponse
               ("I encountered an issue generating a response: "
                +:+ default "Unknown error" (rag_error rag_result))
               used [] (rag_error rag_result) false false))%py.

Definition fallback_system_prompt : string :=
  "You are a helpful AI assistant. The user has asked a question but no relevant documents were found in the knowledge base. Please provide a helpful response based on your general knowledge. If the question is about programming, provide code examples. If you don't know something specific, be honest about limitations but still try to be helpful with general guidance.".

(** [Agent._generate_simple_response] *)
Definition _generate_simple_response (self : Agent) (user_input : string)
    : Py St GeneratedResponse :=
  (rag_result <- agent_process_query self user_input ;;
   if rag_success rag_result
   then
     match rag_response rag_result with
     | Some answer =>
         py_ret (mkGeneratedResponse answer [] (retrieval_results rag_result)
                   None false false)
     | None => py_raise (KeyError "'response'")
     end
   else
     try_except
       (llm_response <-
          agent_generate self
            [ mkChatMessage "system" fallback_system_prompt;
              mkChatMessage "user" user_input ] ;;
        py_ret (mkGeneratedResponse (llm_content llm_response) [] [] None true false))
       (fun e =>
          py_ret (mkGeneratedResponse
                    ("I apologize, but I encountered an issue generating a response. Please try rephrasing your question or adding more context. Error: "
                     +:+ exc_str e)
                    [] [] (Some (exc_str e)) true false)))%py.

(** [Agent.process_request] *)
Definition process_request (self : Agent) (user_input : string) (with_tools : bool)
    : Py St RequestResult :=
  (start_time <- agent_now ;;
   _ <- remember (<["type" := PStr "user_input"]>
                  (<["content" := PStr user_input]>
                  (<["conversation_id" := PStr (conversation_id self)]> ∅))) ;;
   try_except
     (response_result <-
        (if with_tools
         then
           let tool_decision := _decide_tool_usage user_input in
           if use_tools tool_decision
           then
             tool_results <- _execute_recommended_tools
                               (recommended_tools tool_decision) ;;
             _ <- note_working_memory "recent_tool_results"
                    (PList (map ToolResult_value tool_results)) ;;
             _generate_response_with_tools self user_input tool_results
           else _generate_simple_response self user_input
         else _generate_simple_response self user_input) ;;
      _ <- remember (<["type" := PStr "agent_response"]>
                     (<["content" := PStr (response response_result)]>
                     (<["conversation_id" := PStr (conversation_id self)]>
                     (<["tools_used" :=
                          PList (map PStr (tools_used response_result))]> ∅)))) ;;
      end_time <- agent_now ;;
      st <- py_get ;;
      py_ret (mkRequestResult true (Some (response response_result))
                (Some (tools_used response_result)) None
                (total_seconds start_time end_time) (conversation_id self)
                (Some (zlen (short_term_memory (memory st))))))
     (fun e =>
        end_time <- agent_now ;;
        _ <- remember (<["type" := PStr "error"]>
                       (<["content" := PStr (exc_str e)]>
                       (<["conversation_id" := PStr (conversation_id self)]> ∅))) ;;
        py_ret (mkRequestResult false None None (Some (exc_str e))
                  (total_seconds start_time end_time) (conversation_id self) None)))%py.

End AgentCore.


(** ** Further methods of the sources *)

Section ProcessingMore.
Context `{Runtime} `{Platform}.

(** [DocumentProcessor.can_process] *)
Definition can_process (file_path : Path) : bool :=
  bool_decide (is_Some (loaders (_get_document_type file_path))).

End ProcessingMore.

(** ** Document search ([DocumentSearchTool], [agent_core.py]) *)

(** One entry of the "results" of the tool's payload. *)
Definition search_hit (found : SearchResult) : PyVal :=
  PDict [ ("content", PStr (content (chunk found)));
          ("score", PFloat (score found));
          ("source", PStr (source_document (chunk found)));
          ("chunk_index", PInt (chunk_index (chunk found))) ].

Section DocumentSearch.
Context {W : Type} `{WorldOps W} `{VectorStore W}.

(** [self.retriever.retrieve_documents(query, k=k, min_score=min_score)],
    the vector store being part of the world. *)
Definition world_retrieve (query : string) (k : Z) (min_score : PyFloat)
    : Py W (list SearchResult) :=
  fun w =>
    let (results, w') := retrieve_documents query k min_score w in
    (Ok results, w').

(** [DocumentSearchTool.execute(query, k=5, min_score=0.0)], called
    with arguments of the declared types. *)
Definition DocumentSearchTool_execute (query : string) (k : Z) (min_score : PyFloat)
    : Py W ToolResult :=
  (start_time <- now ;;
   try_except
     (results <- world_retrieve query k min_score ;;
      end_time <- now ;;
      py_ret (mkToolResult "document_search" true
                (PDict [ ("query", PStr query);
                         ("results", PList (map search_hit results));
                         ("total_results", PInt (zlen results)) ])
                None
                (total_seconds start_time end_time)
                (<["retrieval_k" := PInt k]> (<["min_score" := float_value min_score]> ∅))))
     (fun e =>
        end_time <- now ;;
        py_ret (mkToolResult "document_search" false PNone (Some (exc_str e))
                  (total_seconds start_time end_time) ∅)))%py.

End DocumentSearch.

(** ** Embeddings and the Chroma store ([vector_store.py]) *)

Record EmbeddingResult : Type := mkEmbeddingResult {
  embedding_vector : list Q;
  embedding_model_name : string;
  embedding_dimensions : Z;
}.

(** [EmbeddingResult.validate_embedding] *)
Definition validate_embedding (v : list Q) : Exc (list Q) :=
  match v with
  | [] => Raise (ValueError "Embedding cannot be empty")
  | _ => Ok v
  end.

Definition EmbeddingResult_new (vector : list Q) (model : string) (dimensions : Z)
    : Exc EmbeddingResult :=
  exc_bind (validate_embedding vector) (fun vector =>
    Ok (mkEmbeddingResult vector model dimensions)).

(** [EmbeddingManager]: [provider] tells whether [self.embeddings]
    was initialised. *)
Record EmbeddingManager : Type := mkEmbeddingManager {
  provider : bool;
  manager_model : string;
}.

(** The metadata of a stored chunk as [add_documents] writes them:
    the identifier and the source are strings, the index is an integer;
    any of them may be missing. [meta_items] is the whole dictionary. *)
Record ChromaMeta : Type := mkChromaMeta {
  meta_chunk_id : option string;
  meta_chunk_index : option Z;
  meta_source_document : option string;
  meta_items : gmap string PyVal;
}.

(** What [collection.query] returns: for each of the three keys
    [None] or one list per query embedding. *)
Record QueryResult : Type := mkQueryResult {
  query_documents : option (list (list string));
  query_metadatas : option (list (list ChromaMeta));
  query_distances : option (list (list Q));
}.

(** The embedding provider and the Chroma collection, parts of the
    world: each call returns or raises. *)
Class ChromaClient (C : Type) : Type := {
  embed_query : string -> C -> Exc (list Q) * C;
  collection_query : list (list Q) -> Z -> C -> Exc QueryResult * C;
}.

(** [min(a, b)] and [max(a, b)] on floats: the first argument is
    returned unless the second is strictly smaller, respectively
    larger. *)
Definition float_min (a b : Q) : Q := if Qle_bool a b then a else b.
Definition float_max (a b : Q) : Q := if Qle_bool b a then a else b.

(** [max(0.0, min(1.0, 1.0 - distance))] *)
Definition distance_to_score (distance : Q) : Q :=
  float_max 0 (float_min 1 (1 - distance)).

(** [zip(a, b, c)] *)
Fixpoint zip3 {A B C} (a : list A) (b : list B) (c : list C) : list (A * B * C) :=
  match a, b, c with
  | x :: a', y :: b', z :: c' => (x, y, z) :: zip3 a' b' c'
  | _, _, _ => []
  end.

(** [x[0] if x else []] *)
Definition first_or_empty {A} (x : option (list (list A))) : list A :=
  match x with
  | Some (first :: _) => first
  | _ => []
  end.

(** One round of the loop of [similarity_search] over
    [enumerate(zip(documents, metadatas, distances))]. *)
Definition chroma_result (query : string) (rank : Z)
    (row : string * ChromaMeta * Q) : Exc SearchResult :=
  let '(doc, meta, distance) := row in
  let score := distance_to_score distance in
  exc_bind
    (DocumentChunk_new (default ("unknown_" +:+ pretty rank) (meta_chunk_id meta))
       doc (default rank (meta_chunk_index meta))
       (default "unknown" (meta_source_document meta)) (meta_items meta))
    (fun chunk =>
       SearchResult_new chunk score rank
         (<["distance" := PFloat distance]> (<["search_query" := PStr query]> ∅))).

Fixpoint chroma_results (query : string) (rank : Z)
    (rows : list (string * ChromaMeta * Q)) : Exc (list SearchResult) :=
  match rows with
  | [] => Ok []
  | row :: rest =>
      exc_bind (chroma_result query rank row) (fun search_result =>
      exc_bind (chroma_results query (rank + 1) rest) (fun more =>
        Ok (search_result :: more)))
  end.

Section Chroma.
Context {C : Type} `{ChromaClient C}.

(** [EmbeddingManager.generate_embedding] *)
Definition generate_embedding (self : EmbeddingManager) (text : string)
    : Py C EmbeddingResult :=
  if PyStr.blank text then py_raise (ValueError "Text cannot be empty")
  else if negb (provider self)
  then py_raise (ValueError "No embedding provider available")
  else
    try_except
      (vector <- embed_query (PyStr.strip text) ;;
       py_lift (EmbeddingResult_new vector (manager_model self) (zlen vector)))%py
      (fun e => py_raise (ValueError ("Failed to generate embedding: " +:+ exc_str e))).

(** [ChromaVectorStore.similarity_search] *)
Definition ChromaVectorStore_similarity_search (embedding_manager : EmbeddingManager)
    (query : string) (k : Z) : Py C (list SearchResult) :=
  if PyStr.blank query then py_ret []
  else
    try_except
      (query_embedding <- generate_embedding embedding_manager (PyStr.strip query) ;;
       results <- collection_query [embedding_vector query_embedding] k ;;
       py_lift
         (match query_documents results with
          | Some (docs :: _) =>
              chroma_results query 0
                (zip3 docs (first_or_empty (query_metadatas results))
                   (first_or_empty (query_distances results)))
          | _ => Ok []
          end))%py
      (fun _ => py_ret []).

End Chroma.

(** ** The document manager of the application ([main_app.py]) *)

(** What the methods of [DocumentManager] read and write: the files,
    a counter naming the temporary files, the vector store, the
    statistics, and the rest of the world with its clock. *)
Record Library (VS W : Type) : Type := mkLibrary {
  library_files : gmap string string;
  library_temp_counter : nat;
  library_store : VS;
  library_books : DocumentManager;
  library_world : W;
}.
Arguments mkLibrary {VS W}.
Arguments library_files {VS W}.
Arguments library_temp_counter {VS W}.
Arguments library_store {VS W}.
Arguments library_books {VS W}.
Arguments library_world {VS W}.

(** The dictionary that the methods return. *)
Record AddResult : Type := mkAddResult {
  add_success : bool;
  add_error : option string;
  add_filename : option string;
  add_chunks_added : option Z;
  add_total_chunks : option Z;
}.

(** The attribute [process_file] of a [DocumentProcessor]. The class
    defines [_initialize_loaders], [get_supported_formats],
    [can_process], [_get_document_type], [process_document] and
    [process_directory], its instances carry [config], [loaders] and
    [chunker], and nothing else is ever set on them: reading the
    attribute raises. *)
Definition process_file : Exc (string -> Exc (list DocumentChunk)) :=
  Raise (AttributeError "'DocumentProcessor' object has no attribute 'process_file'").

Section ApplicationDocuments.
Context `{Runtime} `{Platform} {VS W : Type} `{VectorStore VS} `{WorldOps W}.

Local Abbreviation Lib := (Library VS W).

Definition library_now : Py Lib Z :=
  fun lib =>
    let (t, w) := clock (library_world lib) in
    (Ok t, mkLibrary (library_files lib) (library_temp_counter lib)
             (library_store lib) (library_books lib) w).

(** [DocumentManager.add_document_from_file] *)
Definition add_document_from_file (file_path : Path) : Py Lib AddResult :=
  try_except
    (lib <- py_get ;;
     match library_files lib !! path_str file_path with
     | None =>
         py_ret (mkAddResult false (Some ("File not found: " +:+ path_str file_path))
                   None None None)
     | Some _ =>
         method <- py_lift process_file ;;
         chunks <- py_lift (method (path_str file_path)) ;;
         match chunks with
         | [] =>
             py_ret (mkAddResult false
                       (Some ("No content extracted from " +:+ path_name file_path))
                       None None None)
         | _ =>
             _ <- (fun lib : Lib =>
                     let (_, store) := add_documents chunks (library_store lib) in
                     (Ok tt, mkLibrary (library_files lib) (library_temp_counter lib)
                               store (library_books lib) (library_world lib))) ;;
             t_processed <- library_now ;;
             t_updated <- library_now ;;
             _ <- py_modify (fun lib : Lib =>
                    mkLibrary (library_files lib) (library_temp_counter lib)
                      (library_store lib)
                      (mkDocumentManager
                         (processed_documents (library_books lib)
                          ++ [mkProcessedDocument (path_name file_path)
                                (path_str file_path) (zlen chunks)
                                (isoformat t_processed)])
                         (total_documents (library_books lib) + 1)
                         (total_chunks (library_books lib) + zlen chunks)
                         (Some (isoformat t_updated)))
                      (library_world lib)) ;;
             lib <- py_get ;;
             py_ret (mkAddResult true None (Some (path_name file_path))
                       (Some (zlen chunks))
                       (Some (total_chunks (library_books lib))))
         end
     end)%py
    (fun e =>
       py_ret (mkAddResult false
                 (Some ("Failed to process " +:+ path_str file_path +:+ ": "
                        +:+ exc_str e))
                 None None None)).

(** [self.processed_documents[-1]["filename"] = title], when the list
    is not empty *)
Definition retitle_last (title : string) (documents : list ProcessedDocument)
    : list ProcessedDocument :=
  match reverse documents with
  | [] => []
  | latest :: earlier =>
      reverse earlier
      ++ [mkProcessedDocument title (pd_path latest) (pd_chunks latest)
            (pd_processed_at latest)]
  end.

(** [DocumentManager.add_document_from_text]; the temporary file is
    written as in the knowledge-base tool, and a text that cannot be
    written leaves the block with the empty file behind. *)
Definition add_document_from_text (text title : string) : Py Lib AddResult :=
  try_except
    (temp_path <-
       (fun lib : Lib =>
          let temp_path :=
            mkPath "/tmp" ("tmp" +:+ pretty (library_temp_counter lib)) ".txt" in
          let created (bytes : string) :=
            mkLibrary (<[path_str temp_path := bytes]> (library_files lib))
              (S (library_temp_counter lib)) (library_store lib)
              (library_books lib) (library_world lib) in
          match encode_text text with
          | Ok bytes => (Ok temp_path, created bytes)
          | Raise e => (Raise e, created "")
          end) ;;
     outcome <- add_document_from_file temp_path ;;
     _ <- (fun lib : Lib =>
             match library_files lib !! path_str temp_path with
             | Some _ =>
                 (Ok tt,
                  mkLibrary (delete (path_str temp_path) (library_files lib))
                    (library_temp_counter lib) (library_store lib)
                    (library_books lib) (library_world lib))
             | None =>
                 (Raise (FileNotFoundError ("No such file or directory: '"
                                            +:+ path_str temp_path +:+ "'")), lib)
             end) ;;
     if add_success outcome
     then
       _ <- py_modify (fun lib : Lib =>
              mkLibrary (library_files lib) (library_temp_counter lib)
                (library_store lib)
                (mkDocumentManager
                   (retitle_last title (processed_documents (library_books lib)))
                   (total_documents (library_books lib))
                   (total_chunks (library_books lib))
                   (last_updated (library_books lib)))
                (library_world lib)) ;;
       py_ret (mkAddResult true (add_error outcome) (Some title)
                 (add_chunks_added outcome) (add_total_chunks outcome))
     else py_ret outcome)%py
    (fun e =>
       py_ret (mkAddResult false (Some ("Failed to process text: " +:+ exc_str e))
                 None None None)).

End ApplicationDocuments.
(* ===================================================================== *)
(** * Part II. Lemmas and theorems                                        *)
(* ===================================================================== *)

(** Membership in a list written out with [::] and [++]. *)
Ltac list_mem :=
  repeat first [rewrite elem_of_app | rewrite elem_of_cons];
  auto 20.

(** ** Strings *)

Lemma startswith_spec (p s : string) :
  PyStr.startswith p s = true <-> exists post, s = p +:+ post.
Proof.
  revert s. induction p as [|a p IH]; intros s; simpl.
  - split; [intros _; by exists s | done].
  - destruct s as [|b s].
    + split; [done | intros [post Hpost]; discriminate].
    + destruct (Ascii.eqb_spec a b) as [->|Hne].
      * rewrite IH. split; intros [post Hpost]; exists post.
        -- by rewrite Hpost.
        -- by injection Hpost.
      * split; [done | intros [post Hpost]]. injection Hpost as Hab _. congruence.
Qed.

Lemma contains_spec (kw s : string) :
  PyStr.contains kw s = true <-> exists pre post, s = pre +:+ kw +:+ post.
Proof.
  induction s as [|c s IH]; simpl.
  - rewrite orb_false_r, startswith_spec. split.
    + intros [post Hpost]. by exists EmptyString, post.
    + intros [pre [post Hs]]. destruct pre; [by exists post | discriminate].
  - rewrite orb_true_iff, startswith_spec, IH. split.
    + intros [[post Hpost] | [pre [post Hs]]].
      * by exists EmptyString, post.
      * exists (String c pre), post. simpl. by rewrite Hs.
    + intros [pre [post Hs]]. destruct pre as [|c' pre]; simpl in Hs.
      * left. by exists post.
      * right. injection Hs as _ Hs. by exists pre, post.
Qed.

Lemma contains_intro (kw pre post : string) :
  PyStr.contains kw (pre +:+ kw +:+ post) = true.
Proof. apply contains_spec. by exists pre, post. Qed.


Lemma contains_append_r (kw a b : string) :
  PyStr.contains kw b = true -> PyStr.contains kw (a +:+ b) = true.
Proof.
  intros Hb. induction a as [|c a IH]; simpl; [done|].
  rewrite IH. apply orb_true_r.
Qed.
(** ** Reasoning about [Py] computations

    [wp m s Q]: running [m] from the state [s] ends, returning or
    raising, in an outcome and a state that satisfy [Q]. *)

Definition wp {S A} (m : Py S A) (s : S) (Q : Exc A -> S -> Prop) : Prop :=
  Q (m s).1 (m s).2.

Lemma wp_run {S A} (m : Py S A) (s : S) (Q : Exc A -> S -> Prop) :
  wp m s Q <-> exists r s', m s = (r, s') /\ Q r s'.
Proof.
  unfold wp. split.
  - intros HQ. exists (m s).1, (m s).2. split; [by destruct (m s) | done].
  - intros (r & s' & -> & HQ). done.
Qed.

Lemma wp_mono {S A} (m : Py S A) (s : S) (Q Q' : Exc A -> S -> Prop) :
  wp m s Q -> (forall r s', Q r s' -> Q' r s') -> wp m s Q'.
Proof. unfold wp. auto. Qed.

Lemma wp_ret {S A} (a : A) (s : S) (Q : Exc A -> S -> Prop) :
  Q (Ok a) s -> wp (py_ret a) s Q.
Proof. done. Qed.

Lemma wp_raise {S A} (e : PyExc) (s : S) (Q : Exc A -> S -> Prop) :
  Q (Raise e) s -> wp (py_raise e) s Q.
Proof. done. Qed.

Lemma wp_lift {S A} (r : Exc A) (s : S) (Q : Exc A -> S -> Prop) :
  Q r s -> wp (py_lift r) s Q.
Proof. done. Qed.

Lemma wp_get {S} (s : S) (Q : Exc S -> S -> Prop) :
  Q (Ok s) s -> wp py_get s Q.
Proof. done. Qed.

Lemma wp_modify {S} (f : S -> S) (s : S) (Q : Exc unit -> S -> Prop) :
  Q (Ok tt) (f s) -> wp (py_modify f) s Q.
Proof. done. Qed.

Lemma wp_bind {S A B} (m : Py S A) (k : A -> Py S B) (s : S)
    (Q : Exc B -> S -> Prop) :
  wp m s (fun r s' => match r with
                      | Ok a => wp (k a) s' Q
                      | Raise e => Q (Raise e) s'
                      end) ->
  wp (py_bind m k) s Q.
Proof. unfold wp, py_bind. by destruct (m s) as [[a|e] s']. Qed.

Lemma wp_try_except {S A} (m : Py S A) (h : PyExc -> Py S A) (s : S)
    (Q : Exc A -> S -> Prop) :
  wp m s (fun r s' => match r with
                      | Ok a => Q (Ok a) s'
                      | Raise e => wp (h e) s' Q
                      end) ->
  wp (try_except m h) s Q.
Proof. unfold wp, try_except. by destruct (m s) as [[a|e] s']. Qed.

(** A loop whose items all satisfy [P] keeps an invariant [Inv]. *)
Lemma wp_for {S A B} (xs : list A) (acc : B) (body : B -> A -> Py S B) (s : S)
    (P : A -> Prop) (Inv : B -> S -> Prop) (Q : Exc B -> S -> Prop) :
  Forall P xs ->
  Inv acc s ->
  (forall acc x s, P x -> Inv acc s ->
     wp (body acc x) s (fun r s' => match r with
                                    | Ok acc' => Inv acc' s'
                                    | Raise e => Q (Raise e) s'
                                    end)) ->
  (forall acc s, Inv acc s -> Q (Ok acc) s) ->
  wp (py_for xs acc body) s Q.
Proof.
  intros Hall Hinv Hbody Hdone. revert acc s Hinv.
  induction Hall as [|x rest Hx _ IH]; intros acc s Hinv; simpl.
  - apply wp_ret. by apply Hdone.
  - apply wp_bind. eapply wp_mono; [by apply Hbody|].
    intros [acc'|e] s' Hr; [by apply IH | done].
Qed.

Lemma Forall_trivial {A} (xs : list A) : Forall (fun _ => True) xs.
Proof. by apply Forall_forall. Qed.

(** Whatever a computation does satisfies the trivial postcondition. *)
Lemma wp_any {S A} (m : Py S A) (s : S) : wp m s (fun _ _ => True).
Proof. done. Qed.

Ltac wp_simpl := cbv beta iota.

(** ** Text analysis *)

Example split_words : PyStr.split "  two   words " = ["two"; "words"].
Proof. reflexivity. Qed.

Example split_lines : PyStr.split_on "010"%char "" = [""].
Proof. reflexivity. Qed.

Example strip_both : PyStr.strip "  a b  " = "a b".
Proof. reflexivity. Qed.

Lemma truediv_positive (a b : Z) : 0 < b -> exists q, truediv a b = Ok (PFloat q).
Proof. intros Hb. destruct b; try lia. by eexists. Qed.

(** The analysis never raises: the division is guarded by the test on
    [words]. *)
Lemma basic_analysis_total (text : string) :
  exists stats, _basic_analysis text = Ok (PDict stats).
Proof.
  unfold _basic_analysis.
  destruct (PyStr.split text) as [|w ws] eqn:Hwords.
  - by eexists.
  - destruct (truediv_positive (sum_Z (map PyStr.len (w :: ws))) (zlen (w :: ws)))
      as [q Hq]; [unfold zlen; simpl; lia|].
    cbv beta iota. rewrite Hq. by eexists.
Qed.

(** C9. The basic analysis of the empty text returns its statistics
    without raising: character count 0, word count 0 and average word
    length 0 (the integer of the guarded branch, not a quotient). *)
Theorem basic_analysis_of_empty_text :
  exists stats,
    _basic_analysis "" = Ok (PDict stats) /\
    dict_lookup stats "character_count" = Some (PInt 0) /\
    dict_lookup stats "word_count" = Some (PInt 0) /\
    dict_lookup stats "average_word_length" = Some (PInt 0).
Proof. eexists. repeat split; reflexivity. Qed.

Example basic_analysis_two_words :
  _basic_analysis "ab cdef" =
    Ok (PDict [ ("character_count", PInt 7); ("word_count", PInt 2);
                ("line_count", PInt 1); ("paragraph_count", PInt 1);
                ("average_word_length", PFloat (Qmake 6 2)) ]).
Proof. reflexivity. Qed.

(** ** Agent memory *)

Lemma slice_from_last {A} (n : nat) (l : list A) :
  (0 < n)%nat -> slice_from (- Z.of_nat n) l = drop (length l - n) l.
Proof.
  intros Hn. unfold slice_from.
  destruct (Z.ltb_spec (- Z.of_nat n) 0) as [_|Hge]; [|lia].
  f_equal. lia.
Qed.

(** The last fifty of a list. *)
Definition last50 {A} (l : list A) : list A := drop (length l - 50) l.

Lemma last50_length {A} (l : list A) : (length (last50 l) <= 50)%nat.
Proof. unfold last50. rewrite length_drop. lia. Qed.

Lemma last50_app_l {A} (l k : list A) : last50 (last50 l ++ k) = last50 (l ++ k).
Proof.
  unfold last50.
  rewrite !length_app, length_drop, !skipn_app, drop_drop, length_drop.
  f_equal; f_equal; lia.
Qed.

Lemma last50_app_long {A} (l k : list A) :
  (50 <= length k)%nat -> last50 (l ++ k) = last50 k.
Proof.
  intros Hk. unfold last50.
  rewrite length_app, skipn_app.
  rewrite (drop_ge l) by lia. simpl. f_equal. lia.
Qed.

Section MemoryFacts.
Context `{Runtime}.

Lemma add_to_short_term_last50 (memory_item : gmap string PyVal)
    (t_item t_update : Z) (self : AgentMemory) :
  short_term_memory (add_to_short_term memory_item t_item t_update self)
  = last50 (short_term_memory self ++ [stamp memory_item t_item]).
Proof.
  unfold add_to_short_term; cbn [short_term_memory].
  set (appended := short_term_memory self ++ [stamp memory_item t_item]).
  destruct (Z.ltb_spec 50 (Z.of_nat (length appended))) as [Hlong|Hshort].
  - by rewrite (slice_from_last 50) by lia.
  - unfold last50. replace (length appended - 50)%nat with 0%nat by lia. done.
Qed.

Lemma append_all_last50 (items : list (gmap string PyVal * Z * Z))
    (self : AgentMemory) :
  items <> [] ->
  short_term_memory (append_all items self)
  = last50 (short_term_memory self ++ map stamped items).
Proof.
  revert self. induction items as [|[[memory_item t_item] t_update] rest IH];
    intros self Hne; [done|].
  change (append_all ((memory_item, t_item, t_update) :: rest) self)
    with (append_all rest (add_to_short_term memory_item t_item t_update self)).
  change (map stamped ((memory_item, t_item, t_update) :: rest))
    with (stamp memory_item t_item :: map stamped rest).
  destruct rest as [|next rest].
  - apply add_to_short_term_last50.
  - rewrite IH by done. rewrite add_to_short_term_last50, last50_app_l.
    by rewrite <- app_assoc.
Qed.

(** C4. After more than fifty appends the short-term memory holds the
    fifty entries appended last, in the order they were appended,
    whatever it held before; and after any single append it holds at most
    fifty entries. *)
Theorem short_term_memory_keeps_last_fifty
    (items : list (gmap string PyVal * Z * Z)) (self : AgentMemory) :
  (50 < length items)%nat ->
  short_term_memory (append_all items self)
    = drop (length items - 50) (map stamped items) /\
  length (short_term_memory (append_all items self)) = 50%nat /\
  (forall memory_item t_item t_update mem,
     (length (short_term_memory
                (add_to_short_term memory_item t_item t_update mem)) <= 50)%nat).
Proof.
  intros Hlong.
  assert (Heq : short_term_memory (append_all items self)
                = drop (length items - 50) (map stamped items)).
  { rewrite append_all_last50 by (intros ->; simpl in Hlong; lia).
    rewrite last50_app_long by (rewrite length_map; lia).
    unfold last50. by rewrite length_map. }
  split; [exact Heq|]. split.
  - rewrite Heq, length_drop, length_map. lia.
  - intros memory_item t_item t_update mem.
    rewrite add_to_short_term_last50. apply last50_length.
Qed.

End MemoryFacts.

(** Fifty-three appends to a fresh memory: entries 3 to 52 remain. *)
Definition numbered_items (n : nat) : list (gmap string PyVal * Z * Z) :=
  map (fun i => ({[ "content" := PInt (Z.of_nat i) ]}, Z.of_nat i, Z.of_nat i)) (seq 0 n).

Lemma short_term_memory_keeps_last_fifty_witness :
  (50 < length (numbered_items 53))%nat /\
  short_term_memory (@append_all simple_runtime (numbered_items 53) (new_memory "m" 0))
    = drop 3 (map (@stamped simple_runtime) (numbered_items 53)).
Proof.
  split; [vm_compute; lia|].
  apply (@short_term_memory_keeps_last_fifty simple_runtime
           (numbered_items 53) (new_memory "m" 0)).
  vm_compute; lia.
Defined.

(** ** Retriever *)

Lemma filter_all_true {A} (f : A -> bool) (l : list A) :
  Forall (fun x => f x = true) l -> List.filter f l = l.
Proof.
  induction 1 as [|x l Hx _ IH]; simpl; [done|]. by rewrite Hx, IH.
Qed.

Lemma bool_filter_sublist {A} (f : A -> bool) (l : list A) :
  sublist (List.filter f l) l.
Proof.
  induction l as [|x l IH]; simpl; [constructor|].
  destruct (f x); by constructor.
Qed.

Lemma SearchResult_new_valid (c : DocumentChunk) (s : Q) (r : Z)
    (m : gmap string PyVal) (res : SearchResult) :
  SearchResult_new c s r m = Ok res -> valid_search_result res.
Proof.
  unfold SearchResult_new, validate_score, valid_search_result.
  destruct (Qle_bool 0 s) eqn:Hlo, (Qle_bool s 1) eqn:Hhi; simpl; try discriminate.
  intros [= <-]. simpl. split; by apply Qle_bool_iff.
Qed.

Section RetrieverFacts.
Context {VS : Type} `{VectorStore VS}.

(** The comparison [result.score >= min_score] *)
Definition reaches (min_score : PyFloat) (result : SearchResult) : bool :=
  float_le min_score (FiniteFloat (score result)).

(** For a threshold that is a float other than NaN, the test
    [min_score > 0.0] only skips a filter that would keep everything. *)
Lemma threshold_filter (min_score : PyFloat) (results : list SearchResult) :
  Forall valid_search_result results ->
  min_score <> SpecialFloat NaN ->
  (if float_lt (FiniteFloat 0) min_score
   then List.filter (reaches min_score) results
   else results)
  = List.filter (reaches min_score) results.
Proof.
  intros Hvalid Hnumber.
  destruct (float_lt (FiniteFloat 0) min_score) eqn:Hmin; [done|].
  symmetry. apply filter_all_true.
  eapply Forall_impl; [exact Hvalid|]. intros r [Hlo _]. unfold reaches.
  destruct min_score as [m|[| |]]; cbn [float_lt float_le] in *; try done.
  apply negb_false_iff in Hmin. apply Qle_bool_iff. apply Qle_bool_iff in Hmin.
  by eapply Qle_trans.
Qed.

(** C5, as the code has it. On a store that records the searches it
    receives: a blank query (empty, or white space only) returns the
    empty list and leaves the store, and its record of searches, as they
    were; any other query performs exactly one search, for [query] and
    [k]. For a threshold other than NaN it returns those of the results
    whose score is at least the threshold, in the order of the search,
    each one unchanged (its rank included); for the threshold NaN the
    test [min_score > 0.0] fails and all the results are returned,
    although none of them compares as at least NaN. The results of the
    search are [SearchResult]s, whose validator bounds the score by 0
    and 1. *)
Theorem retrieve_documents_filters_by_score
    (query : string) (k : Z) (min_score : PyFloat) (store : Logged VS) :
  Forall valid_search_result (similarity_search query k (backend store)).1 ->
  (PyStr.blank query = true ->
     retrieve_documents query k min_score store = ([], store)) /\
  (PyStr.blank query = false ->
     let found := (similarity_search query k (backend store)).1 in
     let kept := (retrieve_documents query k min_score store).1 in
     (min_score <> SpecialFloat NaN ->
        kept = List.filter (reaches min_score) found /\
        (forall result, result ∈ kept <->
                        result ∈ found /\ reaches min_score result = true)) /\
     (forall m, min_score = FiniteFloat m ->
        forall result, result ∈ kept <-> result ∈ found /\ (m <= score result)%Q) /\
     (min_score = SpecialFloat NaN ->
        kept = found /\ List.filter (reaches min_score) found = []) /\
     sublist kept found /\
     search_calls (retrieve_documents query k min_score store).2
       = search_calls store ++ [(query, k)]).
Proof.
  intros Hvalid. unfold retrieve_documents. split; intros Hblank; rewrite Hblank.
  - done.
  - cbn [similarity_search logged_store].
    destruct (similarity_search query k (backend store)) as [found vs] eqn:Hsearch.
    cbn [fst snd search_calls] in *.
    fold (reaches min_score).
    assert (Hmember : min_score <> SpecialFloat NaN ->
              forall result,
                result ∈ (if float_lt (FiniteFloat 0) min_score
                          then List.filter (reaches min_score) found else found)
                <-> result ∈ found /\ reaches min_score result = true).
    { intros Hnumber result. rewrite (threshold_filter _ _ Hvalid Hnumber).
      by rewrite !list_elem_of_In, filter_In. }
    split; [|split; [|split; [|split; [|done]]]].
    + intros Hnumber. split; [by apply threshold_filter | by apply Hmember].
    + intros m -> result. rewrite Hmember by done.
      unfold reaches. cbn [float_le]. by rewrite Qle_bool_iff.
    + intros ->. cbn [float_lt]. split; [done|].
      clear. induction found as [|r found IH]; [done|]. exact IH.
    + destruct (float_lt (FiniteFloat 0) min_score);
        [apply bool_filter_sublist | reflexivity].
Qed.

End RetrieverFacts.

Definition sample_chunk (n : Z) (text : string) : DocumentChunk :=
  mkDocumentChunk ("doc_" +:+ pretty n) text n "doc" ∅.

Definition sample_store : Logged (list (DocumentChunk * Q)) :=
  mkLogged [ (sample_chunk 0 "Paris is the capital of France.", Qmake 9 10);
             (sample_chunk 1 "Berlin is the capital of Germany.", Qmake 4 10);
             (sample_chunk 2 "Rome is the capital of Italy.", Qmake 6 10) ] [].

Example retrieve_keeps_ranks :
  map rank (retrieve_documents "capital" 3 (FiniteFloat (Qmake 1 2)) sample_store).1
  = [0; 2].
Proof. reflexivity. Qed.

Example retrieve_blank_query :
  retrieve_documents "   " 3 (FiniteFloat (Qmake 1 2)) sample_store = ([], sample_store).
Proof. reflexivity. Qed.

(** The infinite thresholds compare like numbers: nothing reaches the
    positive one, everything the negative one. *)
Example retrieve_with_infinite_thresholds :
  (retrieve_documents "capital" 3 (SpecialFloat PosInf) sample_store).1 = [] /\
  map rank (retrieve_documents "capital" 3 (SpecialFloat NegInf) sample_store).1
  = [0; 1; 2].
Proof. split; reflexivity. Qed.

(** With the threshold NaN the three results of the search come back,
    none of which has a score that compares as at least NaN: the
    results are not the subsequence of those with [score >= m]. *)
Lemma nan_threshold_returns_every_result :
  let found := (similarity_search "capital" 3 (backend sample_store)).1 in
  let kept := (retrieve_documents "capital" 3 (SpecialFloat NaN) sample_store).1 in
  Forall valid_search_result found /\
  map rank kept = [0; 1; 2] /\
  List.filter (reaches (SpecialFloat NaN)) found = [] /\
  kept <> List.filter (reaches (SpecialFloat NaN)) found.
Proof.
  cbv zeta. split; [repeat constructor; vm_compute; discriminate|].
  split; [reflexivity|]. split; [reflexivity|]. discriminate.
Qed.

Lemma retrieve_documents_filters_by_score_witness :
  Forall valid_search_result (similarity_search "capital" 3 (backend sample_store)).1 /\
  map rank (retrieve_documents "capital" 3 (FiniteFloat (Qmake 1 2)) sample_store).1
  = [0; 2] /\
  search_calls (retrieve_documents "capital" 3 (FiniteFloat (Qmake 1 2)) sample_store).2
    = [("capital", 3)].
Proof.
  assert (Hvalid : Forall valid_search_result
                     (similarity_search "capital" 3 (backend sample_store)).1).
  { repeat constructor; vm_compute; discriminate. }
  split; [exact Hvalid|].
  destruct (retrieve_documents_filters_by_score "capital" 3 (FiniteFloat (Qmake 1 2))
              sample_store Hvalid) as [_ Hfilter].
  destruct (Hfilter eq_refl) as [Hkept [_ [_ [_ Hcalls]]]].
  split; [by rewrite (proj1 (Hkept ltac:(discriminate))) | exact Hcalls].
Defined.

(** ** Configuration and chunker *)

Example format_index : format_04d 7 = "0007".
Proof. reflexivity. Qed.

Lemma ltb_negb_false (a b : Z) : negb (a <? b) = false <-> a < b.
Proof. destruct (Z.ltb_spec a b); simpl; split; (done || lia). Qed.

Lemma leb_negb_false (a b : Z) : negb (a <=? b) = false <-> a <= b.
Proof. destruct (Z.leb_spec a b); simpl; split; (done || lia). Qed.

(** The configuration is accepted exactly when each of the three
    numeric fields meets its own bound. *)
Lemma VectorStoreConfig_new_accepts
    (store_type collection directory model : string)
    (size overlap k : Z) (search : string) (cfg : VectorStoreConfig) :
  VectorStoreConfig_new store_type collection directory model size overlap k search = Ok cfg
  <-> (0 < size /\ 0 <= overlap /\ 0 < k) /\
      cfg = mkVectorStoreConfig store_type collection directory model size overlap k search.
Proof.
  unfold VectorStoreConfig_new.
  destruct (negb (0 <? size)) eqn:Hsize;
    [|destruct (negb (0 <=? overlap)) eqn:Hoverlap;
      [|destruct (negb (0 <? k)) eqn:Hk]].
  - split; [done|]. intros [[Hpos _] _]. apply ltb_negb_false in Hpos. congruence.
  - split; [done|]. intros [[_ [Hpos _]] _]. apply leb_negb_false in Hpos. congruence.
  - split; [done|]. intros [[_ [_ Hpos]] _]. apply ltb_negb_false in Hpos. congruence.
  - apply ltb_negb_false in Hsize, Hk. apply leb_negb_false in Hoverlap.
    split; [intros [= <-] | intros [_ ->]]; done.
Qed.

Section ChunkerFacts.
Context `{TextSplitters}.

(** The constructor call that [_create_splitter] makes for a
    strategy. *)
Definition splitter_call (strategy : ChunkingStrategy) (size overlap : Z)
    : SplitterCall :=
  match strategy with
  | RECURSIVE =>
      RecursiveCharacterTextSplitter size overlap
        (Some [ String "010"%char (String "010"%char EmptyString);
                String "010"%char EmptyString; ". "; " "; "" ])
  | CHARACTER => CharacterTextSplitter size overlap (String "010"%char EmptyString)
  | TOKEN => TokenTextSplitter size overlap
  | _ => RecursiveCharacterTextSplitter size overlap None
  end.

Lemma create_splitter_call (strategy : ChunkingStrategy) (size overlap : Z) :
  _create_splitter strategy size overlap
  = new_splitter (splitter_call strategy size overlap) /\
  call_chunk_size (splitter_call strategy size overlap) = size /\
  call_chunk_overlap (splitter_call strategy size overlap) = overlap.
Proof. by destruct strategy. Qed.

(** C7, as the code has it. The configuration checks [chunk_size > 0]
    and [chunk_overlap >= 0] and nothing that relates the two, so it
    accepts every such pair. The chunker compares nothing itself, but
    the constructor of the text-splitter library, which it calls, does:
    an overlap larger than the chunk size is rejected at construction
    with the library's [ValueError]. An overlap that is at most the chunk
    size, the chunk size itself included, passes that check; the chunker
    is then constructed exactly when the rest of the library's
    constructor builds a splitter, keeps the two numbers as given, and
    otherwise raises what the library raised. So every constructed
    chunker has [chunk_overlap <= chunk_size]. *)
Theorem chunker_configuration_checks
    (strategy : ChunkingStrategy) (size overlap : Z) :
  (forall store_type collection directory cfg,
     load_vector_store_config store_type collection directory size overlap = Ok cfg
     <-> (0 < size /\ 0 <= overlap) /\
         config_chunk_size cfg = size /\ config_chunk_overlap cfg = overlap /\
         cfg = mkVectorStoreConfig store_type collection directory
                 "text-embedding-ada-002" size overlap 5 "similarity") /\
  (size < overlap ->
     exists e,
       TextChunker_init strategy size overlap = Raise e /\
       exc_class e = "ValueError") /\
  (overlap <= size ->
     (forall chunker,
        TextChunker_init strategy size overlap = Ok chunker
        <-> exists splitter,
              build_splitter (splitter_call strategy size overlap) = Ok splitter /\
              chunker = mkTextChunker strategy size overlap splitter) /\
     (forall e,
        TextChunker_init strategy size overlap = Raise e
        <-> build_splitter (splitter_call strategy size overlap) = Raise e)) /\
  (forall chunker,
     TextChunker_init strategy size overlap = Ok chunker ->
     chunk_size chunker = size /\ chunk_overlap chunker = overlap /\
     chunk_overlap chunker <= chunk_size chunker).
Proof.
  destruct (create_splitter_call strategy size overlap) as (Hcall & Hsize & Hoverlap).
  unfold TextChunker_init. rewrite Hcall. unfold new_splitter.
  rewrite Hsize, Hoverlap.
  split; [|split; [|split]].
  - intros store_type collection directory cfg.
    unfold load_vector_store_config. rewrite VectorStoreConfig_new_accepts.
    split.
    + intros [[Hpositive [Hnatural _]] ->]. done.
    + intros [[Hpositive Hnatural] [_ [_ ->]]]. split; [lia|done].
  - intros Hlarger. destruct (Z.ltb_spec size overlap) as [_|?]; [|lia].
    by eexists.
  - intros Hfits. destruct (Z.ltb_spec size overlap) as [?|_]; [lia|].
    split.
    + intros chunker.
      destruct (build_splitter (splitter_call strategy size overlap)) as [splitter|e];
        simpl.
      * split; [intros [= <-]; by exists splitter | by intros [? [[= <-] ->]]].
      * split; [done | by intros [? [? _]]].
    + intros e.
      destruct (build_splitter (splitter_call strategy size overlap)) as [splitter|e'];
        simpl.
      * split; discriminate.
      * split; intros [= <-]; done.
  - intros chunker. destruct (Z.ltb_spec size overlap) as [?|Hfits]; [discriminate|].
    destruct (build_splitter (splitter_call strategy size overlap)) as [splitter|e];
      simpl; [|discriminate].
    intros [= <-]. cbn [chunk_size chunk_overlap]. done.
Qed.

End ChunkerFacts.

(** The two halves of the statement that [chunk_overlap < chunk_size]
    always holds, and that the opposite is rejected at construction,
    both fail. An overlap equal to the chunk size, and one five times
    the chunk size, pass the validation of the configuration. And with
    a library that, as the one the repository imports, builds a
    splitter for every pair that passes its comparison, a chunker whose
    overlap equals its chunk size is constructed. *)
Lemma overlap_not_below_size_is_accepted :
  ~ (forall size overlap cfg,
       load_vector_store_config "chroma" "code_agent_docs" "./vector_store" size overlap
         = Ok cfg ->
       config_chunk_overlap cfg < config_chunk_size cfg) /\
  (exists chunker,
     @TextChunker_init fixed_width_splitters RECURSIVE 100 100 = Ok chunker /\
     @chunk_overlap fixed_width_splitters chunker = 100 /\
     @chunk_size fixed_width_splitters chunker = 100 /\
     ~ @chunk_overlap fixed_width_splitters chunker
       < @chunk_size fixed_width_splitters chunker).
Proof.
  split.
  - intros Hall.
    pose proof (Hall 100 500 _ eq_refl) as Hlt. simpl in Hlt. lia.
  - eexists. split; [reflexivity|]. cbn. repeat split; lia.
Qed.

(** An overlap above the chunk size does not get past the library. *)
Example chunker_rejects_larger_overlap :
  @TextChunker_init fixed_width_splitters RECURSIVE 100 500
  = Raise (ValueError
             "Got a larger chunk overlap (500) than chunk size (100), should be smaller.").
Proof. reflexivity. Qed.
(** ** Knowledge-base insertion *)

Section KnowledgeBaseFacts.
Context `{Runtime} `{Platform} `{TextSplitters}.
Context {VS W : Type} `{VectorStore VS} `{WorldOps W}.

Local Abbreviation KB := (KnowledgeBase VS W).

(** No codec reads text that is not blank out of these bytes. *)
Definition reads_blank (bytes : string) : Prop :=
  forall encoding text,
    decode encoding bytes = Some text -> PyStr.truthy (PyStr.strip text) = false.

Lemma try_encodings_blank (encodings : list Encoding) (bytes : string) :
  reads_blank bytes -> try_encodings encodings bytes = None.
Proof.
  intros Hblank. induction encodings as [|encoding rest IH]; simpl; [done|].
  destruct (decode encoding bytes) as [text|] eqn:Hdecode; [|done].
  by rewrite (Hblank _ _ Hdecode).
Qed.

(** A text file whose content reads as blank is reported by the
    loader as a file that could not be decoded, and by the processor as
    a failure to load. *)
Lemma process_document_blank_text_file (processor : DocumentProcessor)
    (files : gmap string string) (file_path : Path) (bytes : string) (t : Z) :
  files !! path_str file_path = Some bytes ->
  _get_document_type file_path = TXT ->
  reads_blank bytes ->
  process_document processor files file_path t
  = Raise (ValueError ("Failed to load content from " +:+ path_str file_path
                       +:+ ": Could not decode file " +:+ path_str file_path
                       +:+ " with any supported encoding")).
Proof.
  intros Hfile Htype Hblank. unfold process_document.
  rewrite Hfile, Htype. cbn [loaders].
  unfold load_content, _validate_file. rewrite Hfile. cbn [exc_bind].
  by rewrite try_encodings_blank.
Qed.

Definition temp_path_of (kb : KB) : Path :=
  mkPath "/tmp" ("tmp" +:+ pretty (kb_temp_counter kb)) ".txt".

Definition load_failure_message (file_path : Path) : string :=
  "DocumentProcessor failed: Failed to load content from " +:+ path_str file_path
  +:+ ": Could not decode file " +:+ path_str file_path
  +:+ " with any supported encoding".

(** The call with empty content, step by step. *)
Lemma execute_empty_content (processor : DocumentProcessor)
    (title source : string) (metadata : option (gmap string PyVal)) (kb : KB)
    (bytes : string) :
  str_lower ".txt" = ".txt" ->
  encode_text "" = Ok bytes ->
  reads_blank bytes ->
  exists seconds kb',
    AddToKnowledgeBaseTool_execute processor "" title source metadata kb
    = (Ok (failure "add_to_knowledge_base"
             (load_failure_message (temp_path_of kb)) seconds), kb') /\
    kb_document_manager kb' = kb_document_manager kb /\
    kb_vector_store kb' = kb_vector_store kb.
Proof.
  intros Hlower Hwritten Hblank.
  unfold AddToKnowledgeBaseTool_execute, py_bind, try_except, try_finally,
    kb_process_document, write_temp_file, kb_now, py_ret, unlink, py_bind.
  destruct (clock (kb_world kb)) as [t0 w0] eqn:Hc0.
  cbn [kb_world kb_files kb_temp_counter kb_vector_store kb_document_manager].
  rewrite Hwritten.
  cbn [kb_world kb_files kb_temp_counter kb_vector_store kb_document_manager].
  destruct (clock w0) as [t1 w1] eqn:Hc1.
  cbn [kb_world kb_files kb_temp_counter kb_vector_store kb_document_manager].
  rewrite (process_document_blank_text_file _ _ _ bytes);
    [| apply lookup_insert_eq
     | unfold _get_document_type; cbn [suffix]; by rewrite Hlower
     | done].
  cbn [kb_world kb_files kb_temp_counter kb_vector_store kb_document_manager].
  destruct (clock w1) as [t2 w2] eqn:Hc2.
  cbn [kb_world kb_files kb_temp_counter kb_vector_store kb_document_manager].
  rewrite lookup_insert_eq.
  eexists _, _. split; [reflexivity|]. done.
Qed.

(** *** What each step leaves alone *)

Lemma wp_try_finally {S A} (m : Py S A) (cleanup : Py S unit) (s : S)
    (Q : Exc A -> S -> Prop) :
  wp m s (fun r s' =>
            wp cleanup s' (fun c s'' => match c with
                                        | Ok _ => Q r s''
                                        | Raise e => Q (Raise e) s''
                                        end)) ->
  wp (try_finally m cleanup) s Q.
Proof.
  unfold wp, try_finally. destruct (m s) as [r s']. simpl.
  by destruct (cleanup s') as [[[]|e] s''].
Qed.

(** Files and statistics are the same in both states. *)
Definition same_books (kb kb' : KB) : Prop :=
  kb_files kb' = kb_files kb /\
  kb_document_manager kb' = kb_document_manager kb.

Lemma wp_kb_now (kb : KB) (Q : Exc Z -> KB -> Prop) :
  (forall t kb', same_books kb kb' -> Q (Ok t) kb') -> wp kb_now kb Q.
Proof.
  intros HQ. unfold wp, kb_now. destruct (clock (kb_world kb)) as [t w].
  by apply HQ.
Qed.

Lemma wp_kb_process_document (processor : DocumentProcessor) (file_path : Path)
    (kb : KB) (Q : Exc ProcessingResult -> KB -> Prop) :
  (forall r kb', same_books kb kb' -> Q r kb') ->
  wp (kb_process_document processor file_path) kb Q.
Proof.
  intros HQ. unfold kb_process_document. apply wp_bind, wp_kb_now.
  intros t kb' Hsame. wp_simpl. by apply HQ.
Qed.

Lemma wp_diagnostic_read (file_path : Path) (kb : KB) (Q : Exc unit -> KB -> Prop) :
  (forall r, Q r kb) -> wp (diagnostic_read file_path) kb Q.
Proof.
  intros HQ. unfold wp, diagnostic_read.
  destruct (kb_files kb !! path_str file_path) as [bytes|]; [|apply HQ].
  destruct (decode utf_8 bytes); apply HQ.
Qed.

Lemma wp_retitle_chunks (title source : string)
    (metadata : option (gmap string PyVal)) (chunks : list DocumentChunk) (kb : KB)
    (Q : Exc (list DocumentChunk) -> KB -> Prop) :
  (forall out kb', same_books kb kb' -> length out = length chunks -> Q (Ok out) kb') ->
  wp (retitle_chunks title source metadata chunks) kb Q.
Proof.
  revert kb Q. induction chunks as [|chunk rest IH]; intros kb Q HQ;
    cbn [retitle_chunks].
  - apply wp_ret. by apply HQ.
  - apply wp_bind. unfold retitle_chunk. apply wp_bind, wp_kb_now.
    intros t kb1 [Hfiles1 Hbooks1]. wp_simpl. apply wp_ret. wp_simpl.
    apply wp_bind, IH. intros out kb2 [Hfiles2 Hbooks2] Hlen. wp_simpl.
    apply wp_ret, HQ; [split; congruence | simpl; congruence].
Qed.

Lemma wp_kb_add_documents (chunks : list DocumentChunk) (kb : KB)
    (Q : Exc bool -> KB -> Prop) :
  (forall ok kb', same_books kb kb' -> Q (Ok ok) kb') ->
  wp (kb_add_documents chunks) kb Q.
Proof.
  intros HQ. unfold wp, kb_add_documents.
  destruct (add_documents chunks (kb_vector_store kb)) as [ok vs]. by apply HQ.
Qed.

Lemma wp_update_document_manager (title source : string) (n : Z) (kb : KB)
    (Q : Exc unit -> KB -> Prop) :
  (forall kb', kb_files kb' = kb_files kb -> Q (Ok tt) kb') ->
  wp (update_document_manager title source n) kb Q.
Proof.
  intros HQ. unfold update_document_manager.
  apply wp_bind, wp_kb_now. intros t1 kb1 [Hfiles1 _]. wp_simpl.
  apply wp_bind, wp_kb_now. intros t2 kb2 [Hfiles2 _]. wp_simpl.
  apply wp_modify, HQ. simpl. congruence.
Qed.

Lemma wp_unlink (file_path : Path) (kb : KB) (Q : Exc unit -> KB -> Prop) :
  is_Some (kb_files kb !! path_str file_path) ->
  (forall kb', kb_document_manager kb' = kb_document_manager kb -> Q (Ok tt) kb') ->
  wp (unlink file_path) kb Q.
Proof.
  intros [bytes Hfile] HQ. unfold wp, unlink. rewrite Hfile. by apply HQ.
Qed.

(** The temporary file is created in either case; a text that cannot
    be written raises and leaves the file empty. *)
Lemma wp_write_temp_file (content : string) (kb : KB) (Q : Exc Path -> KB -> Prop) :
  (forall bytes kb',
     encode_text content = Ok bytes ->
     kb_files kb' !! path_str (temp_path_of kb) = Some bytes ->
     kb_document_manager kb' = kb_document_manager kb ->
     Q (Ok (temp_path_of kb)) kb') ->
  (forall e kb',
     encode_text content = Raise e ->
     kb_document_manager kb' = kb_document_manager kb ->
     Q (Raise e) kb') ->
  wp (write_temp_file content) kb Q.
Proof.
  intros Hwritten Hrefused. unfold wp, write_temp_file.
  destruct (encode_text content) as [bytes|e] eqn:Hencode; cbn [fst snd].
  - apply (Hwritten bytes); [done | apply lookup_insert_eq | done].
  - by apply Hrefused.
Qed.

(** The handler of the inner [try] answers with an early failure. *)
Lemma wp_processing_failed (t0 : Z) (e : PyExc) (kb : KB)
    (Q : Exc (ToolResult + list DocumentChunk) -> KB -> Prop) :
  (forall early kb', same_books kb kb' -> success early = false ->
                     Q (Ok (inl early)) kb') ->
  wp (end_time <- kb_now ;;
      py_ret (inl (failure "add_to_knowledge_base"
                     ("DocumentProcessor failed: " +:+ exc_str e)
                     (total_seconds t0 end_time))))%py kb Q.
Proof.
  intros HQ. apply wp_bind, wp_kb_now. intros t kb' Hsame. wp_simpl.
  apply wp_ret. by apply HQ.
Qed.

(** The call always returns a result, and a result that reports
    failure comes with the document manager as it was before the call. *)
Lemma execute_failure_keeps_statistics (processor : DocumentProcessor)
    (content title source : string) (metadata : option (gmap string PyVal))
    (kb : KB) :
  wp (AddToKnowledgeBaseTool_execute processor content title source metadata) kb
    (fun r kb' =>
       exists res, r = Ok res /\
         (success res = false -> kb_document_manager kb' = kb_document_manager kb)).
Proof.
  unfold AddToKnowledgeBaseTool_execute.
  apply wp_bind, wp_kb_now. intros t0 kb0 [Hfiles0 Hbooks0]. wp_simpl.
  apply wp_try_except.
  apply (wp_mono _ _ (fun r kb' =>
           match r with
           | Ok res =>
               success res = false -> kb_document_manager kb' = kb_document_manager kb
           | Raise _ => kb_document_manager kb' = kb_document_manager kb
           end)).
  2: { intros [res|e] s' Hres; wp_simpl; [eauto|].
       apply wp_bind, wp_kb_now. intros t kb' [_ Hbooks]. wp_simpl.
       apply wp_ret. eexists. split; [done|]. intros _. congruence. }
  apply wp_bind, wp_write_temp_file; [|intros e kb1 _ Hbooks1; congruence].
  intros bytes kb1 _ Htemp Hbooks1. wp_simpl.
  set (temp_path := temp_path_of kb0) in *.
  apply wp_try_finally.
  apply (wp_mono _ _ (fun r kb' =>
           exists res, r = Ok res /\ kb_files kb' = kb_files kb1 /\
             (success res = false -> kb_document_manager kb' = kb_document_manager kb))).
  2: { intros r s' (res & -> & Hfiles & Hres). apply wp_unlink.
       - rewrite Hfiles, Htemp. by eexists.
       - intros kbz Hbooksz.
         intros Hfail. rewrite Hbooksz. by apply Hres. }
  apply wp_bind.
  apply (wp_mono _ _ (fun r kb' =>
           exists v, r = Ok v /\ same_books kb1 kb' /\
             match v with inl early => success early = false | inr _ => True end)).
  - apply wp_try_except, wp_bind, wp_kb_process_document.
    intros [processed|e] kb2 [Hfiles2 Hbooks2]; wp_simpl.
    + apply wp_bind.
      destruct (chunks processed) as [|chunk rest].
      * apply wp_diagnostic_read. intros [[]|e]; wp_simpl.
        -- apply wp_ret. wp_simpl. by eexists.
        -- apply wp_processing_failed. intros early kb3 [Hfiles3 Hbooks3] Hearly.
           eexists. split; [done|]. split; [split; congruence | done].
      * apply wp_ret. wp_simpl. apply wp_ret. wp_simpl. by eexists.
    + apply wp_processing_failed. intros early kb3 [Hfiles3 Hbooks3] Hearly.
      eexists. split; [done|]. split; [split; congruence | done].
  - intros r kb2 (v & -> & [Hfiles2 Hbooks2] & Hv). wp_simpl.
    destruct v as [early|[|chunk rest]].
    + apply wp_ret. exists early. split; [done|]. split; [done|]. intros _. congruence.
    + apply wp_ret. eexists. split; [done|]. split; [done|]. intros _. congruence.
    + apply wp_bind, wp_retitle_chunks. intros out kb3 [Hfiles3 Hbooks3] _. wp_simpl.
      apply wp_bind, wp_kb_add_documents. intros ok kb4 [Hfiles4 Hbooks4]. wp_simpl.
      apply wp_bind, wp_get. wp_simpl. apply wp_bind.
      destruct (ok && bool_decide (is_Some (kb_document_manager kb4))) eqn:Hupdate.
      * apply andb_true_iff in Hupdate as [-> _].
        apply wp_update_document_manager. intros kb5 Hfiles5. wp_simpl.
        apply wp_bind, wp_kb_now. intros t kb6 [Hfiles6 _]. wp_simpl.
        apply wp_bind, wp_get. wp_simpl. apply wp_ret.
        eexists. split; [done|]. split; [congruence | done].
      * apply wp_ret. wp_simpl.
        apply wp_bind, wp_kb_now. intros t kb6 [Hfiles6 Hbooks6]. wp_simpl.
        apply wp_bind, wp_get. wp_simpl. apply wp_ret.
        eexists. split; [done|]. split; [congruence|]. intros _. congruence.
Qed.

(** C6, as the code has it. Called with empty content, the tool
    returns a result with [success = False]. The document processor
    raises for the empty temporary file, and the error of the result is
    "DocumentProcessor failed: " followed by the text of that exception,
    which reports a file that could not be loaded; the error is not "No
    content could be extracted". The document manager, with its document
    and chunk counters, is as it was before the call. For every content:
    the call returns a result, and whenever the result reports failure
    the document manager is as it was before the call. *)
Theorem knowledge_base_insert_of_empty_content (processor : DocumentProcessor)
    (title source : string) (metadata : option (gmap string PyVal)) (kb : KB)
    (bytes : string) :
  str_lower ".txt" = ".txt" ->
  encode_text "" = Ok bytes ->
  reads_blank bytes ->
  (exists res kb' cause,
     AddToKnowledgeBaseTool_execute processor "" title source metadata kb
     = (Ok res, kb') /\
     success res = false /\
     (forall t,
        process_document processor
          (<[path_str (temp_path_of kb) := bytes]> (kb_files kb)) (temp_path_of kb) t
        = Raise cause) /\
     exc_str cause
     = "Failed to load content from " +:+ path_str (temp_path_of kb)
       +:+ ": Could not decode file " +:+ path_str (temp_path_of kb)
       +:+ " with any supported encoding" /\
     error res = Some ("DocumentProcessor failed: " +:+ exc_str cause) /\
     error res <> Some "No content could be extracted" /\
     kb_document_manager kb' = kb_document_manager kb) /\
  (forall content, exists res kb',
     AddToKnowledgeBaseTool_execute processor content title source metadata kb
     = (Ok res, kb') /\
     (success res = false -> kb_document_manager kb' = kb_document_manager kb)).
Proof.
  intros Hlower Hwritten Hblank. split.
  - destruct (execute_empty_content processor title source metadata kb bytes
                Hlower Hwritten Hblank)
      as (seconds & kb' & Hrun & Hbooks & _).
    eexists _, kb', _.
    split; [exact Hrun|]. split; [done|]. split.
    { intros t. apply (process_document_blank_text_file _ _ _ bytes);
        [apply lookup_insert_eq
        | unfold _get_document_type, temp_path_of; cbn [suffix]; by rewrite Hlower
        | done]. }
    split; [reflexivity|]. split; [reflexivity|]. split; [discriminate | done].
  - intros content.
    pose proof (execute_failure_keeps_statistics processor content title source
                  metadata kb) as Hwp.
    apply wp_run in Hwp as (r & kb' & Hrun & res & -> & Hres).
    by exists res, kb'.
Qed.

End KnowledgeBaseFacts.

(** *** The tool on a concrete machine *)

Definition sample_processor : @DocumentProcessor fixed_width_splitters :=
  @mkDocumentProcessor fixed_width_splitters
    (mkVectorStoreConfig "chroma" "code_agent_docs" "./vector_store"
       "text-embedding-ada-002" 1000 200 5 "similarity")
    (@mkTextChunker fixed_width_splitters RECURSIVE 1000 200 1000%nat).

Definition sample_knowledge_base : KnowledgeBase (list (DocumentChunk * Q)) Z :=
  mkKnowledgeBase ∅ 0 [] (Some new_document_manager) 0.

Definition run_insert (content : string)
    : Exc ToolResult * KnowledgeBase (list (DocumentChunk * Q)) Z :=
  @AddToKnowledgeBaseTool_execute simple_runtime plain_platform fixed_width_splitters
    _ _ list_store counter_clock sample_processor content "note" "user_input" None
    sample_knowledge_base.

Example insert_counts_a_document :
  success <$> (match (run_insert "Paris is the capital of France.").1 with
               | Ok res => Some res | Raise _ => None end) = Some true /\
  kb_document_manager (run_insert "Paris is the capital of France.").2
  = Some (mkDocumentManager
            [mkProcessedDocument "note" "tool:user_input" 1 "3"] 1 1 (Some "4")).
Proof. split; reflexivity. Qed.

(** With empty content the error is the processor's report of a
    temporary file it could not decode; it says nothing of content that
    could not be extracted. *)
Lemma empty_content_error_is_a_decoding_report :
  exists res kb',
    run_insert "" = (Ok res, kb') /\
    success res = false /\
    error res = Some ("DocumentProcessor failed: Failed to load content from "
                      +:+ "/tmp/tmp0.txt: Could not decode file /tmp/tmp0.txt "
                      +:+ "with any supported encoding") /\
    PyStr.contains "No content could be extracted" (default "" (error res)) = false /\
    PyStr.contains "extract" (PyStr.ascii_lower (default "" (error res))) = false.
Proof. eexists _, _. repeat split; reflexivity. Qed.

Lemma plain_platform_reads_blank : @reads_blank plain_platform "".
Proof. intros encoding text [= <-]. reflexivity. Defined.

Lemma knowledge_base_insert_of_empty_content_witness :
  @str_lower simple_runtime ".txt" = ".txt" /\
  @encode_text plain_platform "" = Ok "" /\
  @reads_blank plain_platform "" /\
  exists res kb',
    run_insert "" = (Ok res, kb') /\
    success res = false /\
    error res = Some ("DocumentProcessor failed: Failed to load content from "
                      +:+ "/tmp/tmp0.txt: Could not decode file /tmp/tmp0.txt "
                      +:+ "with any supported encoding") /\
    kb_document_manager kb' = kb_document_manager sample_knowledge_base.
Proof.
  split; [reflexivity|]. split; [reflexivity|].
  split; [exact plain_platform_reads_blank|].
  destruct (@knowledge_base_insert_of_empty_content simple_runtime plain_platform
              fixed_width_splitters _ _ list_store counter_clock sample_processor
              "note" "user_input" None sample_knowledge_base "" eq_refl eq_refl
              plain_platform_reads_blank)
    as [(res & kb' & cause & Hrun & Hfail & _ & Hcause & Herror & _ & Hbooks) _].
  exists res, kb'. split; [exact Hrun|]. split; [exact Hfail|].
  split; [|exact Hbooks].
  rewrite Herror, Hcause. reflexivity.
Defined.
(** ** Tool-use policy *)

Section PolicyFacts.
Context `{Runtime}.

Lemma any_keyword_in_true (keywords : list string) (text : string) :
  any_keyword_in keywords text = true <->
  exists kw, kw ∈ keywords /\ PyStr.contains kw text = true.
Proof.
  unfold any_keyword_in. rewrite existsb_exists.
  split; intros [kw [Hin Hc]]; exists kw; split; try done;
    by apply list_elem_of_In.
Qed.

Lemma any_keyword_in_substring (keywords : list string) (kw pre post : string) :
  kw ∈ keywords -> any_keyword_in keywords (pre +:+ kw +:+ post) = true.
Proof.
  intros Hin. apply any_keyword_in_true. exists kw. split; [done|].
  apply contains_intro.
Qed.

(** The scan returns the first family, in table order, one of whose
    keywords occurs in the query. *)
Lemma scan_languages_first (table : list (string * list string)) (q : string)
    (i : nat) (language : string) (keywords : list string) :
  table !! i = Some (language, keywords) ->
  any_keyword_in keywords q = true ->
  (forall j l ks, (j < i)%nat -> table !! j = Some (l, ks) ->
                  any_keyword_in ks q = false) ->
  scan_languages table q = Some language.
Proof.
  revert i. induction table as [|[l0 ks0] table IH]; intros i Hi Hany Hbefore.
  - by rewrite lookup_nil in Hi.
  - destruct i as [|i]; simpl in *.
    + injection Hi as -> ->. by rewrite Hany.
    + rewrite (Hbefore 0%nat l0 ks0); [|lia|done].
      apply (IH i); [done|done|].
      intros j l ks Hj Hl. apply (Hbefore (S j) l ks); [lia|done].
Qed.

Lemma scan_languages_some (table : list (string * list string)) (q : string)
    (language : string) (keywords : list string) :
  (language, keywords) ∈ table ->
  any_keyword_in keywords q = true ->
  is_Some (scan_languages table q).
Proof.
  induction table as [|[l0 ks0] table IH]; intros Hin Hany.
  - by apply elem_of_nil in Hin.
  - simpl. destruct (any_keyword_in ks0 q) eqn:E; [by eexists|].
    apply elem_of_cons in Hin as [Heq|Hin]; [|by apply IH].
    injection Heq as -> ->. congruence.
Qed.

Lemma decide_recommended (user_input : string) :
  recommended_tools (_decide_tool_usage user_input) =
    (if any_keyword_in keywords_for_github (str_lower user_input)
        || any_keyword_in keywords_for_code_search (str_lower user_input)
     then [github_call user_input]
     else if any_keyword_in keywords_for_search (str_lower user_input)
     then [document_search_call user_input]
     else [])
    ++ (if any_keyword_in keywords_for_analysis (str_lower user_input)
        then [text_analysis_call user_input] else []).
Proof.
  unfold _decide_tool_usage; cbn [recommended_tools].
  repeat match goal with |- context [if ?b then _ else _] => destruct b end;
    reflexivity.
Qed.

Lemma decide_use_tools (user_input : string) :
  use_tools (_decide_tool_usage user_input) =
    bool_decide (recommended_tools (_decide_tool_usage user_input) <> []).
Proof.
  unfold _decide_tool_usage; cbn [recommended_tools use_tools].
  apply bool_decide_ext.
  match goal with |- context [length ?l] => generalize l end.
  intros [|c l]; simpl; split; intros Hl; try done; lia.
Qed.

(** C8. An utterance whose lower-cased text contains both "github" and
    "python" makes the policy recommend the content-fetching
    repository search, "github_search_with_content", and the language
    parameter of that recommendation is "python", the first family of
    the scan. *)
Theorem github_python_recommends_search_with_python (user_input : string) :
  PyStr.contains "github" (str_lower user_input) = true ->
  PyStr.contains "python" (str_lower user_input) = true ->
  use_tools (_decide_tool_usage user_input) = true /\
  exists call,
    call ∈ recommended_tools (_decide_tool_usage user_input) /\
    call_tool_name call = "github_search_with_content" /\
    call_parameters call !! "language" = Some (PStr "python").
Proof.
  intros Hgithub Hpython.
  assert (Hrule : any_keyword_in keywords_for_github (str_lower user_input) = true).
  { apply any_keyword_in_true. exists "github". split; [|done].
    unfold keywords_for_github. list_mem. }
  assert (Hlang : _detect_programming_language user_input = Some "python").
  { unfold _detect_programming_language.
    apply (scan_languages_first _ _ 0%nat "python"
             ["python"; "def"; "import"; "class"; "pip"; "django"; "flask"; "pandas"]).
    - reflexivity.
    - apply any_keyword_in_true. exists "python". split; [list_mem|done].
    - intros j l ks Hj. lia. }
  assert (Hrec : github_call user_input ∈ recommended_tools (_decide_tool_usage user_input)).
  { rewrite decide_recommended, Hrule. cbn [orb]. list_mem. }
  split.
  - rewrite decide_use_tools. apply bool_decide_eq_true.
    intros Hnil. rewrite Hnil in Hrec. by apply elem_of_nil in Hrec.
  - exists (github_call user_input). split; [done|]. split; [done|].
    unfold github_call. simpl. rewrite Hlang. reflexivity.
Qed.

(** C10. The keyword rules look for a keyword anywhere inside the
    lower-cased utterance: whatever characters surround it, in
    particular letters of the same word. With [lower = pre + kw + post]
    for arbitrary [pre] and [post]: a repository or code keyword makes
    the repository search recommended; a search keyword makes the
    document search recommended, unless the repository rule has fired
    (the branches exclude each other); an analysis keyword makes the text
    analysis recommended; and a keyword of a language family makes the
    language detection answer, with the first family in scan order that
    has a keyword inside the query. *)
Theorem keyword_rules_match_inside_words (user_input kw pre post : string) :
  str_lower user_input = pre +:+ kw +:+ post ->
  (kw ∈ keywords_for_github \/ kw ∈ keywords_for_code_search ->
     github_call user_input ∈ recommended_tools (_decide_tool_usage user_input)) /\
  (kw ∈ keywords_for_search ->
     any_keyword_in keywords_for_github (str_lower user_input)
     || any_keyword_in keywords_for_code_search (str_lower user_input) = false ->
     document_search_call user_input
       ∈ recommended_tools (_decide_tool_usage user_input)) /\
  (kw ∈ keywords_for_analysis ->
     text_analysis_call user_input
       ∈ recommended_tools (_decide_tool_usage user_input)) /\
  (forall language keywords,
     (language, keywords) ∈ language_keywords -> kw ∈ keywords ->
     is_Some (_detect_programming_language user_input)) /\
  (forall i language keywords,
     language_keywords !! i = Some (language, keywords) -> kw ∈ keywords ->
     (forall j l ks, (j < i)%nat -> language_keywords !! j = Some (l, ks) ->
                     any_keyword_in ks (str_lower user_input) = false) ->
     _detect_programming_language user_input = Some language).
Proof.
  intros Hlower.
  assert (Hany : forall keywords, kw ∈ keywords ->
                   any_keyword_in keywords (str_lower user_input) = true).
  { intros keywords Hin. rewrite Hlower. by apply any_keyword_in_substring. }
  repeat split.
  - intros [Hin|Hin]; rewrite decide_recommended, (Hany _ Hin);
      rewrite ?orb_true_r; cbn [orb]; list_mem.
  - intros Hin Hno. rewrite decide_recommended, Hno, (Hany _ Hin). list_mem.
  - intros Hin. rewrite decide_recommended, (Hany _ Hin). list_mem.
  - intros language keywords Hfam Hin. unfold _detect_programming_language.
    eapply scan_languages_some; [exact Hfam | by apply Hany].
  - intros i language keywords Hfam Hin Hbefore.
    unfold _detect_programming_language.
    eapply scan_languages_first; [exact Hfam | by apply Hany | exact Hbefore].
Qed.

End PolicyFacts.

(** The policy on concrete utterances, with ASCII lower-casing. *)

Example decide_shower :
  map call_tool_name
    (recommended_tools (@_decide_tool_usage simple_runtime "Fix my shower"))
  = ["document_search"].
Proof. reflexivity. Qed.

Example detect_javascript :
  @_detect_programming_language simple_runtime "a javascript closure" = Some "javascript".
Proof. reflexivity. Qed.

Example decide_analyze_only :
  map call_tool_name
    (recommended_tools (@_decide_tool_usage simple_runtime "Please analyze this text"))
  = ["text_analysis"].
Proof. reflexivity. Qed.

Lemma github_python_recommends_search_with_python_witness :
  let user_input := "Find GitHub Python sorting" in
  PyStr.contains "github" (PyStr.ascii_lower user_input) = true /\
  PyStr.contains "python" (PyStr.ascii_lower user_input) = true /\
  use_tools (@_decide_tool_usage simple_runtime user_input) = true /\
  exists call,
    call ∈ recommended_tools (@_decide_tool_usage simple_runtime user_input) /\
    call_tool_name call = "github_search_with_content" /\
    call_parameters call !! "language" = Some (PStr "python").
Proof.
  split; [reflexivity|]. split; [reflexivity|].
  apply (@github_python_recommends_search_with_python simple_runtime
           "Find GitHub Python sorting"); reflexivity.
Defined.

Lemma keyword_rules_match_inside_words_witness :
  PyStr.ascii_lower "Fix my shower" = "fix my s" +:+ "how" +:+ "er" /\
  document_search_call "Fix my shower"
    ∈ recommended_tools (@_decide_tool_usage simple_runtime "Fix my shower").
Proof.
  split; [reflexivity|].
  apply (@keyword_rules_match_inside_words simple_runtime
           "Fix my shower" "how" "fix my s" "er" eq_refl).
  - unfold keywords_for_search. list_mem.
  - reflexivity.
Defined.
(** ** Tool manager *)

Section ToolManagerFacts.
Context `{Runtime} {W : Type} `{WorldOps W}.

Lemma wp_managed_now (st : Managed W) (Q : Exc Z -> Managed W -> Prop) :
  (forall t w, Q (Ok t) (mkManaged (manager st) w)) -> wp managed_now st Q.
Proof.
  intros HQ. unfold wp, managed_now. destruct (clock (manager_world st)). apply HQ.
Qed.

Lemma wp_record_execution (tname : string) (kwargs : gmap string PyVal)
    (outcome : ToolResult) (st : Managed W) (Q : Exc unit -> Managed W -> Prop) :
  (forall t w,
     Q (Ok tt)
       (mkManaged
          (mkToolManager (tools (manager st))
             (execution_history (manager st)
              ++ [mkHistoryEntry tname kwargs outcome (isoformat t)]))
          w)) ->
  wp (record_execution tname kwargs outcome) st Q.
Proof.
  intros HQ. unfold record_execution. apply wp_bind, wp_managed_now.
  intros t w. wp_simpl. apply wp_modify. apply HQ.
Qed.

Lemma wp_run_tool (tool : Tool W) (kwargs : gmap string PyVal) (st : Managed W)
    (Q : Exc ToolResult -> Managed W -> Prop) :
  (forall r w, execute tool kwargs (manager_world st) = (r, w) ->
               Q r (mkManaged (manager st) w)) ->
  wp (run_tool tool kwargs) st Q.
Proof.
  intros HQ. unfold wp, run_tool.
  destruct (execute tool kwargs (manager_world st)) as [r w] eqn:Hrun. by apply HQ.
Qed.

(** Keyword arguments that can be passed to [execute_tool]: none of
    them is named like one of the method's own parameters. *)
Definition bindable (kwargs : gmap string PyVal) : Prop :=
  kwargs !! "tool_name" = None /\ kwargs !! "self" = None.

Lemma binding_collision_bindable (kwargs : gmap string PyVal) :
  binding_collision kwargs = None <-> bindable kwargs.
Proof.
  unfold binding_collision, bindable.
  destruct (kwargs !! "tool_name") as [v|], (kwargs !! "self") as [v'|];
    repeat (rewrite bool_decide_eq_true_2 by (by eexists));
    repeat (rewrite bool_decide_eq_false_2 by (by intros [? ?]));
    split; (done || by intros [? ?]).
Qed.

(** A call whose keyword arguments cannot be bound raises before the
    body of the method runs: nothing is looked up and nothing is
    recorded. *)
Lemma execute_tool_unbound (tname : string) (kwargs : gmap string PyVal)
    (st : Managed W) :
  ~ bindable kwargs ->
  exists e, execute_tool tname kwargs st = (Raise e, st) /\ exc_class e = "TypeError".
Proof.
  intros Hcollision. unfold execute_tool.
  destruct (binding_collision kwargs) as [parameter|] eqn:Hbinding.
  - by eexists.
  - by apply binding_collision_bindable in Hbinding.
Qed.

(** What a call does, case by case: the result it returns and the
    history it leaves. *)
Lemma execute_tool_cases (tname : string) (kwargs : gmap string PyVal)
    (st : Managed W) :
  bindable kwargs ->
  wp (execute_tool tname kwargs) st (fun r st' =>
    tools (manager st') = tools (manager st) /\
    match tools (manager st) !! tname with
    | None =>
        r = Ok (mkToolResult tname false PNone
                  (Some ("Tool '" +:+ tname +:+ "' not found")) 0 ∅) /\
        st' = st
    | Some tool =>
        if enabled tool then
          exists res t,
            r = Ok res /\
            execution_history (manager st')
            = execution_history (manager st)
              ++ [mkHistoryEntry tname kwargs res (isoformat t)] /\
            match (execute tool kwargs (manager_world st)).1 with
            | Ok outcome => res = outcome
            | Raise e =>
                res = mkToolResult tname false PNone
                        (Some ("Tool execution failed: " +:+ exc_str e)) 0 ∅
            end
        else
          r = Ok (mkToolResult tname false PNone
                    (Some ("Tool '" +:+ tname +:+ "' is disabled")) 0 ∅) /\
          st' = st
    end).
Proof.
  intros Hbindable. apply binding_collision_bindable in Hbindable.
  unfold execute_tool. rewrite Hbindable.
  apply wp_bind, wp_get. wp_simpl. unfold get_tool.
  destruct (tools (manager st) !! tname) as [tool|] eqn:Hlookup.
  - destruct (enabled tool) eqn:Henabled; cbn [negb].
    + apply wp_try_except, wp_bind, wp_run_tool. intros r w Hrun. rewrite Hrun.
      destruct r as [outcome|e]; wp_simpl.
      * apply wp_bind, wp_record_execution. intros t w'. wp_simpl.
        apply wp_ret. split; [done|]. by exists outcome, t.
      * apply wp_bind, wp_record_execution. intros t w'. wp_simpl.
        apply wp_ret. split; [done|]. by eexists _, t.
    + by apply wp_ret.
  - by apply wp_ret.
Qed.

(** C1, as the code has it. Keyword arguments named [tool_name] or
    [self] collide with the parameters of [execute_tool] itself: such a
    call raises a [TypeError] to its caller while the arguments are
    bound, and nothing else happens. For every name and all other
    keyword arguments the call returns a [ToolResult] and raises nothing.
    An unknown name gives [success = False], the error "Tool '<name>' not
    found" and execution time 0; a disabled tool gives [success = False]
    and the error "Tool '<name>' is disabled"; an exception raised by the
    tool's [execute], a [TypeError] for keyword arguments that do not fit
    the tool included, gives [success = False], execution time 0 and the
    error "Tool execution failed: " followed by the exception's string;
    and what the tool returns is returned as it is. *)
Theorem execute_tool_never_raises (tname : string) (kwargs : gmap string PyVal)
    (st : Managed W) :
  (bindable kwargs ->
   exists res st',
     execute_tool tname kwargs st = (Ok res, st') /\
     (tools (manager st) !! tname = None ->
        success res = false /\
        error res = Some ("Tool '" +:+ tname +:+ "' not found") /\
        PyStr.contains "not found" (default "" (error res)) = true /\
        execution_time res = 0%Q) /\
     (forall tool,
        tools (manager st) !! tname = Some tool -> enabled tool = false ->
        success res = false /\
        error res = Some ("Tool '" +:+ tname +:+ "' is disabled") /\
        PyStr.contains "disabled" (default "" (error res)) = true) /\
     (forall tool e w,
        tools (manager st) !! tname = Some tool -> enabled tool = true ->
        execute tool kwargs (manager_world st) = (Raise e, w) ->
        success res = false /\
        error res = Some ("Tool execution failed: " +:+ exc_str e) /\
        execution_time res = 0%Q) /\
     (forall tool outcome w,
        tools (manager st) !! tname = Some tool -> enabled tool = true ->
        execute tool kwargs (manager_world st) = (Ok outcome, w) ->
        res = outcome)) /\
  (~ bindable kwargs ->
   exists e,
     execute_tool tname kwargs st = (Raise e, st) /\ exc_class e = "TypeError").
Proof.
  split; [|apply execute_tool_unbound].
  intros Hbindable.
  pose proof (execute_tool_cases tname kwargs st Hbindable) as Hwp.
  apply wp_run in Hwp as (r & st' & Hrun & _ & Hcases).
  destruct (tools (manager st) !! tname) as [tool|] eqn:Hlookup.
  - destruct (enabled tool) eqn:Henabled.
    + destruct Hcases as (res & t & -> & _ & Hres).
      exists res, st'. split; [done|]. split; [done|].
      split; [intros ? [= <-]; congruence|].
      split; intros tool' ? w [= <-] _ Hexec; rewrite Hexec in Hres; simpl in Hres;
        by subst res.
    + destruct Hcases as [-> ->]. eexists _, _. split; [done|]. split; [done|].
      split.
      * intros ? [= <-] _. cbn [success error default]. split; [done|]. split; [done|].
        by do 2 apply contains_append_r.
      * split; intros ? ? ? [= <-]; congruence.
  - destruct Hcases as [-> ->]. eexists _, _. split; [done|]. split.
    + intros _. cbn [success error default execution_time].
      split; [done|]. split; [done|]. split; [|done].
      by do 2 apply contains_append_r.
    + split; [|split]; intros; discriminate.
Qed.

(** C3, as the code has it. A call that reaches the tool's [execute]
    (its keyword arguments can be bound, the name is registered and the
    tool enabled) appends exactly one entry to the execution history,
    whether the tool returned or raised: the name, the keyword arguments,
    the result returned to the caller and a timestamp. A call for an
    unknown name or a disabled tool returns before anything is recorded
    and leaves the history as it was; and a call whose keyword arguments
    collide with the parameters [tool_name] or [self] raises before the
    body runs and leaves everything as it was. *)
Theorem execute_tool_history (tname : string) (kwargs : gmap string PyVal)
    (st : Managed W) :
  (bindable kwargs ->
   exists res st',
     execute_tool tname kwargs st = (Ok res, st') /\
     (forall tool,
        tools (manager st) !! tname = Some tool -> enabled tool = true ->
        exists t,
          execution_history (manager st')
          = execution_history (manager st)
            ++ [mkHistoryEntry tname kwargs res (isoformat t)]) /\
     (tools (manager st) !! tname = None ->
        execution_history (manager st') = execution_history (manager st)) /\
     (forall tool,
        tools (manager st) !! tname = Some tool -> enabled tool = false ->
        execution_history (manager st') = execution_history (manager st))) /\
  (~ bindable kwargs ->
   exists e st',
     execute_tool tname kwargs st = (Raise e, st') /\
     execution_history (manager st') = execution_history (manager st)).
Proof.
  split.
  2: { intros Hcollision.
       destruct (execute_tool_unbound tname kwargs st Hcollision) as (e & Hrun & _).
       by exists e, st. }
  intros Hbindable.
  pose proof (execute_tool_cases tname kwargs st Hbindable) as Hwp.
  apply wp_run in Hwp as (r & st' & Hrun & _ & Hcases).
  destruct (tools (manager st) !! tname) as [tool|] eqn:Hlookup.
  - destruct (enabled tool) eqn:Henabled.
    + destruct Hcases as (res & t & -> & Hhistory & _).
      exists res, st'. split; [done|]. split.
      * intros ? [= <-] _. by exists t.
      * split; [done|]. intros ? [= <-]. congruence.
    + destruct Hcases as [-> ->]. eexists _, _. split; [done|].
      split; [intros ? [= <-]; congruence|]. done.
  - destruct Hcases as [-> ->]. eexists _, _. split; [done|].
    split; [done|]. done.
Qed.

End ToolManagerFacts.

(** *** The manager on a concrete world: a clock, and the text-analysis
        tool registered *)

Definition sample_manager : Managed Z :=
  mkManaged (@register_tool Z (@TextAnalysisTool simple_runtime Z counter_clock)
               new_tool_manager) 0.

Definition run_execute (tname : string) (kwargs : gmap string PyVal)
    : Exc ToolResult * Managed Z :=
  @execute_tool simple_runtime Z counter_clock tname kwargs sample_manager.

Example analysis_through_the_manager :
  match (run_execute "text_analysis" {[ "text" := PStr "" ]}).1 with
  | Ok res => success res = true /\
              result res = PDict [ ("character_count", PInt 0); ("word_count", PInt 0);
                                   ("line_count", PInt 1); ("paragraph_count", PInt 0);
                                   ("average_word_length", PInt 0) ]
  | Raise _ => False
  end.
Proof. vm_compute. split; reflexivity. Qed.

(** A failure that the tool converts itself comes back unchanged: the
    error is the string of the exception, without prefix. *)
Example tool_converts_its_own_failure :
  match (run_execute "text_analysis"
           (<["text" := PStr "abc"]> {[ "analysis_type" := PStr "full" ]})).1 with
  | Ok res => success res = false /\ error res = Some "Unknown analysis type: full"
  | Raise _ => False
  end.
Proof. vm_compute. split; reflexivity. Qed.

(** Two ways in which the call does not do what is said of it.
    Keyword arguments without [text]: the interpreter raises a
    [TypeError] at the call of the tool, and the error of the result is
    that exception's string behind the prefix "Tool execution failed: ",
    not the string itself. Keyword arguments with the key [tool_name]:
    the call of [execute_tool] itself raises a [TypeError], and no
    result is returned. *)
Lemma execute_tool_prefixes_or_raises :
  (exists e res,
     (@execute Z (@TextAnalysisTool simple_runtime Z counter_clock) ∅ 0).1 = Raise e /\
     (run_execute "text_analysis" ∅).1 = Ok res /\
     exc_str e = "TextAnalysisTool.execute() missing 1 required positional argument: 'text'" /\
     success res = false /\
     error res = Some ("Tool execution failed: " +:+ exc_str e) /\
     error res <> Some (exc_str e)) /\
  (run_execute "text_analysis"
     (<["text" := PStr "two words"]> {[ "tool_name" := PStr "text_analysis" ]})).1
  = Raise (TypeError
             "ToolManager.execute_tool() got multiple values for argument 'tool_name'").
Proof.
  split; [|vm_compute; reflexivity].
  eexists _, _.
  split; [vm_compute; reflexivity|].
  split; [vm_compute; reflexivity|].
  split; [reflexivity|]. split; [reflexivity|]. split; [reflexivity|]. discriminate.
Qed.

(** Two calls that record nothing: one for a name that is not
    registered, which returns a failure, and one for the registered,
    enabled text analysis with a keyword argument named [self], which
    raises. *)
Lemma unrecorded_calls :
  (exists res,
     (run_execute "web_search" ∅).1 = Ok res /\
     success res = false /\
     execution_history (manager (run_execute "web_search" ∅).2) = [] /\
     length (execution_history (manager (run_execute "web_search" ∅).2))
     <> S (length (execution_history (manager sample_manager)))) /\
  (exists e,
     (run_execute "text_analysis"
        (<["text" := PStr "two words"]> {[ "self" := PNone ]})).1 = Raise e /\
     exc_class e = "TypeError" /\
     execution_history
       (manager (run_execute "text_analysis"
                   (<["text" := PStr "two words"]> {[ "self" := PNone ]})).2) = []).
Proof.
  split.
  - eexists.
    split; [vm_compute; reflexivity|].
    split; [reflexivity|].
    split; [vm_compute; reflexivity|].
    vm_compute. discriminate.
  - eexists. split; [vm_compute; reflexivity|]. split; [reflexivity|].
    vm_compute. reflexivity.
Qed.

Lemma sample_manager_has_analysis :
  tools (manager sample_manager) !! "text_analysis"
  = Some (@TextAnalysisTool simple_runtime Z counter_clock).
Proof. reflexivity. Defined.

Lemma no_arguments_bindable : bindable ∅.
Proof. split; reflexivity. Defined.

Lemma text_argument_bindable : bindable {[ "text" := PStr "two words" ]}.
Proof. split; reflexivity. Defined.

Lemma execute_tool_never_raises_witness :
  bindable ∅ /\
  exists res st',
    run_execute "text_analysis" ∅ = (Ok res, st') /\
    success res = false /\
    execution_time res = 0%Q.
Proof.
  split; [exact no_arguments_bindable|].
  destruct (proj1 (@execute_tool_never_raises simple_runtime Z counter_clock
                     "text_analysis" ∅ sample_manager) no_arguments_bindable)
    as (res & st' & Hrun & _ & _ & Hraise & _).
  exists res, st'. split; [exact Hrun|].
  destruct (Hraise (@TextAnalysisTool simple_runtime Z counter_clock)
              (TypeError "TextAnalysisTool.execute() missing 1 required positional argument: 'text'")
              0 sample_manager_has_analysis eq_refl eq_refl) as (Hfail & _ & Htime).
  by split.
Defined.

Lemma execute_tool_history_witness :
  bindable {[ "text" := PStr "two words" ]} /\
  exists res st',
    run_execute "text_analysis" {[ "text" := PStr "two words" ]} = (Ok res, st') /\
    exists t, execution_history (manager st')
              = [mkHistoryEntry "text_analysis" {[ "text" := PStr "two words" ]} res
                   (@isoformat simple_runtime t)].
Proof.
  split; [exact text_argument_bindable|].
  destruct (proj1 (@execute_tool_history simple_runtime Z counter_clock
                     "text_analysis" {[ "text" := PStr "two words" ]} sample_manager)
              text_argument_bindable)
    as (res & st' & Hrun & Hrecorded & _).
  exists res, st'. split; [exact Hrun|].
  exact (Hrecorded (@TextAnalysisTool simple_runtime Z counter_clock)
           sample_manager_has_analysis eq_refl).
Defined.
(** ** The agent when the model is unreachable *)

Section AgentFacts.
Context `{Runtime} {W : Type} `{WorldOps W} `{VectorStore W} `{LLMClient W}.

Local Abbreviation St := (AgentState W).

(** Every call of the LLM manager raises. *)
Definition llm_always_raises (llm : LLMManager) : Prop :=
  forall msgs w, exists e w', generate_response llm msgs w = (Raise e, w').

(** [text] is the string of the exception that the LLM manager raises
    for the messages [msgs]. *)
Definition llm_error_text_for (llm : LLMManager) (msgs : list ChatMessage)
    (text : string) : Prop :=
  exists w e w', generate_response llm msgs w = (Raise e, w') /\ text = exc_str e.

(** [text] is the string of an exception raised by a call of the LLM
    manager. *)
Definition llm_error_text (llm : LLMManager) (text : string) : Prop :=
  exists msgs, llm_error_text_for llm msgs text.

(** Two ways for the model to be unreachable: no client was
    initialised, or the endpoint raises at every request. *)
Lemma no_client_always_raises (llm : LLMManager) :
  client llm = false -> llm_always_raises llm.
Proof.
  intros Hclient msgs w. unfold generate_response. rewrite Hclient. by eexists _, _.
Qed.

Lemma failing_endpoint_always_raises (llm : LLMManager) :
  (forall msgs w, exists e w', chat_completions_create msgs w = (Raise e, w')) ->
  llm_always_raises llm.
Proof.
  intros Hendpoint msgs w. unfold generate_response.
  destruct (client llm); [|by eexists _, _]. simpl.
  unfold try_except. destruct (Hendpoint msgs w) as (e & w' & ->). by eexists _, _.
Qed.

(** *** Payloads of the shapes the built-in tools produce *)

Definition results_of (items : list (string * PyVal)) : PyVal :=
  default (PList []) (assoc_lookup items "results").

(** A hit of the document search: a dictionary with a string under
    "content". *)
Definition shaped_search_hit (v : PyVal) : Prop :=
  exists items text, v = PDict items /\ assoc_lookup items "content" = Some (PStr text).

(** A result of the repository search: an object with the five
    attributes that are read, its description a string or [None]. *)
Definition shaped_github_result (v : PyVal) : Prop :=
  exists class_name attrs title url description repository language,
    v = PObj class_name attrs /\
    assoc_lookup attrs "title" = Some title /\
    assoc_lookup attrs "url" = Some url /\
    assoc_lookup attrs "description" = Some description /\
    assoc_lookup attrs "repository" = Some repository /\
    assoc_lookup attrs "language" = Some language /\
    (description = PNone \/ exists text, description = PStr text).

(** A result of the search with content: a dictionary whose
    "content", when present, is a string or [None]. *)
Definition shaped_content_result (v : PyVal) : Prop :=
  exists items,
    v = PDict items /\
    (default PNone (assoc_lookup items "content") = PNone \/
     exists text, default PNone (assoc_lookup items "content") = PStr text).

(** A dictionary whose "results" are a list of items of the given
    shape. *)
Definition shaped_payload (shaped_item : PyVal -> Prop) (payload : PyVal) : Prop :=
  exists items found,
    payload = PDict items /\ results_of items = PList found /\ Forall shaped_item found.

(** A tool result that the context building can read. *)
Definition well_shaped (r : ToolResult) : Prop :=
  success r = true -> py_truthy (result r) = true ->
  (tool_name r = "document_search" -> shaped_payload shaped_search_hit (result r)) /\
  (tool_name r = "text_analysis" -> exists items, result r = PDict items) /\
  (tool_name r = "github_search" \/ tool_name r = "github_code_search" ->
     shaped_payload shaped_github_result (result r)) /\
  (tool_name r = "github_search_with_content" ->
     shaped_payload shaped_content_result (result r)).

(** Every registered tool returns results of these shapes. *)
Definition tools_well_shaped (registered : gmap string (Tool W)) : Prop :=
  forall tname tool kwargs w r w',
    registered !! tname = Some tool ->
    execute tool kwargs w = (Ok r, w') ->
    well_shaped r.

(** The results of the text-analysis tool are well shaped: a
    successful one carries the dictionary of statistics. *)
Lemma analysis_body_dict (text analysis_type payload : PyVal) :
  analysis_body text analysis_type = Ok payload -> exists items, payload = PDict items.
Proof.
  unfold analysis_body.
  destruct analysis_type as [| | | | |kind| | |]; try discriminate.
  destruct (String.eqb_spec kind "basic") as [->|Hbasic].
  - destruct text as [| | | | |s| | |]; try discriminate.
    destruct (basic_analysis_total s) as [items ->]. intros [= <-]. by eexists.
  - destruct (String.eqb_spec kind "detailed") as [->|Hdetailed].
    + destruct text as [| | | | |s| | |]; try discriminate.
      unfold _detailed_analysis.
      destruct (basic_analysis_total s) as [items ->]. cbn [exc_bind].
      repeat match goal with
             | |- context [exc_bind ?r _] =>
                 destruct r as [?|?]; cbn [exc_bind]; [|discriminate]
             end.
      intros [= <-]. by eexists.
    + intros Hother. exfalso.
      repeat match type of Hother with
             | context [match ?x with _ => _ end] =>
                 destruct x; try discriminate; try congruence
             end.
Qed.

Lemma text_analysis_well_shaped (kwargs : gmap string PyVal) (w : W)
    (r : ToolResult) (w' : W) :
  TextAnalysisTool_call kwargs w = (Ok r, w') -> well_shaped r.
Proof.
  unfold TextAnalysisTool_call, py_bind, py_lift.
  destruct (bind_kwargs _ _ _ kwargs); [|discriminate].
  unfold TextAnalysisTool_execute, py_bind, try_except, py_lift, now, py_ret.
  destruct (clock w) as [t0 w0].
  destruct (analysis_body _ _) as [payload|e] eqn:Hbody.
  - destruct (clock w0) as [t1 w1]. intros [= <- _].
    destruct (analysis_body_dict _ _ _ Hbody) as [items ->].
    intros _ _. cbn [tool_name result].
    split; [discriminate|]. split; [by eexists|]. split; [|discriminate].
    intros [?|?]; discriminate.
  - destruct (clock w0) as [t1 w1]. intros [= <- _]. intros Hsuccess. discriminate.
Qed.

Lemma only_text_analysis_well_shaped :
  tools_well_shaped (tools (register_tool TextAnalysisTool new_tool_manager)).
Proof.
  intros tname tool kwargs w r w'. cbn [register_tool tools new_tool_manager name
                                       TextAnalysisTool].
  intros Hlookup. apply lookup_insert_Some in Hlookup as [[_ <-]|[_ Hempty]].
  - apply text_analysis_well_shaped.
  - by rewrite lookup_empty in Hempty.
Qed.

Lemma Forall_enumerate_from {A} (P : A -> Prop) (start : Z) (items : list A) :
  Forall P items -> Forall (fun entry => P entry.2) (enumerate_from start items).
Proof.
  intros Hall. revert start. induction Hall as [|x rest Hx _ IH]; intros start; simpl.
  - constructor.
  - constructor; [done | apply IH].
Qed.

Lemma render_search_hits_return (entries : list (Z * PyVal)) (parts : list string) :
  Forall (fun entry => shaped_search_hit entry.2) entries ->
  exists out, fold_left render_search_hit entries (Ok parts) = Ok out.
Proof.
  intros Hall. revert parts.
  induction Hall as [|[i hit] rest Hhit _ IH]; intros parts; simpl.
  - by eexists.
  - destruct Hhit as (items & text & Hdict & Hcontent). simpl in Hdict. subst hit.
    unfold py_getitem. rewrite Hcontent. cbn [exc_bind py_slice_to]. apply IH.
Qed.

Lemma render_document_search_returns (payload : PyVal) (parts : list string) :
  shaped_payload shaped_search_hit payload ->
  exists out, render_document_search payload parts = Ok out.
Proof.
  intros (items & found & -> & Hresults & Hall).
  unfold render_document_search, py_get_method. fold (results_of items).
  rewrite Hresults. cbn [exc_bind py_slice_to py_iter].
  apply render_search_hits_return, Forall_enumerate_from. by apply Forall_take.
Qed.

Lemma render_text_analysis_returns (items : list (string * PyVal)) (parts : list string) :
  exists out, render_text_analysis (PDict items) parts = Ok out.
Proof. unfold render_text_analysis. simpl. by eexists. Qed.

Lemma render_github_results_return (entries : list (Z * PyVal)) (parts : list string) :
  Forall (fun entry => shaped_github_result entry.2) entries ->
  exists out, fold_left render_github_result entries (Ok parts) = Ok out.
Proof.
  intros Hall. revert parts.
  induction Hall as [|[i found] rest Hfound _ IH]; intros parts; simpl.
  - by eexists.
  - destruct Hfound as (class_name & attrs & title & url & description & repository
                        & language & Hobj & Ht & Hu & Hd & Hr & Hl & Hdescription).
    simpl in Hobj. subst found.
    unfold py_getattr. rewrite Ht, Hu, Hd, Hr, Hl. cbn [exc_bind].
    assert (Hslice : exists short,
              py_slice_to 150 (py_or description (PStr "No description")) = Ok short).
    { destruct Hdescription as [->|[text ->]]; [by eexists|].
      unfold py_or. destruct (py_truthy (PStr text)); by eexists. }
    destruct Hslice as [short ->]. cbn [exc_bind]. apply IH.
Qed.

Lemma render_github_search_returns (payload : PyVal) (parts : list string) :
  shaped_payload shaped_github_result payload ->
  exists out, render_github_search payload parts = Ok out.
Proof.
  intros (items & found & -> & Hresults & Hall).
  unfold render_github_search, py_get_method. fold (results_of items).
  rewrite Hresults. cbn [exc_bind py_slice_to py_iter].
  apply render_github_results_return, Forall_enumerate_from. by apply Forall_take.
Qed.

Lemma content_preview_returns (text : PyVal) :
  text = PNone \/ (exists s, text = PStr s) ->
  exists preview, content_preview text = Ok preview.
Proof.
  intros [->|[s ->]]; [by eexists|].
  unfold content_preview. destruct (py_truthy (PStr s)); [|by eexists].
  cbn [py_len exc_bind]. destruct (500 <? PyStr.len s); by eexists.
Qed.

(** *** Steps that always return *)

Lemma wp_with_world {A} (m : Py W A) (st : St) (Q : Exc A -> St -> Prop) :
  (forall r w, m (agent_world st) = (r, w) ->
     Q r (mkAgentState (memory st) (tool_manager st) (agent_conversations st) w)) ->
  wp (with_world m) st Q.
Proof.
  intros HQ. unfold wp, with_world. destruct (m (agent_world st)) as [r w] eqn:Hm.
  by apply HQ.
Qed.

Lemma wp_agent_now (st : St) (Q : Exc Z -> St -> Prop) :
  (forall t st', tool_manager st' = tool_manager st -> Q (Ok t) st') ->
  wp agent_now st Q.
Proof.
  intros HQ. unfold agent_now. apply wp_with_world. intros r w.
  unfold now. destruct (clock (agent_world st)) as [t w0]. intros [= <- <-].
  by apply HQ.
Qed.

Lemma wp_remember (memory_item : gmap string PyVal) (st : St)
    (Q : Exc unit -> St -> Prop) :
  (forall st', tool_manager st' = tool_manager st -> Q (Ok tt) st') ->
  wp (remember memory_item) st Q.
Proof.
  intros HQ. unfold remember.
  apply wp_bind, wp_agent_now. intros t1 st1 Hsame1. wp_simpl.
  apply wp_bind, wp_agent_now. intros t2 st2 Hsame2. wp_simpl.
  apply wp_modify, HQ. simpl. congruence.
Qed.

Lemma wp_note_working_memory (key : string) (value : PyVal) (st : St)
    (Q : Exc unit -> St -> Prop) :
  (forall st', tool_manager st' = tool_manager st -> Q (Ok tt) st') ->
  wp (note_working_memory key value) st Q.
Proof.
  intros HQ. unfold note_working_memory.
  apply wp_bind, wp_agent_now. intros t1 st1 Hsame1. wp_simpl.
  apply wp_modify, HQ. simpl. congruence.
Qed.

(** A call through the manager with keyword arguments that can be
    bound returns a result; the registered tools stay the same, and the
    result is well shaped when theirs are. *)
Lemma wp_with_manager_execute (tname : string) (kwargs : gmap string PyVal)
    (st : St) (Q : Exc ToolResult -> St -> Prop) :
  bindable kwargs ->
  (forall res st',
     tools (tool_manager st') = tools (tool_manager st) ->
     (tools_well_shaped (tools (tool_manager st)) -> well_shaped res) ->
     Q (Ok res) st') ->
  wp (with_manager (execute_tool tname kwargs)) st Q.
Proof.
  intros Hbindable HQ. unfold wp, with_manager.
  pose proof (execute_tool_cases tname kwargs
                (mkManaged (tool_manager st) (agent_world st)) Hbindable) as Hwp.
  apply wp_run in Hwp as (r & ms & Hrun & Htools & Hcases). rewrite Hrun.
  cbn [manager manager_world fst snd] in *.
  assert (Hfailed : forall message,
            well_shaped (mkToolResult tname false PNone message 0 ∅)).
  { intros message. unfold well_shaped. cbn [success]. discriminate. }
  destruct (tools (tool_manager st) !! tname) as [tool|] eqn:Hlookup.
  - destruct (enabled tool).
    + destruct Hcases as (res & t & -> & _ & Hres). apply HQ; [done|].
      intros Hshaped.
      destruct (execute tool kwargs (agent_world st)) as [[outcome|e] w] eqn:Hexec;
        cbn [fst] in Hres; subst res; [|apply Hfailed].
      by eapply Hshaped.
    + destruct Hcases as [-> _]. apply HQ; [done|]. intros _. apply Hfailed.
  - destruct Hcases as [-> _]. apply HQ; [done|]. intros _. apply Hfailed.
Qed.

Lemma wp_execute_recommended_tools (recommended : list ToolCall) (st : St)
    (Q : Exc (list ToolResult) -> St -> Prop) :
  Forall (fun call => bindable (call_parameters call)) recommended ->
  (forall results st',
     tools (tool_manager st') = tools (tool_manager st) ->
     (tools_well_shaped (tools (tool_manager st)) -> Forall well_shaped results) ->
     Q (Ok results) st') ->
  wp (_execute_recommended_tools recommended) st Q.
Proof.
  intros Hbindable HQ. unfold _execute_recommended_tools.
  apply (wp_for _ _ _ _ (fun call => bindable (call_parameters call))
           (fun results st' =>
              tools (tool_manager st') = tools (tool_manager st) /\
              (tools_well_shaped (tools (tool_manager st)) ->
               Forall well_shaped results))).
  - exact Hbindable.
  - split; [done|]. intros _. constructor.
  - intros results tool_config st1 Hcall [Hsame Hshaped].
    apply wp_bind, wp_with_manager_execute; [exact Hcall|].
    intros res st2 Hsame2 Hres. wp_simpl.
    apply wp_ret. split; [congruence|].
    intros Hall. apply Forall_app. split; [by apply Hshaped|].
    constructor; [|constructor]. apply Hres. by rewrite Hsame.
  - intros results st1 [Hsame Hshaped]. by apply HQ.
Qed.

Lemma wp_add_fetched_content (user_input : string)
    (repository title url text : PyVal) (st : St) (Q : Exc unit -> St -> Prop) :
  (forall st', Q (Ok tt) st') ->
  wp (add_fetched_content user_input repository title url text) st Q.
Proof.
  intros HQ. unfold add_fetched_content. apply wp_try_except.
  eapply wp_mono; [apply wp_any|].
  intros [[]|e] st' _; [apply HQ | apply wp_ret, HQ].
Qed.

Lemma wp_render_content_result (user_input : string) (parts : list string)
    (entry : Z * PyVal) (st : St) (Q : Exc (list string) -> St -> Prop) :
  shaped_content_result entry.2 ->
  (forall out st', Q (Ok out) st') ->
  wp (render_content_result user_input parts entry) st Q.
Proof.
  destruct entry as [i found]. intros (items & Hdict & Hcontent) HQ.
  simpl in Hdict. subst found. unfold render_content_result.
  cbn [py_get_method].
  apply wp_bind, wp_lift. wp_simpl. apply wp_bind, wp_lift. wp_simpl.
  apply wp_bind, wp_lift. wp_simpl. apply wp_bind, wp_lift. wp_simpl.
  destruct (content_preview_returns _ Hcontent) as [preview Hpreview].
  apply wp_bind.
  apply (wp_mono _ _ (fun r _ => r = Ok tt)).
  - destruct Hcontent as [->|[s ->]]; [by apply wp_ret|].
    destruct (py_truthy (PStr s)); [|by apply wp_ret].
    apply wp_bind, wp_lift. cbn [py_len]. wp_simpl.
    by apply wp_add_fetched_content.
  - intros r st' ->. wp_simpl. apply wp_bind. rewrite Hpreview. apply wp_lift.
    wp_simpl. apply wp_ret, HQ.
Qed.

Lemma wp_render_github_content (user_input : string) (payload : PyVal)
    (parts : list string) (st : St) (Q : Exc (list string) -> St -> Prop) :
  shaped_payload shaped_content_result payload ->
  (forall out st', Q (Ok out) st') ->
  wp (render_github_content user_input payload parts) st Q.
Proof.
  intros (items & found & -> & Hresults & Hall) HQ.
  unfold render_github_content, py_get_method. fold (results_of items).
  rewrite Hresults.
  apply wp_bind, wp_lift. wp_simpl. apply wp_bind, wp_lift. wp_simpl.
  apply wp_bind, wp_lift. wp_simpl. apply wp_bind, wp_lift.
  cbn [py_slice_to]. wp_simpl. apply wp_bind, wp_lift. cbn [py_iter]. wp_simpl.
  apply (wp_for _ _ _ _ (fun entry => shaped_content_result entry.2)
           (fun _ _ => True)).
  - apply Forall_enumerate_from. by apply Forall_take.
  - done.
  - intros acc entry st1 Hentry _. by apply wp_render_content_result.
  - intros acc st1 _. apply HQ.
Qed.

(** With well-shaped tool results the context building returns. *)
Lemma wp_build_tool_context (user_input : string) (tool_results : list ToolResult)
    (st : St) (Q : Exc (list string * list string) -> St -> Prop) :
  Forall well_shaped tool_results ->
  (forall built st', Q (Ok built) st') ->
  wp (build_tool_context user_input tool_results) st Q.
Proof.
  intros Hall HQ. unfold build_tool_context.
  apply (wp_for _ _ _ _ well_shaped (fun _ _ => True)); [done|done| |by intros; apply HQ].
  intros [parts used] outcome st1 Hshaped _.
  destruct (success outcome) eqn:Hsuccess; [|by apply wp_ret].
  destruct (py_truthy (result outcome)) eqn:Htruthy;
    [|rewrite !andb_false_r; by apply wp_ret].
  destruct (Hshaped Hsuccess Htruthy) as (Hsearch & Hanalysis & Hgithub & Hcontent).
  rewrite !andb_true_r.
  destruct (String.eqb_spec (tool_name outcome) "document_search") as [Hname|_].
  { destruct (render_document_search_returns _ parts (Hsearch Hname)) as [out ->].
    apply wp_bind, wp_lift. wp_simpl. by apply wp_ret. }
  destruct (String.eqb_spec (tool_name outcome) "text_analysis") as [Hname|_].
  { destruct (Hanalysis Hname) as [items ->].
    destruct (render_text_analysis_returns items parts) as [out ->].
    apply wp_bind, wp_lift. wp_simpl. by apply wp_ret. }
  destruct (String.eqb_spec (tool_name outcome) "github_search") as [Hname|_].
  { destruct (render_github_search_returns _ parts (Hgithub (or_introl Hname)))
      as [out ->].
    apply wp_bind, wp_lift. wp_simpl. by apply wp_ret. }
  destruct (String.eqb_spec (tool_name outcome) "github_code_search") as [Hname|_].
  { destruct (render_github_search_returns _ parts (Hgithub (or_intror Hname)))
      as [out ->].
    apply wp_bind, wp_lift. wp_simpl. by apply wp_ret. }
  cbn [orb].
  destruct (String.eqb_spec (tool_name outcome) "github_search_with_content")
    as [Hname|_]; [|by apply wp_ret].
  apply wp_bind, wp_render_github_content; [by apply Hcontent|].
  intros out st2. wp_simpl. by apply wp_ret.
Qed.

Lemma build_tool_context_returns (user_input : string)
    (tool_results : list ToolResult) (st : St) :
  Forall well_shaped tool_results ->
  exists built, (build_tool_context user_input tool_results st).1 = Ok built.
Proof.
  intros Hall.
  pose proof (wp_build_tool_context user_input tool_results st
                (fun r _ => exists built, r = Ok built) Hall) as Hwp.
  apply Hwp. intros built _. by exists built.
Qed.

(** *** The chain with a model that raises *)

Lemma format_rag_qa_prompt (context query : string) :
  exists template prompt,
    default_templates !! "rag_qa" = Some template /\
    format_user_prompt template
      (<["context" := context]>
       (<["question" := query]> (<["user_message" := query]> ∅)))
    = Ok prompt.
Proof.
  eexists _, _. split; [reflexivity|].
  unfold format_user_prompt.
  rewrite bool_decide_eq_false_2
    by (rewrite !lookup_insert_ne, lookup_empty by done; by intros [? ?]).
  cbn [user_prompt_template format_pieces].
  change (positional "context") with false.
  change (positional "question") with false. cbv iota.
  rewrite lookup_insert_eq.
  rewrite lookup_insert_ne by done. rewrite lookup_insert_eq.
  cbn [exc_bind]. reflexivity.
Qed.

Lemma wp_agent_generate (self : Agent) (msgs : list ChatMessage) (st : St)
    (Q : Exc LLMResponse -> St -> Prop) :
  llm_always_raises (llm_manager self) ->
  (forall e st',
     llm_error_text_for (llm_manager self) msgs (exc_str e) -> Q (Raise e) st') ->
  wp (agent_generate self msgs) st Q.
Proof.
  intros Hllm HQ. unfold agent_generate. apply wp_with_world. intros r w Hrun.
  destruct (Hllm msgs (agent_world st)) as (e & w' & Hraise).
  rewrite Hraise in Hrun. injection Hrun as <- <-.
  apply HQ. by exists (agent_world st), e, w'.
Qed.

Lemma wp_agent_process_query (self : Agent) (user_input : string) (st : St)
    (Q : Exc RagResult -> St -> Prop) :
  llm_always_raises (llm_manager self) ->
  (forall rag st',
     rag_success rag = false ->
     (exists text, rag_error rag = Some text /\
                   llm_error_text (llm_manager self) text) ->
     Q (Ok rag) st') ->
  wp (agent_process_query self user_input) st Q.
Proof.
  intros Hllm HQ. unfold wp, agent_process_query, with_chain.
  set (cs := mkChainState (agent_conversations st) (agent_world st)).
  assert (Hchain :
    wp (process_query (llm_manager self) default_templates user_input
          (Some (conversation_id self)) "rag_qa" 5 (FiniteFloat 0)) cs
       (fun r _ => exists rag, r = Ok rag /\ rag_success rag = false /\
          exists text, rag_error rag = Some text /\
                       llm_error_text (llm_manager self) text)).
  { unfold process_query. apply wp_bind.
    unfold wp at 1, chain_retrieve.
    destruct (retrieve_documents user_input 5 (FiniteFloat 0) (chain_world cs))
      as [found w1].
    cbn [fst snd]. wp_simpl.
    match goal with
    | |- context [format_user_prompt _ (<["context" := ?c]> _)] =>
        destruct (format_rag_qa_prompt c user_input) as (template & prompt & -> & Hprompt)
    end.
    apply wp_bind, wp_get. wp_simpl.
    apply wp_bind. rewrite Hprompt. apply wp_lift. wp_simpl.
    apply wp_try_except, wp_bind.
    unfold wp at 1, in_world. cbn [chain_world].
    match goal with
    | |- context [generate_response _ ?msgs ?w] =>
        destruct (Hllm msgs w) as (e & w' & Hraise); rewrite Hraise
    end.
    cbn [fst snd]. apply wp_ret.
    eexists. split; [done|]. split; [done|].
    eexists. split; [done|]. by eexists _, _, e, w'. }
  apply wp_run in Hchain as (r & cs' & Hrun & rag & -> & Hfail & Herror).
  rewrite Hrun. simpl. by apply HQ.
Qed.

(** *** The two ways to generate a response *)

Definition apology : string :=
  "I apologize, but I encountered an issue generating a response. Please try rephrasing your question or adding more context. Error: ".

Definition issue : string := "I encountered an issue generating a response: ".

(** The messages of the call that [_generate_simple_response] makes
    when the chain has failed. *)
Definition fallback_messages (user_input : string) : list ChatMessage :=
  [ mkChatMessage "system" fallback_system_prompt;
    mkChatMessage "user" user_input ].

Lemma wp_generate_simple_response (self : Agent) (user_input : string) (st : St)
    (Q : Exc GeneratedResponse -> St -> Prop) :
  llm_always_raises (llm_manager self) ->
  (forall text st',
     llm_error_text_for (llm_manager self) (fallback_messages user_input) text ->
     Q (Ok (mkGeneratedResponse (apology +:+ text) [] [] (Some text) true false)) st') ->
  wp (_generate_simple_response self user_input) st Q.
Proof.
  intros Hllm HQ. unfold _generate_simple_response.
  apply wp_bind, wp_agent_process_query; [done|].
  intros rag st1 Hfail _. wp_simpl. rewrite Hfail.
  apply wp_try_except, wp_bind, wp_agent_generate; [done|].
  intros e st2 Herror. wp_simpl. apply wp_ret. by apply HQ.
Qed.

Lemma wp_generate_response_with_tools (self : Agent) (user_input : string)
    (tool_results : list ToolResult) (st : St)
    (Q : Exc GeneratedResponse -> St -> Prop) :
  llm_always_raises (llm_manager self) ->
  (forall text used st',
     llm_error_text (llm_manager self) text ->
     Q (Ok (mkGeneratedResponse (issue +:+ text) used [] (Some text) false false)) st') ->
  (forall e st',
     (build_tool_context user_input tool_results st).1 = Raise e ->
     Q (Raise e) st') ->
  wp (_generate_response_with_tools self user_input tool_results) st Q.
Proof.
  intros Hllm Hdegraded Hraised. unfold _generate_response_with_tools.
  apply wp_bind. unfold wp at 1.
  destruct (build_tool_context user_input tool_results st) as [[[parts used]|e] st1]
    eqn:Hbuilt; cbn [fst snd]; [|by apply Hraised].
  apply wp_bind, wp_agent_process_query; [done|].
  intros rag st2 Hfail (text & Herror & Htext). wp_simpl. rewrite Hfail.
  cbn [andb]. cbn [PyStr.truthy]. rewrite orb_false_r.
  destruct parts as [|part parts].
  - apply wp_ret. rewrite Herror. by apply Hdegraded.
  - apply wp_try_except, wp_bind, wp_agent_generate; [done|].
    intros e st3 He. wp_simpl. apply wp_ret. apply Hdegraded. by eexists.
Qed.

(** The keyword arguments of every recommendation of the policy can
    be bound by [execute_tool]. *)
Lemma recommended_tools_bindable (user_input : string) :
  Forall (fun call => bindable (call_parameters call))
         (recommended_tools (_decide_tool_usage user_input)).
Proof.
  rewrite decide_recommended.
  repeat match goal with
         | |- context [if ?b then _ else _] => destruct b
         end;
    cbn [app];
    repeat first [apply Forall_nil_2 | apply Forall_cons_2];
    unfold bindable, github_call, document_search_call, text_analysis_call;
    cbn [call_parameters];
    split; by repeat (rewrite lookup_insert_ne by done).
Qed.

(** The request takes the path through the tools: tools are switched
    on and the policy recommends one. *)
Definition runs_tools (user_input : string) (with_tools : bool) : bool :=
  with_tools && use_tools (_decide_tool_usage user_input).

(** What a request leaves behind when the model is unreachable. On
    the path without tools the response is the apology followed by the
    string of the exception that the fallback call raised. On the path
    through the tools it is the issue report followed by the string of
    an LLM failure; or the context building raised, and the request
    fails with the string of that exception. *)
Definition request_outcome (self : Agent) (user_input : string) (with_tools : bool)
    (st : St) (res : RequestResult) : Prop :=
  request_conversation_id res = conversation_id self /\
  if runs_tools user_input with_tools
  then
    (request_success res = true /\
     request_error res = None /\
     exists text,
       llm_error_text (llm_manager self) text /\
       request_response res = Some (issue +:+ text))
    \/
    (request_success res = false /\
     request_response res = None /\
     ~ tools_well_shaped (tools (tool_manager st)) /\
     exists e tool_results st1,
       (build_tool_context user_input tool_results st1).1 = Raise e /\
       request_error res = Some (exc_str e))
  else
    request_success res = true /\
    request_error res = None /\
    request_tools_used res = Some [] /\
    exists text,
      llm_error_text_for (llm_manager self) (fallback_messages user_input) text /\
      request_response res = Some (apology +:+ text).

(** C2, as the code has it. When every call of the LLM manager
    raises, a request still returns a structured result and raises
    nothing. A request that runs no tool (tools switched off, or none
    recommended by the policy) has [success = True], and its response is
    the apology that ends with the string of the exception of the
    fallback call. A request for which the policy recommends tools has
    [success = True] and, as its response, the issue report that ends
    with the string of an LLM failure; or, when building the context from
    the tool results itself raised, [success = False] and [error] is the
    string of that exception. The last case does not occur for an agent
    whose tools return payloads of the shapes the built-in tools
    produce. *)
Theorem process_request_with_failing_llm (self : Agent) (user_input : string)
    (with_tools : bool) (st : St) :
  llm_always_raises (llm_manager self) ->
  exists res st',
    process_request self user_input with_tools st = (Ok res, st') /\
    request_outcome self user_input with_tools st res /\
    (tools_well_shaped (tools (tool_manager st)) -> request_success res = true).
Proof.
  intros Hllm.
  assert (Hwp : wp (process_request self user_input with_tools) st (fun r _ =>
    exists res, r = Ok res /\ request_outcome self user_input with_tools st res)).
  { unfold process_request.
    apply wp_bind, wp_agent_now. intros t0 st0 Hsame0. wp_simpl.
    apply wp_bind, wp_remember. intros st1 Hsame1. wp_simpl.
    apply wp_try_except, wp_bind.
    (* the generated response, on each of the two paths *)
    set (raised := fun e : PyExc =>
           runs_tools user_input with_tools = true /\
           ~ tools_well_shaped (tools (tool_manager st)) /\
           exists tool_results st1,
             (build_tool_context user_input tool_results st1).1 = Raise e).
    set (generated_on_path := fun generated : GeneratedResponse =>
           if runs_tools user_input with_tools
           then exists text,
                  llm_error_text (llm_manager self) text /\
                  response generated = issue +:+ text
           else tools_used generated = [] /\
                exists text,
                  llm_error_text_for (llm_manager self)
                    (fallback_messages user_input) text /\
                  response generated = apology +:+ text).
    apply (wp_mono _ _ (fun r _ =>
             match r with
             | Ok generated => generated_on_path generated
             | Raise e => raised e
             end)).
    - assert (Hsimple : forall st2,
                runs_tools user_input with_tools = false ->
                wp (_generate_simple_response self user_input) st2 (fun r _ =>
                  match r with
                  | Ok generated => generated_on_path generated
                  | Raise e => raised e
                  end)).
      { intros st2 Hpath. apply wp_generate_simple_response; [done|].
        intros text st3 Htext. unfold generated_on_path. rewrite Hpath.
        split; [done|]. by exists text. }
      unfold runs_tools in *.
      destruct with_tools; [|by apply Hsimple].
      destruct (use_tools (_decide_tool_usage user_input)) eqn:Huse;
        [|by apply Hsimple].
      apply wp_bind, wp_execute_recommended_tools;
        [apply recommended_tools_bindable|].
      intros tool_results st2 Hsame2 Hshaped. wp_simpl.
      apply wp_bind, wp_note_working_memory. intros st3 Hsame3. wp_simpl.
      apply wp_generate_response_with_tools; [done| |].
      + intros text used st4 Htext. unfold generated_on_path. cbn [andb].
        by exists text.
      + intros e st4 Hraised. split; [done|]. split.
        * intros Hregistered.
          destruct (build_tool_context_returns user_input tool_results st3)
            as [built Hbuilt]; [|congruence].
          apply Hshaped. by rewrite Hsame1, Hsame0.
        * by eexists _, _.
    - intros [generated|e] st2 Hgenerated; wp_simpl.
      + apply wp_bind, wp_remember. intros st3 _. wp_simpl.
        apply wp_bind, wp_agent_now. intros t1 st4 _. wp_simpl.
        apply wp_bind, wp_get. wp_simpl. apply wp_ret.
        eexists. split; [done|]. split; [done|].
        unfold generated_on_path in Hgenerated.
        destruct (runs_tools user_input with_tools).
        * destruct Hgenerated as (text & Htext & ->). left.
          split; [done|]. split; [done|]. by exists text.
        * destruct Hgenerated as (-> & text & Htext & ->).
          split; [done|]. split; [done|]. split; [done|]. by exists text.
      + destruct Hgenerated as (Hpath & Hnot & tool_results & st3 & Hraised).
        apply wp_bind, wp_agent_now. intros t1 st4 _. wp_simpl.
        apply wp_bind, wp_remember. intros st5 _. wp_simpl. apply wp_ret.
        eexists. split; [done|]. split; [done|]. rewrite Hpath. right.
        split; [done|]. split; [done|]. split; [done|].
        by eexists _, _, _. }
  apply wp_run in Hwp as (r & st' & Hrun & res & -> & Hres).
  exists res, st'. split; [done|]. split; [done|].
  intros Hshaped. destruct Hres as [_ Hres].
  destruct (runs_tools user_input with_tools).
  - destruct Hres as [[Hsuccess _]|(_ & _ & Hnot & _)]; [done|]. by destruct Hnot.
  - by destruct Hres as [Hsuccess _].
Qed.

End AgentFacts.

(** *** A request on a concrete machine whose model endpoint is down *)

Record SimWorld : Type := mkSimWorld {
  sim_time : Z;
  sim_documents : list (DocumentChunk * Q);
}.

#[export] Instance sim_clock : WorldOps SimWorld := {|
  clock w := (sim_time w, mkSimWorld (sim_time w + 1) (sim_documents w));
|}.

#[export] Instance sim_store : VectorStore SimWorld := {|
  add_documents chunks w :=
    let (ok, documents) := add_documents chunks (sim_documents w) in
    (ok, mkSimWorld (sim_time w) documents);
  similarity_search query k w :=
    let (found, documents) := similarity_search query k (sim_documents w) in
    (found, mkSimWorld (sim_time w) documents);
|}.

#[export] Instance unreachable_endpoint : LLMClient SimWorld := {|
  chat_completions_create _ w :=
    (Raise (mkExc "APIConnectionError" "Connection error."), w);
|}.

Definition sample_agent : Agent := mkAgent "conversation-1" (mkLLMManager true).

Definition sample_agent_state : AgentState SimWorld :=
  mkAgentState (new_memory "memory-1" 0)
    (@register_tool SimWorld (@TextAnalysisTool simple_runtime SimWorld sim_clock)
       new_tool_manager)
    ∅
    (mkSimWorld 0 [(sample_chunk 0 "Paris is the capital of France.", Qmake 9 10)]).

Definition run_request (user_input : string) : Exc RequestResult :=
  (@process_request simple_runtime SimWorld sim_clock sim_store unreachable_endpoint
     sample_agent user_input true sample_agent_state).1.

Lemma sample_llm_always_raises :
  @llm_always_raises SimWorld unreachable_endpoint (llm_manager sample_agent).
Proof. intros msgs w. eexists _, _. reflexivity. Defined.

(** With the endpoint down the request succeeds, and its response is
    the apology that carries the error text. *)
Lemma failing_llm_request_reports_success :
  @llm_always_raises SimWorld unreachable_endpoint (llm_manager sample_agent) /\
  exists res,
    run_request "Hello there" = Ok res /\
    request_success res = true /\
    request_success res <> false /\
    request_error res = None /\
    request_response res
    = Some (apology +:+ "Failed to generate response: Connection error.").
Proof.
  split; [exact sample_llm_always_raises|].
  eexists. split; [vm_compute; reflexivity|].
  split; [reflexivity|]. split; [discriminate|]. split; reflexivity.
Qed.

(** The same through the tool path: the text analysis runs, the model
    call fails, and the request still reports success. *)
Example failing_llm_request_with_tools :
  exists res,
    run_request "Please analyze this sentence" = Ok res /\
    request_success res = true /\
    request_tools_used res = Some ["text_analysis"] /\
    request_response res
    = Some (issue +:+ "Failed to generate response: Connection error.").
Proof.
  eexists. split; [vm_compute; reflexivity|]. repeat split; reflexivity.
Qed.

Lemma process_request_with_failing_llm_witness :
  @llm_always_raises SimWorld unreachable_endpoint (llm_manager sample_agent) /\
  exists res st',
    @process_request simple_runtime SimWorld sim_clock sim_store unreachable_endpoint
      sample_agent "Please analyze this sentence" true sample_agent_state
    = (Ok res, st') /\
    request_conversation_id res = "conversation-1" /\
    request_success res = true.
Proof.
  split; [exact sample_llm_always_raises|].
  destruct (@process_request_with_failing_llm simple_runtime SimWorld sim_clock
              sim_store unreachable_endpoint sample_agent
              "Please analyze this sentence" true
              sample_agent_state sample_llm_always_raises)
    as (res & st' & Hrun & [Hid _] & Hshaped).
  exists res, st'. split; [exact Hrun|]. split; [exact Hid|].
  apply Hshaped.
  exact (@only_text_analysis_well_shaped simple_runtime SimWorld sim_clock).
Defined.

(** ** More on strings: stripping and splitting *)

Lemma lstrip_by_head (drop : ascii -> bool) (s : string) :
  match PyStr.lstrip_by drop s with
  | EmptyString => True
  | String c _ => drop c = false
  end.
Proof.
  induction s as [|c s IH]; simpl; [done|].
  destruct (drop c) eqn:Hc; [done | by simpl].
Qed.

Lemma rstrip_by_head (drop : ascii -> bool) (c : ascii) (s : string) :
  drop c = false -> exists rest, PyStr.rstrip_by drop (String c s) = String c rest.
Proof.
  intros Hc. simpl. destruct (PyStr.rstrip_by drop s); rewrite ?Hc; by eexists.
Qed.

Lemma rstrip_by_idempotent (drop : ascii -> bool) (s : string) :
  PyStr.rstrip_by drop (PyStr.rstrip_by drop s) = PyStr.rstrip_by drop s.
Proof.
  induction s as [|c s IH]; simpl; [done|].
  destruct (PyStr.rstrip_by drop s) as [|k kept] eqn:Hkept.
  - destruct (drop c) eqn:Hc; simpl; [done | by rewrite Hc].
  - change (PyStr.rstrip_by drop (String c (String k kept)))
      with (match PyStr.rstrip_by drop (String k kept) with
            | EmptyString => if drop c then EmptyString else String c EmptyString
            | kept' => String c kept'
            end).
    by rewrite IH.
Qed.

Lemma lstrip_by_fixed (drop : ascii -> bool) (s : string) :
  match s with EmptyString => True | String c _ => drop c = false end ->
  PyStr.lstrip_by drop s = s.
Proof. destruct s as [|c s]; simpl; [done|]. by intros ->. Qed.

(** Stripping twice is stripping once. *)
Lemma strip_by_idempotent (drop : ascii -> bool) (s : string) :
  PyStr.strip_by drop (PyStr.strip_by drop s) = PyStr.strip_by drop s.
Proof.
  unfold PyStr.strip_by.
  rewrite lstrip_by_fixed; [apply rstrip_by_idempotent|].
  pose proof (lstrip_by_head drop s) as Hhead.
  destruct (PyStr.lstrip_by drop s) as [|c rest]; [done|].
  destruct (rstrip_by_head drop c rest Hhead) as [rest' ->]. done.
Qed.

(** What is left after stripping neither starts nor ends with a
    character of the set. *)
Definition first_char (s : string) : option ascii :=
  match s with EmptyString => None | String c _ => Some c end.

Fixpoint last_char (s : string) : option ascii :=
  match s with
  | EmptyString => None
  | String c EmptyString => Some c
  | String _ rest => last_char rest
  end.

Lemma rstrip_by_last (drop : ascii -> bool) (s : string) (c : ascii) :
  last_char (PyStr.rstrip_by drop s) = Some c -> drop c = false.
Proof.
  induction s as [|a s IH]; simpl; [done|].
  destruct (PyStr.rstrip_by drop s) as [|k kept] eqn:Hkept.
  - destruct (drop a) eqn:Ha; simpl; [done|]. by intros [= <-].
  - intros Hlast. apply IH. exact Hlast.
Qed.

Lemma strip_by_ends (drop : ascii -> bool) (s : string) (c : ascii) :
  first_char (PyStr.strip_by drop s) = Some c \/
  last_char (PyStr.strip_by drop s) = Some c ->
  drop c = false.
Proof.
  unfold PyStr.strip_by. intros [Hfirst|Hlast]; [|by eapply rstrip_by_last].
  pose proof (lstrip_by_head drop s) as Hhead.
  destruct (PyStr.lstrip_by drop s) as [|a rest]; [done|].
  destruct (rstrip_by_head drop a rest Hhead) as [rest' Hrest].
  rewrite Hrest in Hfirst. simpl in Hfirst. congruence.
Qed.

Lemma lstrip_by_length (drop : ascii -> bool) (s : string) :
  (String.length (PyStr.lstrip_by drop s) <= String.length s)%nat.
Proof.
  induction s as [|c s IH]; simpl; [done|].
  destruct (drop c); simpl; lia.
Qed.

Lemma rstrip_by_length (drop : ascii -> bool) (s : string) :
  (String.length (PyStr.rstrip_by drop s) <= String.length s)%nat.
Proof.
  induction s as [|c s IH]; simpl; [done|].
  destruct (PyStr.rstrip_by drop s) as [|k kept].
  - destruct (drop c); simpl; lia.
  - simpl in *. lia.
Qed.

Lemma strip_length (s : string) : PyStr.len (PyStr.strip s) <= PyStr.len s.
Proof.
  unfold PyStr.len, PyStr.strip, PyStr.strip_by.
  pose proof (rstrip_by_length PyStr.isspace (PyStr.lstrip_by PyStr.isspace s)).
  pose proof (lstrip_by_length PyStr.isspace s). lia.
Qed.

Lemma blank_false (s : string) :
  PyStr.blank s = false <-> PyStr.truthy (PyStr.strip s) = true.
Proof.
  unfold PyStr.blank. split.
  - intros Hb. apply orb_false_iff in Hb as [_ Hs]. by apply negb_false_iff.
  - intros Hs. rewrite Hs. destruct s; [discriminate Hs | done].
Qed.

Lemma blank_strip (s : string) : PyStr.blank (PyStr.strip s) = PyStr.blank s.
Proof.
  destruct (PyStr.blank s) eqn:Hs.
  - unfold PyStr.blank in *. unfold PyStr.strip at 2. rewrite strip_by_idempotent.
    fold (PyStr.strip s). destruct s as [|c s]; [done|]. simpl in Hs.
    rewrite Hs. apply orb_true_r.
  - apply blank_false. apply blank_false in Hs.
    unfold PyStr.strip at 1. unfold PyStr.strip. by rewrite strip_by_idempotent.
Qed.

Lemma rev_app_length (s acc : string) :
  String.length (String.rev_app s acc) = (String.length s + String.length acc)%nat.
Proof.
  revert acc. induction s as [|c s IH]; intros acc; simpl; [done|].
  rewrite IH. simpl. lia.
Qed.

Lemma rev_length (s : string) : String.length (String.rev s) = String.length s.
Proof. unfold String.rev. rewrite rev_app_length. simpl. lia. Qed.

(** The words of [s.split()] are not empty, and together they are no
    longer than [s]. *)
Lemma split_go_words (cur : option string) (s : string) :
  match cur with Some w => w <> EmptyString | None => True end ->
  Forall (fun w => 1 <= PyStr.len w) (PyStr.split_go cur s) /\
  sum_Z (map PyStr.len (PyStr.split_go cur s))
  <= PyStr.len (default EmptyString cur) + PyStr.len s.
Proof.
  revert cur. induction s as [|c s IH]; intros cur Hcur.
  - destruct cur as [w|]; simpl; [|split; [constructor | done]].
    split.
    + constructor; [|constructor]. unfold PyStr.len. rewrite rev_length.
      destruct w; [done | simpl; lia].
    + unfold PyStr.len. rewrite rev_length. simpl. lia.
  - cbn [PyStr.split_go]. destruct (PyStr.isspace c).
    + destruct cur as [w|].
      * destruct (IH None I) as [Hall Hsum]. split.
        -- constructor; [|done]. unfold PyStr.len. rewrite rev_length.
           destruct w; [done | simpl; lia].
        -- cbn [map sum_Z fold_right]. fold (sum_Z (map PyStr.len (PyStr.split_go None s))).
           unfold PyStr.len in *. rewrite rev_length. simpl in *. lia.
      * destruct (IH None I) as [Hall Hsum]. split; [done|].
        unfold PyStr.len in *. simpl in *. lia.
    + destruct cur as [w|].
      * destruct (IH (Some (String c w))) as [Hall Hsum]; [done|].
        split; [done|]. unfold PyStr.len in *. simpl in *. lia.
      * destruct (IH (Some (String c EmptyString))) as [Hall Hsum]; [done|].
        split; [done|]. unfold PyStr.len in *. simpl in *. lia.
Qed.

Lemma split_nonempty_words (s : string) :
  Forall (fun w => 1 <= PyStr.len w) (PyStr.split s) /\
  sum_Z (map PyStr.len (PyStr.split s)) <= PyStr.len s.
Proof.
  destruct (split_go_words None s I) as [Hall Hsum]. split; [done|].
  unfold PyStr.split. unfold PyStr.len in *. simpl in Hsum. lia.
Qed.

Lemma sum_Z_at_least (l : list Z) :
  Forall (fun n => 1 <= n) l -> zlen l <= sum_Z l.
Proof.
  unfold zlen. induction 1 as [|n l Hn _ IH]; simpl; [done|]. lia.
Qed.

(** [s.split(sep)] always has a first piece. *)
Lemma split_on_go_length (sep : ascii) (cur s : string) :
  (1 <= length (PyStr.split_on_go sep cur s))%nat.
Proof.
  revert cur. induction s as [|c s IH]; intros cur; simpl; [lia|].
  destruct (Ascii.eqb c sep); simpl; [lia | apply IH].
Qed.

(** ** Memory and tool registry: reading back what was stored *)

(** [l[-limit:]], by the sign of [limit]. *)
Lemma slice_from_neg {A} (limit : Z) (l : list A) :
  slice_from (- limit) l
  = if 0 <? limit then drop (length l - Z.to_nat limit) l
    else drop (Z.to_nat (- limit)) l.
Proof.
  unfold slice_from.
  destruct (Z.ltb_spec 0 limit) as [Hpos|Hneg].
  - destruct (Z.ltb_spec (- limit) 0) as [_|Hge]; [|lia]. f_equal. lia.
  - destruct (Z.ltb_spec (- limit) 0) as [Hlt|_]; [lia|].
    destruct (Z.le_gt_cases (- limit) (Z.of_nat (length l))) as [Hin|Hout].
    + f_equal. lia.
    + rewrite !drop_ge; [done | lia | lia].
Qed.

Section MemoryReadBack.
Context `{Runtime}.

(** What was stored under a key in the long-term memory is what is
    read back under it, the latest value when the key was stored twice;
    the other keys read as before, and neither the short-term nor the
    working memory is touched. *)
Theorem long_term_memory_round_trip (key other : string) (value earlier : PyVal)
    (t_item t_update t_item' t_update' : Z) (self : AgentMemory) :
  let stored := store_in_long_term key value t_item t_update self in
  get_from_long_term key stored = Some value /\
  get_from_long_term key
    (store_in_long_term key value t_item t_update
       (store_in_long_term key earlier t_item' t_update' self)) = Some value /\
  (other <> key -> get_from_long_term other stored = get_from_long_term other self) /\
  short_term_memory stored = short_term_memory self /\
  working_memory stored = working_memory self.
Proof.
  unfold get_from_long_term, store_in_long_term; cbn [long_term_memory].
  repeat split.
  - by rewrite lookup_insert_eq.
  - by rewrite lookup_insert_eq.
  - intros Hother. by rewrite lookup_insert_ne.
Qed.

(** The recent activities are the last [limit] entries of the
    short-term memory, oldest first, or all of them when there are fewer;
    with [limit = 0] they are all the entries, not none; and a negative
    [limit] leaves out that many of the oldest entries. *)
Theorem get_recent_activities_limit (limit : Z) (self : AgentMemory) :
  let items := short_term_memory self in
  (0 < limit ->
     get_recent_activities limit self = drop (length items - Z.to_nat limit) items /\
     length (get_recent_activities limit self) = (length items `min` Z.to_nat limit)%nat) /\
  (limit = 0 -> get_recent_activities limit self = items) /\
  (limit < 0 -> get_recent_activities limit self = drop (Z.to_nat (- limit)) items).
Proof.
  cbv zeta.
  assert (Hslice : get_recent_activities limit self
                   = slice_from (- limit) (short_term_memory self)).
  { unfold get_recent_activities.
    destruct (short_term_memory self) as [|item rest] eqn:Hitems; [|done].
    unfold slice_from. by rewrite drop_nil. }
  rewrite Hslice, slice_from_neg.
  split; [|split].
  - intros Hpos. destruct (Z.ltb_spec 0 limit); [|lia].
    split; [done|]. rewrite length_drop. lia.
  - intros ->. done.
  - intros Hneg. destruct (Z.ltb_spec 0 limit); [lia | done].
Qed.

End MemoryReadBack.

Section RegistryFacts.
Context `{Runtime} {W : Type} `{WorldOps W}.

(** A registered tool is found under its own name, and it replaces
    a tool registered under that name before; the other names resolve as
    before. Unregistering a registered name answers [True] and removes
    the name, so that the tool it had replaced does not come back;
    unregistering an unknown name answers [False] and changes nothing.
    The execution history is left alone by all of it. *)
Theorem tool_registry_round_trip (tool : Tool W) (other : string)
    (self : ToolManager W) :
  let registered := register_tool tool self in
  get_tool (name tool) registered = Some tool /\
  (other <> name tool -> get_tool other registered = get_tool other self) /\
  unregister_tool (name tool) registered
  = (true, mkToolManager (delete (name tool) (tools self)) (execution_history self)) /\
  get_tool (name tool) (unregister_tool (name tool) registered).2 = None /\
  (get_tool other self = None -> unregister_tool other self = (false, self)) /\
  execution_history registered = execution_history self.
Proof.
  cbv zeta. unfold get_tool, unregister_tool, register_tool;
    cbn [tools execution_history].
  rewrite lookup_insert_eq. cbn [snd tools].
  split; [done|]. split; [intros Hother; by rewrite lookup_insert_ne|].
  split; [by rewrite delete_insert_eq|].
  split; [apply lookup_delete_eq|].
  split; [by intros ->|done].
Qed.

(** After a call that reaches an enabled tool, with keyword arguments
    that do not collide with the parameters of [execute_tool] itself,
    the execution history read with limit 1 is exactly the record of
    that call: the name asked for, the keyword arguments, and the result
    the caller got. *)
Theorem latest_execution_heads_history (tname : string) (kwargs : gmap string PyVal)
    (st : Managed W) (tool : Tool W) :
  bindable kwargs ->
  tools (manager st) !! tname = Some tool ->
  enabled tool = true ->
  exists res st' stamp,
    execute_tool tname kwargs st = (Ok res, st') /\
    get_execution_history 1 (manager st')
    = [mkHistoryEntry tname kwargs res stamp] /\
    get_execution_history (zlen (execution_history (manager st)) + 1) (manager st')
    = execution_history (manager st) ++ [mkHistoryEntry tname kwargs res stamp].
Proof.
  intros Hbindable Hlookup Henabled.
  pose proof (execute_tool_cases tname kwargs st Hbindable) as Hwp.
  apply wp_run in Hwp as (r & st' & Hrun & _ & Hcases).
  rewrite Hlookup, Henabled in Hcases.
  destruct Hcases as (res & t & -> & Hhistory & _).
  exists res, st', (isoformat t). split; [done|].
  unfold get_execution_history. rewrite Hhistory.
  set (old := execution_history (manager st)).
  destruct (old ++ [mkHistoryEntry tname kwargs res (isoformat t)]) as [|e l] eqn:Hl;
    [by destruct old|].
  rewrite <- Hl. rewrite !slice_from_neg.
  destruct (Z.ltb_spec 0 1); [|lia].
  destruct (Z.ltb_spec 0 (zlen old + 1)); [|unfold zlen in *; lia].
  rewrite length_app. cbn [length]. split.
  - replace (length old + 1 - Z.to_nat 1)%nat with (length old) by lia.
    by rewrite drop_app_length.
  - replace (length old + 1 - Z.to_nat (zlen old + 1))%nat with 0%nat
      by (unfold zlen; lia).
    done.
Qed.

End RegistryFacts.

Lemma latest_execution_heads_history_witness :
  bindable {[ "text" := PStr "two words" ]} /\
  exists res st' stamp,
    run_execute "text_analysis" {[ "text" := PStr "two words" ]} = (Ok res, st') /\
    @get_execution_history Z 1 (manager st')
    = [mkHistoryEntry "text_analysis" {[ "text" := PStr "two words" ]} res stamp].
Proof.
  split; [exact text_argument_bindable|].
  destruct (@latest_execution_heads_history simple_runtime Z counter_clock
              "text_analysis" {[ "text" := PStr "two words" ]} sample_manager
              (@TextAnalysisTool simple_runtime Z counter_clock)
              text_argument_bindable sample_manager_has_analysis eq_refl)
    as (res & st' & stamp & Hrun & Hlast & _).
  exists res, st', stamp. by split.
Defined.

(** ** Text analysis: how the statistics relate *)

Lemma remove_dups_length `{EqDecision A} (l : list A) :
  (length (remove_dups l) <= length l)%nat.
Proof.
  apply submseteq_length, NoDup_submseteq; [apply NoDup_remove_dups|].
  intros x. by rewrite elem_of_remove_dups.
Qed.

Lemma remove_dups_nonempty `{EqDecision A} (x : A) (l : list A) :
  (1 <= length (remove_dups (x :: l)))%nat.
Proof.
  assert (Hin : x ∈ remove_dups (x :: l)) by (apply elem_of_remove_dups; left).
  destruct (remove_dups (x :: l)); [by apply elem_of_nil in Hin | simpl; lia].
Qed.

(** The quotient of two counts, the divisor positive. *)
Lemma truediv_counts (a b : Z) :
  0 < b -> exists q, truediv a b = Ok (PFloat q) /\ (q * inject_Z b == inject_Z a)%Q.
Proof.
  intros Hb. destruct b as [|p|p]; try lia. exists (Qmake a p). split; [done|].
  unfold Qeq, Qmult, inject_Z. simpl. lia.
Qed.

Section TextAnalysisFacts.
Context `{Runtime}.

(** The basic statistics of any text. The analysis never raises
    and returns five entries in a fixed order: the number of characters;
    the number of words, which are the runs of characters between white
    space; the number of lines, which are the pieces between line feeds;
    under "paragraph_count" the number of lines that are not blank; and
    the average word length. There are no more words than characters; a
    text has at least one line, the empty text included; the lines that
    are not blank are at most as many as the lines. The average word
    length is the integer 0 when there is no word, and otherwise the
    quotient of the summed word lengths by the number of words, which is
    at least 1 and, times the number of words, does not exceed the
    number of characters. *)
Theorem basic_analysis_counts (text : string) :
  let words := PyStr.split text in
  let lines := PyStr.split_on "010"%char text in
  let paragraphs :=
    filter (fun line => PyStr.truthy (PyStr.strip line) = true) lines in
  exists average,
    _basic_analysis text
    = Ok (PDict [ ("character_count", PInt (PyStr.len text));
                  ("word_count", PInt (zlen words));
                  ("line_count", PInt (zlen lines));
                  ("paragraph_count", PInt (zlen paragraphs));
                  ("average_word_length", average) ]) /\
    (forall line, line ∈ paragraphs <-> line ∈ lines /\ PyStr.blank line = false) /\
    0 <= zlen words <= PyStr.len text /\
    1 <= zlen lines /\
    0 <= zlen paragraphs <= zlen lines /\
    (words = [] -> average = PInt 0) /\
    (words <> [] ->
       exists q, average = PFloat q /\
                 (q * inject_Z (zlen words)
                  == inject_Z (sum_Z (map PyStr.len words)))%Q /\
                 (1 <= q)%Q /\
                 (q * inject_Z (zlen words) <= inject_Z (PyStr.len text))%Q).
Proof.
  cbv zeta. unfold _basic_analysis.
  destruct (split_nonempty_words text) as [Hwords Hsum].
  pose proof (split_on_go_length "010"%char EmptyString text) as Hlines.
  fold (PyStr.split_on "010"%char text) in Hlines.
  set (lines := PyStr.split_on "010"%char text) in *.
  pose proof (length_filter (fun line => PyStr.truthy (PyStr.strip line) = true) lines)
    as Hparagraphs.
  assert (Hmember : forall line,
            line ∈ filter (fun line => PyStr.truthy (PyStr.strip line) = true) lines
            <-> line ∈ lines /\ PyStr.blank line = false).
  { intros line. rewrite list_elem_of_filter. unfold PyStr.blank.
    destruct line as [|c rest]; [cbn; split; intros [? ?]; done|].
    cbn [PyStr.truthy negb orb]. rewrite negb_false_iff. tauto. }
  assert (Hcount : zlen (PyStr.split text) <= sum_Z (map PyStr.len (PyStr.split text))).
  { pose proof (sum_Z_at_least (map PyStr.len (PyStr.split text))) as Hleast.
    unfold zlen in *. rewrite length_map in Hleast. apply Hleast.
    by apply Forall_map. }
  destruct (PyStr.split text) as [|w ws] eqn:Hsplit.
  - cbn [exc_bind]. eexists. split; [reflexivity|]. split; [exact Hmember|].
    unfold zlen in *. cbn [length] in *. unfold PyStr.len.
    repeat split; try lia; done.
  - set (words := w :: ws) in *.
    destruct (truediv_counts (sum_Z (map PyStr.len words)) (zlen words))
      as (q & Hq & Hquot); [unfold zlen, words; cbn [length]; lia|].
    rewrite Hq. cbn [exc_bind]. eexists. split; [reflexivity|].
    split; [exact Hmember|].
    split; [unfold zlen in *; lia|].
    split; [unfold zlen; lia|].
    split; [unfold zlen; lia|].
    split; [done|].
    intros _. exists q. split; [done|]. split; [exact Hquot|]. split.
    + assert (Hle : (1 * inject_Z (zlen words) <= q * inject_Z (zlen words))%Q).
      { rewrite Hquot, Qmult_1_l. rewrite <- Zle_Qle. exact Hcount. }
      apply Qmult_le_r in Hle; [done|].
      change 0%Q with (inject_Z 0). rewrite <- Zlt_Qlt.
      unfold zlen, words; cbn [length]; lia.
    + rewrite Hquot. rewrite <- Zle_Qle. exact Hsum.
Qed.

Lemma basic_analysis_keys (text : string) (basic : list (string * PyVal)) :
  _basic_analysis text = Ok (PDict basic) ->
  map fst basic = [ "character_count"; "word_count"; "line_count";
                    "paragraph_count"; "average_word_length" ].
Proof.
  unfold _basic_analysis.
  destruct (match PyStr.split text with
            | [] => Ok (PInt 0)
            | _ => truediv (sum_Z (map PyStr.len (PyStr.split text)))
                     (zlen (PyStr.split text))
            end) as [average|e]; cbn [exc_bind]; [|discriminate].
  by intros [= <-].
Qed.

Lemma dict_update_appends (basic : list (string * PyVal)) (a b c d : PyVal) :
  map fst basic = [ "character_count"; "word_count"; "line_count";
                    "paragraph_count"; "average_word_length" ] ->
  dict_update basic
    [ ("sentence_count", a); ("unique_words", b);
      ("vocabulary_richness", c); ("average_sentence_length", d) ]
  = basic ++ [ ("sentence_count", a); ("unique_words", b);
               ("vocabulary_richness", c); ("average_sentence_length", d) ].
Proof.
  destruct basic as [|[k1 v1] [|[k2 v2] [|[k3 v3] [|[k4 v4] [|[k5 v5] [|? ?]]]]]];
    try discriminate.
  simpl. intros [= -> -> -> -> ->]. reflexivity.
Qed.

(** The detailed analysis never raises either. It returns the
    entries of the basic analysis followed by four more. The number of
    unique words is at most the number of words, and at least 1 when
    there is a word. Without words the vocabulary richness is the integer
    0, while the average sentence length is then the quotient 0 divided
    by the number of pieces between full stops, which is never zero. *)
Theorem detailed_analysis_extends_basic (text : string) :
  exists basic sentences unique richness average,
    _basic_analysis text = Ok (PDict basic) /\
    _detailed_analysis text
    = Ok (PDict (basic ++
                   [ ("sentence_count", PInt sentences);
                     ("unique_words", PInt unique);
                     ("vocabulary_richness", richness);
                     ("average_sentence_length", PFloat average) ])) /\
    0 <= unique <= zlen (PyStr.split text) /\
    (PyStr.split text = [] -> richness = PInt 0 /\ (average == 0)%Q) /\
    (PyStr.split text <> [] ->
       1 <= unique /\
       exists q, richness = PFloat q /\ (0 < q)%Q /\ (q <= 1)%Q).
Proof.
  unfold _detailed_analysis.
  destruct (basic_analysis_total text) as [basic Hbasic]. rewrite Hbasic.
  cbn [exc_bind].
  pose proof (split_on_go_length "."%char EmptyString text) as Hsentences.
  fold (PyStr.split_on "."%char text) in Hsentences.
  set (sentences := PyStr.split_on "."%char text) in *.
  pose proof (remove_dups_length (map normalise_word (PyStr.split text))) as Hunique.
  rewrite length_map in Hunique.
  destruct (truediv_counts (zlen (PyStr.split text)) (zlen sentences))
    as (average & Haverage & Hquot); [unfold zlen; lia|].
  assert (Hsentence_branch :
            match sentences with
            | [] => Ok (PInt 0)
            | _ => truediv (zlen (PyStr.split text)) (zlen sentences)
            end = Ok (PFloat average)).
  { destruct sentences; [simpl in Hsentences; lia | done]. }
  rewrite Hsentence_branch. clear Hsentence_branch.
  destruct (PyStr.split text) as [|w ws] eqn:Hsplit.
  - cbn [exc_bind map remove_dups]. eexists basic, _, _, _, average.
    split; [done|].
    split; [by rewrite (dict_update_appends _ _ _ _ _ (basic_analysis_keys _ _ Hbasic))|].
    split; [unfold zlen; simpl; lia|]. split; [|done].
    intros _. split; [done|].
    unfold truediv in Haverage. change (zlen (@nil string)) with 0 in Haverage.
    destruct (zlen sentences); [discriminate| |]; injection Haverage as <-; reflexivity.
  - set (words := w :: ws) in *.
    pose proof (remove_dups_nonempty (normalise_word w) (map normalise_word ws))
      as Hsome.
    change (normalise_word w :: map normalise_word ws)
      with (map normalise_word words) in Hsome.
    set (unique_words := remove_dups (map normalise_word words)) in *.
    destruct (truediv_counts (zlen unique_words) (zlen words))
      as (q & Hq & Hrich); [unfold zlen, words; cbn [length]; lia|].
    rewrite Hq. cbn [exc_bind]. eexists basic, _, _, _, average.
    split; [done|].
    split; [by rewrite (dict_update_appends _ _ _ _ _ (basic_analysis_keys _ _ Hbasic))|].
    split; [unfold zlen; lia|]. split; [done|].
    intros _. split; [unfold zlen; lia|].
    exists q. split; [done|].
    assert (Hwords_pos : (0 < inject_Z (zlen words))%Q).
    { change 0%Q with (inject_Z 0). rewrite <- Zlt_Qlt.
      unfold zlen, words; cbn [length]; lia. }
    split.
    + assert (Hlt : (0 * inject_Z (zlen words) < q * inject_Z (zlen words))%Q).
      { rewrite Hrich, Qmult_0_l. change 0%Q with (inject_Z 0).
        rewrite <- Zlt_Qlt. unfold zlen. lia. }
      by apply Qmult_lt_r in Hlt.
    + assert (Hle : (q * inject_Z (zlen words) <= 1 * inject_Z (zlen words))%Q).
      { rewrite Hrich, Qmult_1_l. rewrite <- Zle_Qle. unfold zlen. lia. }
      by apply Qmult_le_r in Hle.
Qed.

Lemma detailed_analysis_total (text : string) :
  exists stats, _detailed_analysis text = Ok (PDict stats).
Proof.
  unfold _detailed_analysis.
  destruct (basic_analysis_total text) as [basic ->]. cbn [exc_bind].
  pose proof (split_on_go_length "."%char EmptyString text) as Hsentences.
  fold (PyStr.split_on "."%char text) in Hsentences.
  destruct (PyStr.split_on "."%char text) as [|s ss] eqn:Hs; [simpl in Hsentences; lia|].
  destruct (truediv_positive (zlen (PyStr.split text)) (zlen (s :: ss)))
    as [average ->]; [unfold zlen; simpl; lia|].
  destruct (PyStr.split text) as [|w ws] eqn:Hsplit.
  - cbn [exc_bind]. by eexists.
  - destruct (truediv_positive
                (zlen (remove_dups (map normalise_word (w :: ws)))) (zlen (w :: ws)))
      as [q ->]; [unfold zlen; simpl; lia|].
    cbn [exc_bind]. by eexists.
Qed.

Lemma analysis_type_cases (analysis_type : PyVal) :
  analysis_type = PStr "basic" \/ analysis_type = PStr "detailed" \/
  (analysis_type <> PStr "basic" /\ analysis_type <> PStr "detailed").
Proof.
  destruct analysis_type as [| | | | |kind| | |];
    try (right; right; split; discriminate).
  destruct (String.eqb_spec kind "basic") as [->|Hbasic]; [by left|].
  destruct (String.eqb_spec kind "detailed") as [->|Hdetailed]; [by right; left|].
  right; right. split; congruence.
Qed.

Lemma analysis_body_unknown (text analysis_type : PyVal) :
  analysis_type <> PStr "basic" ->
  analysis_type <> PStr "detailed" ->
  analysis_body text analysis_type
  = Raise (ValueError ("Unknown analysis type: " +:+ py_format analysis_type)).
Proof.
  intros Hbasic Hdetailed. unfold analysis_body.
  destruct analysis_type as [| | | | |kind| | |]; try reflexivity.
  destruct (analysis_body (PStr "") (PStr kind)) as [payload|e] eqn:Hbody.
  - exfalso. unfold analysis_body in Hbody.
    repeat match type of Hbody with
           | context [match ?x with _ => _ end] =>
               destruct x; try discriminate; try congruence
           end.
  - revert Hbody. unfold analysis_body.
    repeat match goal with
           | |- context [match ?x with _ => _ end] =>
               destruct x; try reflexivity; try congruence
           end.
Qed.

Context {W : Type} `{WorldOps W}.

(** The tool's [execute] on a text never raises. It reports success
    exactly when the analysis type is "basic" or "detailed", and then
    carries the dictionary of statistics and no error; for any other
    analysis type it reports failure, without payload, and the error
    names the type that was asked for. *)
Theorem text_analysis_execute_outcomes (text : string) (analysis_type : PyVal)
    (w : W) :
  exists res w',
    TextAnalysisTool_execute (PStr text) analysis_type w = (Ok res, w') /\
    tool_name res = "text_analysis" /\
    (success res = true <->
       analysis_type = PStr "basic" \/ analysis_type = PStr "detailed") /\
    (success res = true ->
       error res = None /\ exists stats, result res = PDict stats) /\
    (success res = false ->
       result res = PNone /\
       error res = Some ("Unknown analysis type: " +:+ py_format analysis_type)).
Proof.
  unfold TextAnalysisTool_execute, py_bind, try_except, py_lift, now, py_ret.
  destruct (clock w) as [t0 w0].
  destruct (analysis_type_cases analysis_type) as [->|[->|[Hbasic Hdetailed]]].
  - change (analysis_body (PStr text) (PStr "basic")) with (_basic_analysis text).
    destruct (basic_analysis_total text) as [stats ->].
    destruct (clock w0) as [t1 w1]. eexists _, _. split; [reflexivity|].
    cbn [tool_name success error result]. split; [done|].
    split; [split; [by left | done]|]. split; [|done].
    intros _. split; [done | by exists stats].
  - change (analysis_body (PStr text) (PStr "detailed")) with (_detailed_analysis text).
    destruct (detailed_analysis_total text) as [stats ->].
    destruct (clock w0) as [t1 w1]. eexists _, _. split; [reflexivity|].
    cbn [tool_name success error result]. split; [done|].
    split; [split; [by right | done]|]. split; [|done].
    intros _. split; [done | by exists stats].
  - rewrite analysis_body_unknown by done.
    destruct (clock w0) as [t1 w1]. eexists _, _. split; [reflexivity|].
    cbn [tool_name success error result exc_str ValueError]. split; [done|].
    split; [split; [done | by intros [?|?]]|]. split; [done|]. done.
Qed.

End TextAnalysisFacts.

(** ** Chunks and documents: what the processing guarantees *)

(** The validator of a chunk refuses blank content and otherwise
    stores the content with its surrounding white space removed: what
    is stored is not empty, neither starts nor ends with white space, and
    passes the validator unchanged when a chunk is built from it again.
    The other fields are stored as given. *)
Theorem document_chunk_content_is_stripped (id text source : string) (index : Z)
    (meta : gmap string PyVal) :
  (PyStr.blank text = true ->
     exists e, DocumentChunk_new id text index source meta = Raise e) /\
  (PyStr.blank text = false ->
     exists chunk,
       DocumentChunk_new id text index source meta = Ok chunk /\
       chunk = mkDocumentChunk id (PyStr.strip text) index source meta /\
       content chunk <> EmptyString /\
       PyStr.len (content chunk) <= PyStr.len text /\
       (forall c, first_char (content chunk) = Some c \/
                  last_char (content chunk) = Some c ->
                  PyStr.isspace c = false) /\
       DocumentChunk_new id (content chunk) index source meta = Ok chunk).
Proof.
  unfold DocumentChunk_new, validate_content. split; intros Hblank.
  - rewrite Hblank. by eexists.
  - rewrite Hblank. cbn [exc_bind]. eexists. split; [reflexivity|].
    split; [reflexivity|]. cbn [content].
    split; [apply blank_false in Hblank; by destruct (PyStr.strip text)|].
    split; [apply strip_length|].
    split; [intros c; apply strip_by_ends|].
    rewrite blank_strip, Hblank. cbn [exc_bind].
    unfold PyStr.strip. by rewrite strip_by_idempotent.
Qed.

Section ChunkTextFacts.
Context `{TextSplitters}.

(** A chunk made from the piece at its index in the splitter's
    output. *)
Definition chunk_of_piece (source : string) (pieces : list string)
    (c : DocumentChunk) : Prop :=
  0 <= chunk_index c /\
  exists piece,
    pieces !! Z.to_nat (chunk_index c) = Some piece /\
    PyStr.blank piece = false /\
    content c = PyStr.strip piece /\
    source_document c = source /\
    chunk_id c = source +:+ "_" +:+ format_04d (chunk_index c) /\
    chunk_metadata c !! "character_count" = Some (PInt (PyStr.len piece)).

Definition increasing_indices (chunks : list DocumentChunk) : Prop :=
  forall j k c d,
    (j < k)%nat -> chunks !! j = Some c -> chunks !! k = Some d ->
    chunk_index c < chunk_index d.

Lemma make_chunks_spec (self : TextChunker) (source : string) (i : Z)
    (pieces : list string) :
  0 <= i ->
  exists chunks,
    make_chunks self source i pieces = Ok chunks /\
    Forall (fun c =>
              i <= chunk_index c /\
              exists piece,
                pieces !! Z.to_nat (chunk_index c - i) = Some piece /\
                PyStr.blank piece = false /\
                content c = PyStr.strip piece /\
                source_document c = source /\
                chunk_id c = source +:+ "_" +:+ format_04d (chunk_index c) /\
                chunk_metadata c !! "character_count" = Some (PInt (PyStr.len piece)))
           chunks /\
    increasing_indices chunks /\
    length chunks
    = length (List.filter (fun piece => PyStr.truthy (PyStr.strip piece)) pieces).
Proof.
  revert i. induction pieces as [|p pieces IH]; intros i Hi.
  - exists []. split; [done|]. split; [constructor|]. split; [|done].
    intros j k c d _ Hc. by rewrite lookup_nil in Hc.
  - destruct (IH (i + 1)) as (rest & Hrest & Hall & Hinc & Hlen); [lia|].
    assert (Htail : Forall (fun c =>
              i + 1 <= chunk_index c /\ i <= chunk_index c /\
              exists piece,
                (p :: pieces) !! Z.to_nat (chunk_index c - i) = Some piece /\
                PyStr.blank piece = false /\
                content c = PyStr.strip piece /\
                source_document c = source /\
                chunk_id c = source +:+ "_" +:+ format_04d (chunk_index c) /\
                chunk_metadata c !! "character_count" = Some (PInt (PyStr.len piece)))
              rest).
    { eapply Forall_impl; [exact Hall|]. intros c (Hlow & piece & Hpiece & Hc).
      cbv beta. split; [done|]. split; [lia|]. exists piece. split; [|done].
      replace (Z.to_nat (chunk_index c - i)) with (S (Z.to_nat (chunk_index c - (i + 1))))
        by lia.
      exact Hpiece. }
    cbn [make_chunks List.filter].
    destruct (PyStr.truthy (PyStr.strip p)) eqn:Hp.
    + assert (Hblank : PyStr.blank p = false) by by apply blank_false.
      unfold DocumentChunk_new, validate_content. rewrite Hblank. cbn [exc_bind].
      rewrite Hrest. cbn [exc_bind]. eexists. split; [reflexivity|].
      split; [|split].
      * constructor.
        -- cbn [chunk_index content source_document chunk_id chunk_metadata].
           split; [lia|]. exists p. rewrite Z.sub_diag.
           split; [done|]. split; [done|]. split; [done|]. split; [done|].
           split; [done|].
           rewrite !lookup_insert_ne by done. apply lookup_insert_eq.
        -- eapply Forall_impl; [exact Htail|]. intros c (_ & Hlow & Hc). by split.
      * intros j k c d Hjk Hc Hd. destruct k as [|k]; [lia|].
        cbn [lookup list_lookup] in Hd.
        destruct j as [|j].
        -- injection Hc as <-. cbn [chunk_index].
           destruct (Forall_lookup_1 _ _ _ _ Htail Hd) as [Hlow _]. lia.
        -- cbn [lookup list_lookup] in Hc. apply (Hinc j k); [lia|done|done].
      * cbn [length]. by rewrite Hlen.
    + exists rest. split; [done|]. split; [|split; [done|done]].
      eapply Forall_impl; [exact Htail|]. intros c (_ & Hlow & Hc). by split.
Qed.

Lemma chunk_text_pieces (self : TextChunker) (text source : string)
    (pieces : list string) :
  PyStr.blank text = false ->
  split_text (_splitter self) text = Ok pieces ->
  exists chunks,
    chunk_text self text source = Ok chunks /\
    Forall (chunk_of_piece source pieces) chunks /\
    increasing_indices chunks /\
    length chunks
    = length (List.filter (fun piece => PyStr.truthy (PyStr.strip piece)) pieces).
Proof.
  unfold chunk_text. intros -> ->. cbn [exc_bind].
  destruct (make_chunks_spec self source 0 pieces) as (chunks & -> & Hall & Hinc & Hlen);
    [lia|].
  exists chunks. split; [done|]. split; [|by split].
  eapply Forall_impl; [exact Hall|]. intros c (Hlow & piece & Hpiece & Hc).
  split; [done|]. exists piece. rewrite Z.sub_0_r in Hpiece. by split.
Qed.

(** What [chunk_text] makes of the splitter's output. A blank text
    gives no chunk, and the splitter is not asked. Otherwise, when the
    splitter returns its pieces, the call returns (the validator of the
    chunks cannot fail behind the test that skips blank pieces): there is
    one chunk for every piece that is not blank, in the order of the
    pieces; the index of a chunk is the position of its piece among all
    the pieces, the blank ones included, so the indices increase but may
    have gaps; the content is the piece without its surrounding white
    space, while the "character_count" of the metadata is the length of
    the piece as the splitter gave it. An exception of the splitter is
    passed on. *)
Theorem chunk_text_follows_the_pieces (self : TextChunker) (text source : string) :
  (PyStr.blank text = true -> chunk_text self text source = Ok []) /\
  (forall pieces,
     PyStr.blank text = false ->
     split_text (_splitter self) text = Ok pieces ->
     exists chunks,
       chunk_text self text source = Ok chunks /\
       Forall (chunk_of_piece source pieces) chunks /\
       increasing_indices chunks /\
       length chunks
       = length (List.filter (fun piece => PyStr.truthy (PyStr.strip piece)) pieces)) /\
  (forall e,
     PyStr.blank text = false ->
     split_text (_splitter self) text = Raise e ->
     chunk_text self text source = Raise e).
Proof.
  split; [unfold chunk_text; by intros ->|]. split.
  - intros pieces. apply chunk_text_pieces.
  - unfold chunk_text. by intros e -> ->.
Qed.

End ChunkTextFacts.

Section ProcessingFacts.
Context `{Runtime} `{Platform} `{TextSplitters}.

Lemma try_encodings_first (encodings : list Encoding) (bytes text : string) :
  try_encodings encodings bytes = Some text ->
  PyStr.truthy (PyStr.strip text) = true /\
  exists i encoding,
    encodings !! i = Some encoding /\
    decode encoding bytes = Some text /\
    forall j earlier,
      (j < i)%nat -> encodings !! j = Some earlier ->
      match decode earlier bytes with
      | Some other => PyStr.truthy (PyStr.strip other) = false
      | None => True
      end.
Proof.
  induction encodings as [|encoding rest IH]; simpl; [done|].
  destruct (decode encoding bytes) as [decoded|] eqn:Hdecode.
  - destruct (PyStr.truthy (PyStr.strip decoded)) eqn:Hdecoded.
    + intros [= ->]. split; [done|]. exists 0%nat, encoding.
      split; [done|]. split; [done|]. intros j earlier Hj. lia.
    + intros Hrest. destruct (IH Hrest) as (Htext & i & found & Hi & Hfound & Hearlier).
      split; [done|]. exists (S i), found. split; [done|]. split; [done|].
      intros [|j] earlier Hj Hlookup.
      * injection Hlookup as <-. by rewrite Hdecode.
      * apply (Hearlier j); [lia | done].
  - intros Hrest. destruct (IH Hrest) as (Htext & i & found & Hi & Hfound & Hearlier).
    split; [done|]. exists (S i), found. split; [done|]. split; [done|].
    intros [|j] earlier Hj Hlookup.
    * injection Hlookup as <-. by rewrite Hdecode.
    * apply (Hearlier j); [lia | done].
Qed.

Lemma text_loader_not_blank (files : gmap string string) (file_path : Path)
    (text : string) :
  load_content TextLoader files file_path = Ok text -> PyStr.blank text = false.
Proof.
  unfold load_content, _validate_file.
  destruct (files !! path_str file_path) as [bytes|]; [|discriminate].
  cbn [exc_bind].
  destruct (try_encodings encoding_attempts bytes) as [found|] eqn:Htry;
    [|discriminate].
  intros [= ->]. apply blank_false. by destruct (try_encodings_first _ _ _ Htry).
Qed.

(** The text loader never returns blank content. What it returns is
    the reading of the file in the first of the encodings utf-8,
    utf-8-sig, latin-1, cp1252, in that order, that both decodes the
    bytes and yields text that is not blank; an earlier encoding either
    failed to decode or gave blank text. *)
Theorem text_loader_returns_first_reading (files : gmap string string)
    (file_path : Path) (text : string) :
  load_content TextLoader files file_path = Ok text ->
  PyStr.blank text = false /\
  exists bytes i encoding,
    files !! path_str file_path = Some bytes /\
    encoding_attempts !! i = Some encoding /\
    decode encoding bytes = Some text /\
    forall j earlier,
      (j < i)%nat -> encoding_attempts !! j = Some earlier ->
      match decode earlier bytes with
      | Some other => PyStr.blank other = true
      | None => True
      end.
Proof.
  unfold load_content, _validate_file.
  destruct (files !! path_str file_path) as [bytes|]; [|discriminate].
  cbn [exc_bind].
  destruct (try_encodings encoding_attempts bytes) as [found|] eqn:Htry;
    [|discriminate].
  intros [= ->].
  destruct (try_encodings_first _ _ _ Htry) as (Htext & i & encoding & Hi & Hdecode & Hearlier).
  split; [by apply blank_false|].
  exists bytes, i, encoding. split; [done|]. split; [done|]. split; [done|].
  intros j earlier Hj Hlookup. specialize (Hearlier j earlier Hj Hlookup).
  destruct (decode earlier bytes) as [other|]; [|done].
  unfold PyStr.blank. rewrite Hearlier. apply orb_true_r.
Qed.

(** Every outcome of [process_document]. When it returns, the file
    exists, the content it read is not blank, the metadata count the
    chunks and the characters that are returned and give the size of the
    file, and every chunk names the file as its source. When it raises,
    the exception is one of five: the file does not exist; there is no
    loader for the type of the file (exactly when [can_process] answers
    [False]); the loader raised, which is reported under "Failed to load
    content from"; a loader other than the text loader returned blank
    content (the text loader never does, so for text files the check
    behind "No content extracted" cannot fail); or the splitter raised,
    which is passed on as it is. *)
Theorem process_document_outcomes (self : DocumentProcessor)
    (files : gmap string string) (file_path : Path) (t : Z) :
  match process_document self files file_path t with
  | Ok processed =>
      exists bytes,
        files !! path_str file_path = Some bytes /\
        can_process file_path = true /\
        PyStr.blank (original_content processed) = false /\
        md_chunk_count (processing_metadata processed) = zlen (chunks processed) /\
        md_total_characters (processing_metadata processed)
        = PyStr.len (original_content processed) /\
        md_file_size (processing_metadata processed) = PyStr.len bytes /\
        md_filename (processing_metadata processed) = path_name file_path /\
        Forall (fun c => source_document c = path_name file_path) (chunks processed)
  | Raise e =>
      (files !! path_str file_path = None /\
       e = FileNotFoundError ("File not found: " +:+ path_str file_path)) \/
      (is_Some (files !! path_str file_path) /\
       can_process file_path = false /\
       e = ValueError ("Unsupported document type: "
                       +:+ document_type_value (_get_document_type file_path)
                       +:+ " for file " +:+ path_str file_path)) \/
      (exists loader cause,
         loaders (_get_document_type file_path) = Some loader /\
         load_content loader files file_path = Raise cause /\
         e = ValueError ("Failed to load content from " +:+ path_str file_path
                         +:+ ": " +:+ exc_str cause)) \/
      (exists loader text,
         loaders (_get_document_type file_path) = Some loader /\
         loader <> TextLoader /\
         load_content loader files file_path = Ok text /\
         PyStr.blank text = true /\
         e = ValueError ("No content extracted from " +:+ path_str file_path)) \/
      (exists loader text,
         loaders (_get_document_type file_path) = Some loader /\
         load_content loader files file_path = Ok text /\
         split_text (_splitter (chunker self)) text = Raise e)
  end.
Proof.
  unfold process_document, can_process.
  destruct (files !! path_str file_path) as [bytes|] eqn:Hfile; [|by left].
  destruct (loaders (_get_document_type file_path)) as [loader|] eqn:Hloader.
  2: { right; left. split; [by eexists|]. split; [|done].
       apply bool_decide_eq_false. by intros [? ?]. }
  destruct (load_content loader files file_path) as [text|cause] eqn:Hload;
    cbn [exc_bind].
  2: { right; right; left. by exists loader, cause. }
  destruct (PyStr.blank text) eqn:Hblank.
  { right; right; right; left. exists loader, text.
    split; [done|]. split; [|done]. intros ->.
    apply text_loader_not_blank in Hload. congruence. }
  destruct (split_text (_splitter (chunker self)) text) as [pieces|e] eqn:Hsplit.
  - destruct (chunk_text_pieces (chunker self) text (path_name file_path) pieces
                Hblank Hsplit) as (made & -> & Hall & _).
    cbn [exc_bind]. exists bytes. split; [done|].
    split; [apply bool_decide_eq_true; by eexists|].
    cbn [original_content processing_metadata chunks md_chunk_count
         md_total_characters md_file_size md_filename].
    split; [done|]. split; [done|]. split; [done|]. split; [done|]. split; [done|].
    eapply Forall_impl; [exact Hall|]. intros c (_ & piece & _ & _ & _ & Hsource & _).
    exact Hsource.
  - unfold chunk_text. rewrite Hblank, Hsplit. cbn [exc_bind].
    right; right; right; right. by exists loader, text.
Qed.

End ProcessingFacts.

(** A text file on a machine whose codecs all read it back. *)
Definition sample_files : gmap string string := {[ "/docs/notes.txt" := "hello" ]}.

Lemma text_loader_returns_first_reading_witness :
  @load_content plain_platform TextLoader sample_files (mkPath "/docs" "notes" ".txt")
  = Ok "hello" /\
  PyStr.blank "hello" = false.
Proof.
  split; [reflexivity|].
  by destruct (@text_loader_returns_first_reading plain_platform sample_files
                 (mkPath "/docs" "notes" ".txt") "hello" eq_refl).
Defined.

(** ** Knowledge-base insertion: everything a call changes *)

Section KnowledgeBaseEffects.
Context `{Runtime} `{Platform} `{TextSplitters}.
Context {VS W : Type} `{VectorStore VS} `{WorldOps W}.

Local Abbreviation KB := (KnowledgeBase VS W).

(** Only the clock was read between the two states. *)
Definition ticked (kb kb' : KB) : Prop :=
  kb_files kb' = kb_files kb /\
  kb_temp_counter kb' = kb_temp_counter kb /\
  kb_vector_store kb' = kb_vector_store kb /\
  kb_document_manager kb' = kb_document_manager kb.

Lemma ticked_trans (kb1 kb2 kb3 : KB) : ticked kb1 kb2 -> ticked kb2 kb3 -> ticked kb1 kb3.
Proof. intros (? & ? & ? & ?) (? & ? & ? & ?). repeat split; congruence. Qed.

Lemma wp_kb_now_ticked (kb : KB) (Q : Exc Z -> KB -> Prop) :
  (forall t kb', ticked kb kb' -> Q (Ok t) kb') -> wp kb_now kb Q.
Proof.
  intros HQ. unfold wp, kb_now. destruct (clock (kb_world kb)) as [t w].
  by apply HQ.
Qed.

Lemma wp_kb_process_document_ticked (processor : DocumentProcessor) (file_path : Path)
    (kb : KB) (Q : Exc ProcessingResult -> KB -> Prop) :
  (forall r kb', ticked kb kb' -> Q r kb') ->
  wp (kb_process_document processor file_path) kb Q.
Proof.
  intros HQ. unfold kb_process_document. apply wp_bind, wp_kb_now_ticked.
  intros t kb' Hsame. wp_simpl. by apply HQ.
Qed.

Lemma wp_retitle_chunks_ticked (title source : string)
    (metadata : option (gmap string PyVal)) (chunks : list DocumentChunk) (kb : KB)
    (Q : Exc (list DocumentChunk) -> KB -> Prop) :
  (forall out kb',
     ticked kb kb' -> length out = length chunks ->
     Forall (fun c => source_document c = title) out ->
     map content out = map content chunks ->
     Q (Ok out) kb') ->
  wp (retitle_chunks title source metadata chunks) kb Q.
Proof.
  revert kb Q. induction chunks as [|chunk rest IH]; intros kb Q HQ;
    cbn [retitle_chunks].
  - apply wp_ret. by apply HQ.
  - apply wp_bind. unfold retitle_chunk. apply wp_bind, wp_kb_now_ticked.
    intros t kb1 Htick1. wp_simpl. apply wp_ret. wp_simpl.
    apply wp_bind, IH. intros out kb2 Htick2 Hlen Hall Hcontent. wp_simpl.
    apply wp_ret, HQ.
    + by eapply ticked_trans.
    + simpl. congruence.
    + by constructor.
    + simpl. congruence.
Qed.

Lemma wp_kb_add_documents_exact (chunks : list DocumentChunk) (kb : KB)
    (Q : Exc bool -> KB -> Prop) :
  (forall ok kb',
     add_documents chunks (kb_vector_store kb) = (ok, kb_vector_store kb') ->
     kb_files kb' = kb_files kb -> kb_temp_counter kb' = kb_temp_counter kb ->
     kb_document_manager kb' = kb_document_manager kb ->
     Q (Ok ok) kb') ->
  wp (kb_add_documents chunks) kb Q.
Proof.
  intros HQ. unfold wp, kb_add_documents.
  destruct (add_documents chunks (kb_vector_store kb)) as [ok vs] eqn:Hadd.
  by apply HQ.
Qed.

Lemma wp_update_document_manager_exact (title source : string) (n : Z) (kb : KB)
    (Q : Exc unit -> KB -> Prop) :
  (forall t_processed t_updated kb',
     kb_files kb' = kb_files kb -> kb_temp_counter kb' = kb_temp_counter kb ->
     kb_vector_store kb' = kb_vector_store kb ->
     kb_document_manager kb'
     = record_document title source n t_processed t_updated <$> kb_document_manager kb ->
     Q (Ok tt) kb') ->
  wp (update_document_manager title source n) kb Q.
Proof.
  intros HQ. unfold update_document_manager.
  apply wp_bind, wp_kb_now_ticked. intros t1 kb1 (Hf1 & Hc1 & Hv1 & Hd1). wp_simpl.
  apply wp_bind, wp_kb_now_ticked. intros t2 kb2 (Hf2 & Hc2 & Hv2 & Hd2). wp_simpl.
  apply wp_modify, (HQ t1 t2); simpl; congruence.
Qed.

Lemma wp_unlink_exact (file_path : Path) (kb : KB) (Q : Exc unit -> KB -> Prop) :
  is_Some (kb_files kb !! path_str file_path) ->
  (forall kb',
     kb_files kb' = delete (path_str file_path) (kb_files kb) ->
     kb_temp_counter kb' = kb_temp_counter kb ->
     kb_vector_store kb' = kb_vector_store kb ->
     kb_document_manager kb' = kb_document_manager kb ->
     Q (Ok tt) kb') ->
  wp (unlink file_path) kb Q.
Proof.
  intros [bytes Hfile] HQ. unfold wp, unlink. rewrite Hfile. by apply HQ.
Qed.

(** The payload of a result that went as far as the vector store. *)
Definition insert_payload (title source content : string) (n : Z) (attached : bool)
    : PyVal :=
  PDict [ ("title", PStr title);
          ("chunks_added", PInt n);
          ("total_characters", PInt (PyStr.len content));
          ("source", PStr source);
          ("stats_updated", PBool attached) ].

(** What a call leaves behind, in full, when the content could be
    written to the temporary file. *)
Definition insert_effects (content title source : string) (kb : KB)
    (res : ToolResult) (kb' : KB) : Prop :=
  kb_files kb' = delete (path_str (temp_path_of kb)) (kb_files kb) /\
  kb_temp_counter kb' = S (kb_temp_counter kb) /\
  ((success res = false /\ result res = PNone /\ is_Some (error res) /\
    kb_vector_store kb' = kb_vector_store kb /\
    kb_document_manager kb' = kb_document_manager kb)
   \/
   (exists stored t_processed t_updated,
      stored <> [] /\
      Forall (fun c => source_document c = title) stored /\
      add_documents stored (kb_vector_store kb) = (success res, kb_vector_store kb') /\
      error res = None /\
      result res
      = insert_payload title source content (zlen stored)
          (bool_decide (is_Some (kb_document_manager kb))) /\
      kb_document_manager kb'
      = if success res
        then record_document title source (zlen stored) t_processed t_updated
               <$> kb_document_manager kb
        else kb_document_manager kb)).

(** What it leaves behind when [f.write] raised: the file it
    created, empty, and a failure that carries the exception's text. *)
Definition refusal_effects (e : PyExc) (kb : KB) (res : ToolResult) (kb' : KB) : Prop :=
  kb_files kb' = <[path_str (temp_path_of kb) := ""]> (kb_files kb) /\
  kb_temp_counter kb' = S (kb_temp_counter kb) /\
  success res = false /\ result res = PNone /\ error res = Some (exc_str e) /\
  kb_vector_store kb' = kb_vector_store kb /\
  kb_document_manager kb' = kb_document_manager kb.

Lemma execute_effects (processor : DocumentProcessor)
    (content title source : string) (metadata : option (gmap string PyVal))
    (kb : KB) :
  wp (AddToKnowledgeBaseTool_execute processor content title source metadata) kb
    (fun r kb' =>
       exists res, r = Ok res /\
         match encode_text content with
         | Ok _ => insert_effects content title source kb res kb'
         | Raise e => refusal_effects e kb res kb'
         end).
Proof.
  unfold AddToKnowledgeBaseTool_execute.
  apply wp_bind, wp_kb_now_ticked. intros t0 kb0 (Hf0 & Hc0 & Hv0 & Hd0). wp_simpl.
  apply wp_try_except.
  destruct (encode_text content) as [bytes|refusal] eqn:Hencode.
  2: { apply wp_bind. unfold wp at 1, write_temp_file. rewrite Hencode.
       cbn [fst snd]. wp_simpl.
       apply wp_bind, wp_kb_now_ticked. intros t kb2 (Hf2 & Hc2 & Hv2 & Hd2). wp_simpl.
       apply wp_ret. eexists. split; [done|].
       unfold refusal_effects, temp_path_of.
       cbn [kb_files kb_temp_counter kb_vector_store kb_document_manager
            success result error failure] in *.
       rewrite Hf2, Hc2, Hv2, Hd2, Hf0, Hc0. done. }
  apply (wp_mono _ _ (fun r (kb' : KB) =>
           exists res, r = Ok res /\ insert_effects content title source kb res kb')).
  2: { intros r s' (res & -> & Hres). eauto. }
  apply wp_bind. unfold wp at 1, write_temp_file. rewrite Hencode.
  cbn [fst snd]. wp_simpl.
  set (temp_path := mkPath "/tmp" ("tmp" +:+ pretty (kb_temp_counter kb0)) ".txt").
  assert (Htemp : temp_path = temp_path_of kb) by (unfold temp_path, temp_path_of; by rewrite Hc0).
  set (kb1 := mkKnowledgeBase _ _ _ _ _).
  assert (Hf1 : kb_files kb1 = <[path_str temp_path := bytes]> (kb_files kb))
    by (unfold kb1; cbn [kb_files]; by rewrite Hf0).
  assert (Hc1 : kb_temp_counter kb1 = S (kb_temp_counter kb))
    by (unfold kb1; cbn [kb_temp_counter]; by rewrite Hc0).
  assert (Hv1 : kb_vector_store kb1 = kb_vector_store kb) by done.
  assert (Hd1 : kb_document_manager kb1 = kb_document_manager kb) by done.
  clearbody kb1.
  apply wp_try_finally.
  apply (wp_mono _ _ (fun r (kb' : KB) =>
           exists res, r = Ok res /\ kb_files kb' = kb_files kb1 /\
             insert_effects content title source kb res
               (mkKnowledgeBase (delete (path_str temp_path) (kb_files kb'))
                  (kb_temp_counter kb') (kb_vector_store kb')
                  (kb_document_manager kb') (kb_world kb')))).
  2: { intros r s' (res & -> & Hfiles & Hres). apply wp_unlink_exact.
       - rewrite Hfiles, Hf1, lookup_insert_eq. by eexists.
       - intros kbz Hfz Hcz Hvz Hdz. exists res. split; [done|].
         destruct Hres as (Hfr & Hcr & Hcases). cbn [kb_files kb_temp_counter
           kb_vector_store kb_document_manager] in *.
         split; [congruence|]. split; [congruence|].
         destruct Hcases as [(? & ? & ? & ? & ?)|(stored & t1 & t2 & ? & ? & ? & ? & ? & ?)].
         + left. repeat split; try done; congruence.
         + right. exists stored, t1, t2. repeat split; try done; congruence. }
  assert (Hdelete : forall kb' : KB,
            kb_files kb' = kb_files kb1 ->
            delete (path_str temp_path) (kb_files kb')
            = delete (path_str (temp_path_of kb)) (kb_files kb)).
  { intros kb' ->. by rewrite Hf1, delete_insert_eq, Htemp. }
  apply wp_bind.
  apply (wp_mono _ _ (fun r (kb' : KB) =>
           exists v, r = Ok v /\ ticked kb1 kb' /\
             match v with
             | inl early => success early = false /\ result early = PNone /\
                            is_Some (error early)
             | inr _ => True
             end)).
  - apply wp_try_except, wp_bind, wp_kb_process_document_ticked.
    intros [processed|e] kb2 Htick2; wp_simpl.
    + apply wp_bind.
      destruct (chunks processed) as [|chunk rest].
      * apply wp_diagnostic_read. intros [[]|e]; wp_simpl.
        -- apply wp_ret. wp_simpl. by eexists.
        -- apply wp_bind, wp_kb_now_ticked. intros t kb3 Htick3. wp_simpl.
           apply wp_ret. eexists. split; [done|].
           split; [by eapply ticked_trans|]. cbn. split; [done|]. split; [done|].
           by eexists.
      * apply wp_ret. wp_simpl. apply wp_ret. wp_simpl. by eexists.
    + apply wp_bind, wp_kb_now_ticked. intros t kb3 Htick3. wp_simpl.
      apply wp_ret. eexists. split; [done|].
      split; [by eapply ticked_trans|]. cbn. split; [done|]. split; [done|].
      by eexists.
  - intros r kb2 (v & -> & (Hf2 & Hc2 & Hv2 & Hd2) & Hv). wp_simpl.
    destruct v as [early|[|chunk rest]].
    + apply wp_ret. exists early. split; [done|]. split; [done|].
      destruct Hv as (? & ? & ?).
      split; [by apply Hdelete|]. cbn [kb_temp_counter kb_vector_store kb_document_manager].
      split; [congruence|]. left. repeat split; try done; congruence.
    + apply wp_ret. eexists. split; [done|]. split; [done|].
      split; [by apply Hdelete|]. cbn [kb_temp_counter kb_vector_store kb_document_manager].
      split; [congruence|]. left. cbn.
      repeat split; first [done | congruence | by eexists].
    + apply wp_bind, wp_retitle_chunks_ticked.
      intros out kb3 (Hf3 & Hc3 & Hv3 & Hd3) Hlen Hall _. wp_simpl.
      assert (Hout : out <> []) by (destruct out; [discriminate Hlen | done]).
      apply wp_bind, wp_kb_add_documents_exact. intros ok kb4 Hadd Hf4 Hc4 Hd4.
      wp_simpl. apply wp_bind, wp_get. wp_simpl. apply wp_bind.
      assert (Hattached : bool_decide (is_Some (kb_document_manager kb4))
                          = bool_decide (is_Some (kb_document_manager kb)))
        by (apply bool_decide_ext; by rewrite Hd4, Hd3, Hd2, Hd1).
      destruct (ok && bool_decide (is_Some (kb_document_manager kb4))) eqn:Hupdate.
      * apply andb_true_iff in Hupdate as [-> Hsome].
        apply wp_update_document_manager_exact.
        intros t_processed t_updated kb5 Hf5 Hc5 Hv5 Hd5. wp_simpl.
        apply wp_bind, wp_kb_now_ticked. intros t kb6 (Hf6 & Hc6 & Hv6 & Hd6). wp_simpl.
        apply wp_bind, wp_get. wp_simpl. apply wp_ret.
        eexists. split; [done|]. split; [congruence|].
        split; [apply Hdelete; congruence|].
        cbn [kb_temp_counter kb_vector_store kb_document_manager].
        split; [congruence|]. right. exists out, t_processed, t_updated.
        cbn [success error result].
        split; [done|]. split; [done|].
        split; [rewrite Hv6, Hv5, <- Hv1, <- Hv2, <- Hv3; exact Hadd|].
        split; [done|].
        assert (Hflag : bool_decide (is_Some (kb_document_manager kb6))
                        = bool_decide (is_Some (kb_document_manager kb)))
          by (apply bool_decide_ext;
              by rewrite Hd6, Hd5, fmap_is_Some, Hd4, Hd3, Hd2, Hd1).
        split; [unfold insert_payload; by rewrite Hflag|].
        by rewrite Hd6, Hd5, Hd4, Hd3, Hd2, Hd1.
      * apply wp_ret. wp_simpl.
        apply wp_bind, wp_kb_now_ticked. intros t kb6 (Hf6 & Hc6 & Hv6 & Hd6). wp_simpl.
        apply wp_bind, wp_get. wp_simpl. apply wp_ret.
        eexists. split; [done|]. split; [congruence|].
        split; [apply Hdelete; congruence|].
        cbn [kb_temp_counter kb_vector_store kb_document_manager].
        split; [congruence|]. right. exists out, 0, 0.
        cbn [success error result].
        split; [done|]. split; [done|].
        split; [rewrite Hv6, <- Hv1, <- Hv2, <- Hv3; exact Hadd|].
        split; [done|].
        assert (Hflag : bool_decide (is_Some (kb_document_manager kb6))
                        = bool_decide (is_Some (kb_document_manager kb)))
          by (apply bool_decide_ext; by rewrite Hd6, Hd4, Hd3, Hd2, Hd1).
        split; [unfold insert_payload; by rewrite Hflag|].
        rewrite Hd6, Hd4, Hd3, Hd2, Hd1.
        destruct ok; [|done]. simpl in Hupdate.
        rewrite Hattached in Hupdate. apply bool_decide_eq_false in Hupdate.
        destruct (kb_document_manager kb) as [dm|]; [|done].
        exfalso. apply Hupdate. by eexists.
Qed.

(** The call never raises, uses up one temporary name, and leaves
    every other file alone. When the content could be written to the
    temporary file, the file does not outlive the call, whatever the
    outcome: if no file stood at its path before, the files are exactly
    those from before the call. When [f.write] raised, for content that
    the encoding of the file cannot represent, the call returns a
    failure with the text of that exception, and the temporary file,
    which was created already, stays behind empty. *)
Theorem knowledge_base_insert_removes_its_file (processor : DocumentProcessor)
    (content title source : string) (metadata : option (gmap string PyVal))
    (kb : KB) :
  exists res kb',
    AddToKnowledgeBaseTool_execute processor content title source metadata kb
    = (Ok res, kb') /\
    kb_temp_counter kb' = S (kb_temp_counter kb) /\
    (forall other, other <> path_str (temp_path_of kb) ->
                   kb_files kb' !! other = kb_files kb !! other) /\
    match encode_text content with
    | Ok _ =>
        kb_files kb' !! path_str (temp_path_of kb) = None /\
        (kb_files kb !! path_str (temp_path_of kb) = None -> kb_files kb' = kb_files kb)
    | Raise e =>
        kb_files kb' !! path_str (temp_path_of kb) = Some "" /\
        success res = false /\
        error res = Some (exc_str e)
    end.
Proof.
  pose proof (execute_effects processor content title source metadata kb) as Hwp.
  apply wp_run in Hwp as (r & kb' & Hrun & res & -> & Heffects).
  exists res, kb'. split; [done|].
  destruct (encode_text content) as [bytes|e].
  - destruct Heffects as (Hfiles & Hcounter & _). rewrite Hfiles.
    split; [done|].
    split; [intros other Hother; by rewrite lookup_delete_ne|].
    split; [apply lookup_delete_eq | apply delete_id].
  - destruct Heffects as (Hfiles & Hcounter & Hfail & _ & Herror & _). rewrite Hfiles.
    split; [done|].
    split; [intros other Hother; by rewrite lookup_insert_ne|].
    split; [apply lookup_insert_eq | done].
Qed.

(** The accounting of a successful insertion. A result with
    [success = True] means that the vector store accepted a list of
    chunks that is not empty, each of them carrying the title as its
    source. The payload gives the number of those chunks under
    "chunks_added", and an attached document manager has then counted
    exactly one more document and that many more chunks, and lists the
    title with the path "tool:" followed by the source. *)
Theorem knowledge_base_insert_accounting (processor : DocumentProcessor)
    (content title source : string) (metadata : option (gmap string PyVal))
    (kb : KB) :
  exists res kb',
    AddToKnowledgeBaseTool_execute processor content title source metadata kb
    = (Ok res, kb') /\
    (success res = true ->
       exists stored stamp stamp',
         1 <= zlen stored /\
         Forall (fun c => source_document c = title) stored /\
         add_documents stored (kb_vector_store kb) = (true, kb_vector_store kb') /\
         py_get_method (result res) "chunks_added" (PInt 0) = Ok (PInt (zlen stored)) /\
         forall dm,
           kb_document_manager kb = Some dm ->
           kb_document_manager kb'
           = Some (mkDocumentManager
                     (processed_documents dm
                      ++ [mkProcessedDocument title ("tool:" +:+ source)
                            (zlen stored) stamp])
                     (total_documents dm + 1)
                     (total_chunks dm + zlen stored)
                     (Some stamp'))).
Proof.
  pose proof (execute_effects processor content title source metadata kb) as Hwp.
  apply wp_run in Hwp as (r & kb' & Hrun & res & -> & Heffects).
  exists res, kb'. split; [done|]. intros Hsuccess.
  destruct (encode_text content) as [bytes|e];
    [|destruct Heffects as (_ & _ & Hfail & _); congruence].
  destruct Heffects as (_ & _ & Hcases).
  destruct Hcases as [(Hfail & _)|(stored & t1 & t2 & Hne & Hall & Hadd & _ & Hpayload & Hdm)];
    [congruence|].
  rewrite Hsuccess in *.
  exists stored, (isoformat t1), (isoformat t2).
  split; [unfold zlen; destruct stored; [done | simpl; lia]|].
  split; [done|]. split; [done|]. split; [by rewrite Hpayload|].
  intros dm Hattached. by rewrite Hdm, Hattached.
Qed.

(** A result that reports failure comes in two kinds. Either it
    carries an error text and no payload, and then neither the vector
    store nor the document manager has changed; or the vector store was
    given the chunks and answered [False], and then the result carries no
    error text at all, while its payload still announces the number of
    chunks under "chunks_added" and, with a document manager attached,
    [True] under "stats_updated", although the document manager has
    counted nothing. *)
Theorem knowledge_base_insert_failures (processor : DocumentProcessor)
    (content title source : string) (metadata : option (gmap string PyVal))
    (kb : KB) :
  exists res kb',
    AddToKnowledgeBaseTool_execute processor content title source metadata kb
    = (Ok res, kb') /\
    (success res = false ->
       kb_document_manager kb' = kb_document_manager kb /\
       ((result res = PNone /\ is_Some (error res) /\
         kb_vector_store kb' = kb_vector_store kb)
        \/
        (error res = None /\
         exists stored,
           1 <= zlen stored /\
           add_documents stored (kb_vector_store kb) = (false, kb_vector_store kb') /\
           result res
           = insert_payload title source content (zlen stored)
               (bool_decide (is_Some (kb_document_manager kb)))))).
Proof.
  pose proof (execute_effects processor content title source metadata kb) as Hwp.
  apply wp_run in Hwp as (r & kb' & Hrun & res & -> & Heffects).
  exists res, kb'. split; [done|]. intros Hfailure.
  destruct (encode_text content) as [bytes|e].
  2: { destruct Heffects as (_ & _ & _ & Hnone & Herror & Hstore & Hdm).
       split; [done|]. left. split; [done|]. split; [by eexists | done]. }
  destruct Heffects as (_ & _ & Hcases).
  destruct Hcases as [(_ & Hnone & Herror & Hstore & Hdm)
                     |(stored & t1 & t2 & Hne & _ & Hadd & Herror & Hpayload & Hdm)].
  - split; [done|]. by left.
  - rewrite Hfailure in *. split; [done|]. right. split; [done|].
    exists stored. split; [unfold zlen; destruct stored; [done | simpl; lia]|].
    by split.
Qed.

End KnowledgeBaseEffects.

(** *** A vector store that refuses what it is given *)

Record Refusing : Type := mkRefusing { refused : list (list DocumentChunk) }.

#[export] Instance refusing_store : VectorStore Refusing := {|
  add_documents chunks st := (false, mkRefusing (refused st ++ [chunks]));
  similarity_search _ _ st := ([], st);
|}.

Definition run_refused_insert (content : string)
    : Exc ToolResult * KnowledgeBase Refusing Z :=
  @AddToKnowledgeBaseTool_execute simple_runtime plain_platform fixed_width_splitters
    _ _ refusing_store counter_clock sample_processor content "note" "user_input" None
    (mkKnowledgeBase ∅ 0 (mkRefusing []) (Some new_document_manager) 0).

(** The second kind of failure on that store: no error text, a
    payload that announces one chunk and updated statistics, and a
    document manager that has counted nothing. *)
Example refused_insert_reports_added_chunks :
  match (run_refused_insert "Paris is the capital of France.").1 with
  | Ok res =>
      success res = false /\ error res = None /\
      result res = PDict [ ("title", PStr "note"); ("chunks_added", PInt 1);
                           ("total_characters", PInt 31);
                           ("source", PStr "user_input");
                           ("stats_updated", PBool true) ]
  | Raise _ => False
  end /\
  kb_document_manager (run_refused_insert "Paris is the capital of France.").2
  = Some new_document_manager.
Proof. vm_compute. repeat split; reflexivity. Qed.

(** *** Content that cannot be written *)

Definition run_seven_bit_insert (content : string)
    : Exc ToolResult * KnowledgeBase (list (DocumentChunk * Q)) Z :=
  @AddToKnowledgeBaseTool_execute simple_runtime seven_bit_platform
    fixed_width_splitters _ _ list_store counter_clock sample_processor content
    "note" "user_input" None sample_knowledge_base.

(** A text with a character that the encoding of the file does not
    have: the call reports the failure of the write, and the temporary
    file is still there afterwards. *)
Example unwritable_content_leaves_the_file :
  match (run_seven_bit_insert (String "233"%char "t" +:+ String "233"%char "")).1 with
  | Ok res =>
      success res = false /\
      error res
      = Some "'ascii' codec can't encode character: ordinal not in range(128)"
  | Raise _ => False
  end /\
  kb_files (run_seven_bit_insert (String "233"%char "t" +:+ String "233"%char "")).2
    !! "/tmp/tmp0.txt" = Some "".
Proof. vm_compute. repeat split; reflexivity. Qed.

(** ** Tool-use policy: what is never recommended, what is never detected *)

Lemma string_app_assoc (a b c : string) : (a +:+ b) +:+ c = a +:+ (b +:+ c).
Proof.
  induction a as [|x a IH]; [reflexivity|].
  change (String x ((a +:+ b) +:+ c) = String x (a +:+ (b +:+ c))). by rewrite IH.
Qed.

(** A keyword that occurs inside another keyword occurs wherever that
    one does. *)
Lemma contains_inside (inner outer s : string) :
  PyStr.contains inner outer = true ->
  PyStr.contains outer s = true ->
  PyStr.contains inner s = true.
Proof.
  intros Hinner Houter.
  apply contains_spec in Hinner as (a & b & ->).
  apply contains_spec in Houter as (pre & post & ->).
  apply contains_spec. exists (pre +:+ a), (b +:+ post).
  by rewrite !string_app_assoc.
Qed.

Section PolicyShape.
Context `{Runtime}.

(** The decision recommends at most two tools, and only in six
    combinations: nothing; one search; the text analysis; or one search
    followed by the text analysis. The repository search and the document
    search are never recommended together, and the text analysis never
    comes first when a search is recommended. Every recommendation
    carries the utterance as it was typed, not its lower-cased form, and
    [use_tools] tells whether anything is recommended. *)
Theorem tool_decision_shapes (user_input : string) :
  let decision := _decide_tool_usage user_input in
  let names := map call_tool_name (recommended_tools decision) in
  (names = [] \/
   names = ["github_search_with_content"] \/
   names = ["document_search"] \/
   names = ["text_analysis"] \/
   names = ["github_search_with_content"; "text_analysis"] \/
   names = ["document_search"; "text_analysis"]) /\
  ~ ("github_search_with_content" ∈ names /\ "document_search" ∈ names) /\
  (length (recommended_tools decision) <= 2)%nat /\
  (use_tools decision = true <-> names <> []) /\
  Forall (fun call =>
            call_parameters call !! "query" = Some (PStr user_input) \/
            call_parameters call !! "text" = Some (PStr user_input))
         (recommended_tools decision).
Proof.
  cbv zeta. rewrite decide_use_tools, decide_recommended.
  destruct (any_keyword_in keywords_for_github (str_lower user_input)
            || any_keyword_in keywords_for_code_search (str_lower user_input));
    [|destruct (any_keyword_in keywords_for_search (str_lower user_input))];
    destruct (any_keyword_in keywords_for_analysis (str_lower user_input));
    cbn [app map call_tool_name github_call document_search_call text_analysis_call
         length].
  all: split; [auto 10|].
  all: split;
    [intros [Hgithub Hdocument];
     repeat first [apply elem_of_cons in Hgithub as [Hgithub|Hgithub]
                  | apply elem_of_nil in Hgithub];
     repeat first [apply elem_of_cons in Hdocument as [Hdocument|Hdocument]
                  | apply elem_of_nil in Hdocument];
     done|].
  all: split; [lia|].
  all: split;
    [rewrite bool_decide_eq_true; split; intros Hne; first [done | by destruct Hne]|].
  all: repeat first [apply Forall_nil_2 | apply Forall_cons_2].
  all: unfold github_call, document_search_call, text_analysis_call;
    cbn [call_parameters];
    first [left; by rewrite lookup_insert_eq | right; by rewrite lookup_insert_eq].
Qed.

Ltac none_of_family Hfalse :=
  unfold any_keyword_in in Hfalse; cbn [existsb] in Hfalse;
  repeat (apply orb_false_iff in Hfalse as [? Hfalse]).

Ltac one_of_family Htrue :=
  unfold any_keyword_in in Htrue; cbn [existsb] in Htrue;
  repeat (apply orb_true_iff in Htrue as [Htrue|Htrue]); try discriminate Htrue.

Ltac next_family q Hname :=
  match goal with
  | |- context [if any_keyword_in ?ks q then _ else _] =>
      destruct (any_keyword_in ks q) eqn:Hname; cbv beta iota
  end.

(** The families are scanned in the order of the table and the first
    hit decides, so a keyword that also stands in an earlier family, or
    that contains a keyword of an earlier family, never decides for its
    own family. The answer is [None] exactly when no keyword of any
    family occurs in the lower-cased query. "swift" is answered only for
    a query that contains "swift" itself ("func" belongs to Go first,
    "class" to Python, "var" and "let" to JavaScript); "ruby" only for
    "ruby" or "gem"; "php" only for "php" or "composer"; "rust" only for
    "rust", "fn" or "crate" ("cargo" contains "go"); and "java" only for
    "java", "public", "private", "spring" or "maven". *)
Theorem detected_language_keywords (query : string) :
  let q := str_lower query in
  (_detect_programming_language query = None <->
     forall family keywords,
       (family, keywords) ∈ language_keywords -> any_keyword_in keywords q = false) /\
  (forall language,
     _detect_programming_language query = Some language ->
     language ∈ map fst language_keywords) /\
  (_detect_programming_language query = Some "swift" ->
     PyStr.contains "swift" q = true) /\
  (_detect_programming_language query = Some "ruby" ->
     PyStr.contains "ruby" q = true \/ PyStr.contains "gem" q = true) /\
  (_detect_programming_language query = Some "php" ->
     PyStr.contains "php" q = true \/ PyStr.contains "composer" q = true) /\
  (_detect_programming_language query = Some "rust" ->
     PyStr.contains "rust" q = true \/ PyStr.contains "fn" q = true \/
     PyStr.contains "crate" q = true) /\
  (_detect_programming_language query = Some "java" ->
     PyStr.contains "java" q = true \/ PyStr.contains "public" q = true \/
     PyStr.contains "private" q = true \/ PyStr.contains "spring" q = true \/
     PyStr.contains "maven" q = true).
Proof.
  cbv zeta. unfold _detect_programming_language.
  set (q := str_lower query). unfold language_keywords. cbn [scan_languages].
  next_family q Hpython.
  { split; [split; [done|]|repeat split; try discriminate].
    - intros Hnone. rewrite (Hnone "python" _) in Hpython; [done | list_mem].
    - intros language [= <-]. cbn. list_mem. }
  next_family q Hjavascript.
  { split; [split; [done|]|repeat split; try discriminate].
    - intros Hnone. rewrite (Hnone "javascript" _) in Hjavascript; [done | list_mem].
    - intros language [= <-]. cbn. list_mem. }
  next_family q Hjava.
  { split; [split; [done|]|repeat split; try discriminate].
    - intros Hnone. rewrite (Hnone "java" _) in Hjava; [done | list_mem].
    - intros language [= <-]. cbn. list_mem.
    - intros _. none_of_family Hpython. one_of_family Hjava; try congruence; auto 10. }
  next_family q Htypescript.
  { split; [split; [done|]|repeat split; try discriminate].
    - intros Hnone. rewrite (Hnone "typescript" _) in Htypescript; [done | list_mem].
    - intros language [= <-]. cbn. list_mem. }
  next_family q Hcpp.
  { split; [split; [done|]|repeat split; try discriminate].
    - intros Hnone. rewrite (Hnone "c++" _) in Hcpp; [done | list_mem].
    - intros language [= <-]. cbn. list_mem. }
  next_family q Hgo.
  { split; [split; [done|]|repeat split; try discriminate].
    - intros Hnone. rewrite (Hnone "go" _) in Hgo; [done | list_mem].
    - intros language [= <-]. cbn. list_mem. }
  next_family q Hrust.
  { split; [split; [done|]|repeat split; try discriminate].
    - intros Hnone. rewrite (Hnone "rust" _) in Hrust; [done | list_mem].
    - intros language [= <-]. cbn. list_mem.
    - intros _. none_of_family Hgo. one_of_family Hrust; auto.
      assert (Hinner : PyStr.contains "go" q = true)
        by (by apply (contains_inside "go" "cargo")).
      congruence. }
  next_family q Hphp.
  { split; [split; [done|]|repeat split; try discriminate].
    - intros Hnone. rewrite (Hnone "php" _) in Hphp; [done | list_mem].
    - intros language [= <-]. cbn. list_mem.
    - intros _. none_of_family Hpython. none_of_family Hjavascript.
      one_of_family Hphp; try congruence; auto. }
  next_family q Hruby.
  { split; [split; [done|]|repeat split; try discriminate].
    - intros Hnone. rewrite (Hnone "ruby" _) in Hruby; [done | list_mem].
    - intros language [= <-]. cbn. list_mem.
    - intros _. none_of_family Hpython. one_of_family Hruby; try congruence; auto. }
  next_family q Hswift.
  { split; [split; [done|]|repeat split; try discriminate].
    - intros Hnone. rewrite (Hnone "swift" _) in Hswift; [done | list_mem].
    - intros language [= <-]. cbn. list_mem.
    - intros _. none_of_family Hpython. none_of_family Hjavascript.
      none_of_family Hgo. one_of_family Hswift; try congruence; auto. }
  split; [|repeat split; discriminate].
  split; [|done]. intros _ family keywords Hin.
  repeat (apply elem_of_cons in Hin as [[= -> ->]|Hin]; [done|]).
  by apply elem_of_nil in Hin.
Qed.

End PolicyShape.

(** A line of Java is tagged as Python, for its "class". *)
Example java_class_is_tagged_python :
  @_detect_programming_language simple_runtime "public class Main extends Thread"
  = Some "python".
Proof. reflexivity. Qed.

(** ** Conversations, prompts and the chain *)

Definition to_chat (msg : ConversationMessage) : ChatMessage :=
  mkChatMessage (role_value (message_role msg)) (message_content msg).

(** The window of a conversation that is sent to the model. Without
    a bound, and with the bound 0 (which counts as no bound), it is the
    whole conversation. With a positive bound [n] it is the last [n]
    messages in their order, so never more than [n]; and a message that
    was just added, stripped of surrounding white space, is the last one
    of it. A blank message is refused and never gets into a
    conversation. *)
Theorem messages_for_llm_window (max_messages : option Z) (self : Conversation) :
  let everything := map to_chat (messages self) in
  (max_messages = None \/ max_messages = Some 0 ->
     get_messages_for_llm max_messages self = everything) /\
  (forall n,
     max_messages = Some n -> 0 < n ->
     get_messages_for_llm max_messages self
     = drop (length everything - Z.to_nat n) everything /\
     (length (get_messages_for_llm max_messages self) <= Z.to_nat n)%nat) /\
  (forall n role text,
     0 < n -> PyStr.blank text = false ->
     exists extended,
       add_message role text self = Ok extended /\
       last (get_messages_for_llm (Some n) extended)
       = Some (mkChatMessage (role_value role) (PyStr.strip text))) /\
  (forall role text,
     PyStr.blank text = true -> exists e, add_message role text self = Raise e).
Proof.
  cbv zeta. unfold get_messages_for_llm. fold to_chat.
  split; [intros [->| ->]; done|]. split; [|split].
  - intros n -> Hn. destruct (Z.eqb_spec n 0) as [->|_]; [lia|].
    rewrite slice_from_neg. destruct (Z.ltb_spec 0 n) as [_|?]; [|lia].
    rewrite length_map, <- skipn_map. split; [done|].
    rewrite length_drop, length_map. lia.
  - intros n role text Hn Hblank. unfold add_message. rewrite Hblank.
    eexists. split; [reflexivity|]. cbn [messages].
    destruct (Z.eqb_spec n 0) as [->|_]; [lia|].
    rewrite slice_from_neg. destruct (Z.ltb_spec 0 n) as [_|?]; [|lia].
    rewrite length_app. cbn [length].
    replace (length (messages self) + 1 - Z.to_nat n)%nat
      with (length (messages self) - (Z.to_nat n - 1))%nat by lia.
    rewrite drop_app_le by lia. rewrite map_app. cbn [map].
    by rewrite last_snoc.
  - intros role text Hblank. unfold add_message. rewrite Hblank. by eexists.
Qed.

(** The replacement fields of a template, in their order. *)
Fixpoint template_fields (pieces : list TemplatePiece) : list string :=
  match pieces with
  | [] => []
  | Text _ :: rest => template_fields rest
  | Field f :: rest => f :: template_fields rest
  end.

(** A field that the keyword arguments can fill: it has a name, and
    the name has a value. *)
Definition filled (kwargs : gmap string string) (f : string) : Prop :=
  positional f = false /\ is_Some (kwargs !! f).

Lemma format_pieces_bound (pieces : list TemplatePiece) (kwargs : gmap string string) :
  Forall (filled kwargs) (template_fields pieces) ->
  exists text, format_pieces pieces kwargs = Ok text.
Proof.
  induction pieces as [|[s|f] rest IH]; cbn [template_fields format_pieces].
  - by eexists.
  - intros Hall. destruct (IH Hall) as [tail ->]. by eexists.
  - intros Hall. apply Forall_cons in Hall as [[-> [v ->]] Hall].
    destruct (IH Hall) as [tail ->]. by eexists.
Qed.

Lemma format_pieces_returns (pieces : list TemplatePiece) (kwargs : gmap string string)
    (text : string) :
  format_pieces pieces kwargs = Ok text ->
  Forall (filled kwargs) (template_fields pieces).
Proof.
  revert text. induction pieces as [|[s|f] rest IH]; intros text;
    cbn [template_fields format_pieces].
  - constructor.
  - destruct (format_pieces rest kwargs) as [tail|e] eqn:Hrest; [|discriminate].
    intros _. by eapply IH.
  - destruct (positional f) eqn:Hnamed; [discriminate|].
    destruct (kwargs !! f) as [v|] eqn:Hf; [|discriminate].
    destruct (format_pieces rest kwargs) as [tail|e] eqn:Hrest; [|discriminate].
    intros _. constructor; [split; [done | by rewrite Hf] | by eapply IH].
Qed.

(** The formatting raises at the first field, from the left, that it
    cannot fill. *)
Lemma format_pieces_raises (pieces : list TemplatePiece) (kwargs : gmap string string)
    (e : PyExc) :
  format_pieces pieces kwargs = Raise e ->
  exists f,
    f ∈ template_fields pieces /\
    ((positional f = false /\ kwargs !! f = None /\ e = KeyError ("'" +:+ f +:+ "'"))
     \/ (positional f = true /\ e = positional_error f)).
Proof.
  induction pieces as [|[s|f] rest IH]; cbn [template_fields format_pieces].
  - discriminate.
  - destruct (format_pieces rest kwargs) as [tail|e'] eqn:Hrest; [discriminate|].
    cbn [exc_bind]. intros [= ->]. by apply IH.
  - destruct (positional f) eqn:Hnamed.
    { intros [= <-]. exists f. split; [by left | by right]. }
    destruct (kwargs !! f) as [v|] eqn:Hf.
    + destruct (format_pieces rest kwargs) as [tail|e'] eqn:Hrest; [discriminate|].
      cbn [exc_bind]. intros [= ->]. destruct (IH eq_refl) as (g & Hin & Hg).
      exists g. split; [by right | done].
    + intros [= <-]. exists f. split; [by left | by left].
Qed.

Lemma format_pieces_reads_fields (pieces : list TemplatePiece)
    (kwargs kwargs' : gmap string string) :
  Forall (fun f => kwargs !! f = kwargs' !! f) (template_fields pieces) ->
  format_pieces pieces kwargs = format_pieces pieces kwargs'.
Proof.
  induction pieces as [|[s|f] rest IH]; cbn [template_fields format_pieces].
  - done.
  - intros Hall. by rewrite IH.
  - intros Hall. apply Forall_cons in Hall as [-> Hall]. by rewrite IH.
Qed.

Lemma positional_error_class (f : string) :
  exc_class (positional_error f) = "IndexError"
  \/ exc_class (positional_error f) = "ValueError".
Proof. unfold positional_error. destruct (_ <=? _); [by left | by right]. Qed.

Lemma format_user_prompt_bound (self : PromptTemplate) (kwargs : gmap string string) :
  kwargs !! "self" = None ->
  Forall (filled kwargs) (template_fields (user_prompt_template self)) ->
  exists text, format_user_prompt self kwargs = Ok text.
Proof.
  intros Hself Hall. unfold format_user_prompt. rewrite Hself.
  rewrite bool_decide_eq_false_2 by (by intros [? ?]).
  destruct (format_pieces_bound _ _ Hall) as [text ->]. by eexists.
Qed.

(** For a template whose replacement fields hold a name or a number
    and nothing else: a user prompt is formatted exactly when no keyword
    argument is named "self" and every replacement field of the
    template has a name, not a number or nothing, and a value among the
    keyword arguments. Otherwise the call raises: a [TypeError] for a keyword
    argument "self", which collides with the parameter of the method; a
    [ValueError], not the [KeyError] of the formatting, for a named
    field without value; and for a field that refers to a positional
    argument what the formatting raises, an [IndexError] as a rule,
    which is passed on as it is. With a template whose fields are all
    named and without a keyword argument "self", every failure is the
    [ValueError] for a field without value. Keyword arguments that the
    template does not mention make no difference. *)
Theorem format_user_prompt_needs_every_field (self : PromptTemplate)
    (kwargs : gmap string string) :
  Forall (fun f => name_or_number f = true)
         (template_fields (user_prompt_template self)) ->
  let fields := template_fields (user_prompt_template self) in
  ((exists text, format_user_prompt self kwargs = Ok text) <->
   kwargs !! "self" = None /\ Forall (filled kwargs) fields) /\
  (forall e,
     format_user_prompt self kwargs = Raise e ->
     (exc_class e = "TypeError" /\ is_Some (kwargs !! "self")) \/
     (exc_class e = "ValueError" /\
      exists f, f ∈ fields /\ positional f = false /\ kwargs !! f = None) \/
     (exists f, f ∈ fields /\ positional f = true /\ e = positional_error f /\
                (exc_class e = "IndexError" \/ exc_class e = "ValueError"))) /\
  (kwargs !! "self" = None ->
   Forall (fun f => positional f = false) fields ->
   forall e,
     format_user_prompt self kwargs = Raise e ->
     exc_class e = "ValueError" /\ exists f, f ∈ fields /\ kwargs !! f = None) /\
  (forall kwargs',
     kwargs !! "self" = kwargs' !! "self" ->
     Forall (fun f => kwargs !! f = kwargs' !! f) fields ->
     format_user_prompt self kwargs = format_user_prompt self kwargs').
Proof.
  intros _. cbv zeta.
  assert (Hraise : forall e,
            format_user_prompt self kwargs = Raise e ->
            (exc_class e = "TypeError" /\ is_Some (kwargs !! "self")) \/
            (exc_class e = "ValueError" /\
             exists f, f ∈ template_fields (user_prompt_template self) /\
                       positional f = false /\ kwargs !! f = None) \/
            (exists f, f ∈ template_fields (user_prompt_template self) /\
                       positional f = true /\ e = positional_error f /\
                       (exc_class e = "IndexError" \/ exc_class e = "ValueError"))).
  { intros e. unfold format_user_prompt.
    destruct (kwargs !! "self") as [v|] eqn:Hself.
    { rewrite bool_decide_eq_true_2 by (by eexists). intros [= <-]. left.
      split; [done | by eexists]. }
    rewrite bool_decide_eq_false_2 by (by intros [? ?]).
    destruct (format_pieces (user_prompt_template self) kwargs) as [out|cause] eqn:Hpieces;
      [discriminate|].
    destruct (format_pieces_raises _ _ _ Hpieces)
      as (f & Hin & [(Hnamed & Hnone & ->)|(Hnumber & ->)]).
    - cbn [exc_class KeyError String.eqb]. intros [= <-]. right. left.
      split; [done|]. by exists f.
    - pose proof (positional_error_class f) as Hclass.
      assert (Hnot : String.eqb (exc_class (positional_error f)) "KeyError" = false)
        by (destruct Hclass as [-> | ->]; reflexivity).
      rewrite Hnot. intros [= <-]. right. right. by exists f. }
  split; [split|split; [exact Hraise|split]].
  - intros [text Hformat]. unfold format_user_prompt in Hformat.
    destruct (kwargs !! "self") as [v|] eqn:Hself.
    { rewrite bool_decide_eq_true_2 in Hformat by (by eexists). discriminate. }
    rewrite bool_decide_eq_false_2 in Hformat by (by intros [? ?]).
    split; [done|].
    destruct (format_pieces (user_prompt_template self) kwargs) as [out|e] eqn:Hpieces.
    + by eapply format_pieces_returns.
    + destruct (String.eqb (exc_class e) "KeyError"); discriminate.
  - intros [Hself Hall]. by apply format_user_prompt_bound.
  - intros Hself Hnamed e Hformat.
    destruct (Hraise e Hformat)
      as [[_ [v Hv]]|[[Hclass (f & Hin & _ & Hnone)]|(f & Hin & Hnumber & _)]].
    + congruence.
    + split; [done|]. by exists f.
    + rewrite Forall_forall in Hnamed. rewrite (Hnamed f Hin) in Hnumber. discriminate.
  - intros kwargs' Hself Hsame. unfold format_user_prompt.
    rewrite <- Hself. by rewrite (format_pieces_reads_fields _ kwargs kwargs').
Qed.

Example format_without_question :
  match default_templates !! "rag_qa" with
  | Some template =>
      format_user_prompt template {[ "context" := "Document 1" ]}
      = Raise (ValueError "Missing required template variable: question")
  | None => False
  end.
Proof. reflexivity. Qed.

Definition rag_qa_template : PromptTemplate :=
  default (mkPromptTemplate "" "" []) (default_templates !! "rag_qa").

Lemma rag_qa_fields_are_names :
  Forall (fun f => name_or_number f = true)
         (template_fields (user_prompt_template rag_qa_template)).
Proof. repeat constructor. Defined.

Lemma format_user_prompt_needs_every_field_witness :
  Forall (fun f => name_or_number f = true)
         (template_fields (user_prompt_template rag_qa_template)) /\
  ((exists text,
      format_user_prompt rag_qa_template
        (<["context" := "Document 1"]> {[ "question" := "Which capital?" ]}) = Ok text)
   <-> (<["context" := "Document 1"]> {[ "question" := "Which capital?" ]}
          : gmap string string) !! "self" = None /\
       Forall (filled (<["context" := "Document 1"]> {[ "question" := "Which capital?" ]}))
              (template_fields (user_prompt_template rag_qa_template))).
Proof.
  split; [exact rag_qa_fields_are_names|].
  exact (proj1 (format_user_prompt_needs_every_field rag_qa_template
                  (<["context" := "Document 1"]> {[ "question" := "Which capital?" ]})
                  rag_qa_fields_are_names)).
Defined.

(** A template that refers to a positional argument cannot be
    formatted, and what it raises is not a [ValueError]. *)
Example format_with_positional_field :
  format_user_prompt (mkPromptTemplate "numbered" "" [Text "Question: "; Field "0"])
    {[ "question" := "Which capital?" ]}
  = Raise (IndexError "Replacement index 0 out of range for positional args tuple") /\
  format_user_prompt (mkPromptTemplate "plain" "" [Text "Question: "; Field ""])
    {[ "question" := "Which capital?" ]}
  = Raise (IndexError "Replacement index 0 out of range for positional args tuple").
Proof. split; reflexivity. Qed.

Section ChainFacts.
Context {W : Type} `{VectorStore W} `{LLMClient W}.

(** Every failure of the LLM manager is a [ValueError]. Without a
    client the endpoint is not called and the world is as it was; with a
    client, an exception of the endpoint comes back as a [ValueError]
    whose text is "Failed to generate response: " followed by that
    exception's text, and a completion comes back with its content and
    model name. *)
Theorem generate_response_outcomes (self : LLMManager) (msgs : list ChatMessage)
    (w : W) :
  match generate_response self msgs w with
  | (Ok answer, w') =>
      client self = true /\
      exists completion,
        chat_completions_create msgs w = (Ok completion, w') /\
        llm_content answer = completion_content completion /\
        llm_model answer = completion_model completion
  | (Raise e, w') =>
      exc_class e = "ValueError" /\
      ((client self = false /\ w' = w /\
        exc_str e = "OpenAI client not initialized. Check API key and dependencies.")
       \/
       (client self = true /\
        exists cause,
          chat_completions_create msgs w = (Raise cause, w') /\
          exc_str e = "Failed to generate response: " +:+ exc_str cause))
  end.
Proof.
  unfold generate_response. destruct (client self); cbn [negb].
  - unfold try_except.
    destruct (chat_completions_create msgs w) as [[completion|cause] w'] eqn:Hcall.
    + split; [done|]. by exists completion.
    + cbn. split; [done|]. right. split; [done|]. by exists cause.
  - cbn. split; [done|]. by left.
Qed.

(** The keyword arguments that [process_query] formats the prompt
    with. *)
Definition prompt_arguments (context query : string) : gmap string string :=
  <["context" := context]> (<["question" := query]> (<["user_message" := query]> ∅)).

(** The conversation under [id], or the one that is created for it. *)
Definition conversation_of (id : string) (st : ChainState W) : Conversation :=
  default (mkConversation id []) (conversations st !! id).

Definition with_message (role : MessageRole) (text : string) (c : Conversation)
    : Conversation :=
  mkConversation (conversation_key c)
    (messages c ++ [mkConversationMessage role (PyStr.strip text)]).

(** The outcomes of [process_query]. An unknown template name raises
    a [ValueError], and it does so after the documents have been
    retrieved. With a template whose fields are among "context",
    "question" and "user_message" the call never raises, whatever the
    model does. The model is sent the system prompt, at most ten
    messages of the conversation, and the formatted prompt. When the
    model raises, the result reports failure with the text of the
    exception, and no conversation changes. When the model answers and a
    conversation is named, the query and the answer are added to it, the
    conversation being created if it did not exist; but a blank query
    makes the result a failure although the model answered, and a blank
    answer makes it a failure after the query alone was added. The
    retrieved documents are part of every result. *)
Theorem process_query_outcomes (llm : LLMManager)
    (templates : gmap string PromptTemplate) (query : string)
    (conversation_id : option string) (template : string) (k : Z)
    (min_score : PyFloat) (st : ChainState W) :
  let found := retrieve_documents query k min_score (chain_world st) in
  (templates !! template = None ->
     process_query llm templates query conversation_id template k min_score st
     = (Raise (ValueError ("Template '" +:+ template +:+ "' not found")),
        mkChainState (conversations st) found.2)) /\
  (forall chosen,
     templates !! template = Some chosen ->
     Forall (fun f => f ∈ ["context"; "question"; "user_message"])
            (template_fields (user_prompt_template chosen)) ->
     exists result st' history prompt,
       process_query llm templates query conversation_id template k min_score st
       = (Ok result, st') /\
       retrieval_results result = found.1 /\
       format_user_prompt chosen (prompt_arguments (context_used result) query)
       = Ok prompt /\
       (length history <= 10)%nat /\
       match generate_response llm
               ([mkChatMessage "system" (system_prompt chosen)] ++ history
                ++ [mkChatMessage "user" prompt]) found.2 with
       | (Raise e, w) =>
           rag_success result = false /\ rag_response result = None /\
           rag_error result = Some (exc_str e) /\
           st' = mkChainState (conversations st) w
       | (Ok answer, w) =>
           chain_world st' = w /\
           match conversation_id with
           | Some (String a id) =>
               let named := String a id in
               let before := conversation_of named st in
               if PyStr.blank query
               then rag_success result = false /\
                    conversations st' = <[named := before]> (conversations st)
               else if PyStr.blank (llm_content answer)
               then rag_success result = false /\
                    conversations st'
                    = <[named := with_message USER query before]> (conversations st)
               else rag_success result = true /\
                    rag_response result = Some (llm_content answer) /\
                    conversations st'
                    = <[named := with_message ASSISTANT (llm_content answer)
                                   (with_message USER query before)]>
                        (conversations st)
           | _ =>
               rag_success result = true /\
               rag_response result = Some (llm_content answer) /\
               conversations st' = conversations st
           end
       end).
Proof.
  cbv zeta.
  unfold process_query, py_bind, chain_retrieve, py_get, py_lift, py_raise,
    try_except, in_world.
  cbv beta.
  destruct (retrieve_documents query k min_score (chain_world st)) as [found w1].
  cbv beta iota. cbn [fst snd chain_world conversations]. split.
  - intros ->. reflexivity.
  - intros chosen -> Hfields. cbv beta iota.
    match goal with
    | |- context [format_user_prompt chosen (<["context" := ?c]> _)] =>
        set (context := c)
    end.
    assert (Hbound : Forall (filled (prompt_arguments context query))
                       (template_fields (user_prompt_template chosen))).
    { eapply Forall_impl; [exact Hfields|]. intros f Hin. cbv beta in Hin.
      unfold prompt_arguments.
      repeat (apply elem_of_cons in Hin as [->|Hin]; [split; [done | by eexists]|]).
      by apply elem_of_nil in Hin. }
    assert (Hself : prompt_arguments context query !! "self" = None)
      by (unfold prompt_arguments; by rewrite !lookup_insert_ne, lookup_empty).
    destruct (format_user_prompt_bound chosen _ Hself Hbound) as [prompt Hprompt].
    fold (prompt_arguments context query). rewrite Hprompt. cbv beta iota.
    cbn [chain_world conversations].
    match goal with
    | |- context [[mkChatMessage "system" _] ++ ?h ++ _] => set (history := h)
    end.
    assert (Hhistory : (length history <= 10)%nat).
    { unfold history. destruct conversation_id as [id|]; [|simpl; lia].
      destruct (PyStr.truthy id); [|simpl; lia].
      cbn [conversations].
      destruct (conversations st !! id) as [conversation|]; [|simpl; lia].
      unfold get_messages_for_llm. cbn. rewrite length_map, slice_from_neg.
      cbn. rewrite length_drop. lia. }
    match goal with
    | |- context [generate_response llm ?m w1] =>
        destruct (generate_response llm m w1) as [[answer|e] w2] eqn:Hllm
    end; cbv beta iota.
    + destruct conversation_id as [[|a id]|].
      * cbn [PyStr.truthy]. unfold py_ret. eexists _, _, history, prompt.
        split; [reflexivity|]. cbn [retrieval_results context_used].
        split; [done|]. split; [exact Hprompt|]. split; [done|].
        rewrite Hllm. done.
      * cbn [PyStr.truthy]. unfold update_conversation, add_message.
        cbn [conversations chain_world].
        destruct (PyStr.blank query) eqn:Hquery.
        -- eexists _, _, history, prompt. split; [reflexivity|].
           cbn [retrieval_results context_used].
           split; [done|]. split; [exact Hprompt|]. split; [done|].
           rewrite Hllm. done.
        -- cbn [messages conversation_key].
           destruct (PyStr.blank (llm_content answer)) eqn:Hanswer.
           ++ eexists _, _, history, prompt. split; [reflexivity|].
              cbn [retrieval_results context_used].
              split; [done|]. split; [exact Hprompt|]. split; [done|].
              rewrite Hllm. cbv beta iota zeta. rewrite Hanswer. done.
           ++ eexists _, _, history, prompt. split; [reflexivity|].
              cbn [retrieval_results context_used].
              split; [done|]. split; [exact Hprompt|]. split; [done|].
              rewrite Hllm. cbv beta iota zeta. rewrite Hanswer. done.
      * unfold py_ret. eexists _, _, history, prompt.
        split; [reflexivity|]. cbn [retrieval_results context_used].
        split; [done|]. split; [exact Hprompt|]. split; [done|].
        rewrite Hllm. done.
    + unfold py_ret. eexists _, _, history, prompt.
      split; [reflexivity|]. cbn [retrieval_results context_used].
      split; [done|]. split; [exact Hprompt|]. split; [done|].
      rewrite Hllm. done.
Qed.

End ChainFacts.

(** *** The chain on a machine whose model answers *)

Definition answering_endpoint (reply : string) : LLMClient SimWorld := {|
  chat_completions_create _ w :=
    (Ok (mkCompletion reply "gpt-3.5-turbo" 12 3 15 "stop" "completion-1"), w);
|}.

Definition run_query (reply query : string)
    : Exc RagResult * ChainState SimWorld :=
  @process_query SimWorld sim_store (answering_endpoint reply) (mkLLMManager true)
    default_templates query (Some "talk") "rag_qa" 5 (FiniteFloat 0)
    (mkChainState ∅ (mkSimWorld 0 [])).

(** An answer gives the conversation both turns. *)
Example answered_query_extends_the_conversation :
  rag_success <$> (match (run_query "Paris." "  Which capital? ").1 with
                   | Ok found => Some found | Raise _ => None end) = Some true /\
  messages <$> conversations (run_query "Paris." "  Which capital? ").2 !! "talk"
  = Some [ mkConversationMessage USER "Which capital?";
           mkConversationMessage ASSISTANT "Paris." ].
Proof. vm_compute. split; reflexivity. Qed.

(** A blank answer makes the query fail after its own turn was
    added. *)
Example blank_answer_leaves_half_a_turn :
  rag_success <$> (match (run_query "   " "Which capital?").1 with
                   | Ok found => Some found | Raise _ => None end) = Some false /\
  messages <$> conversations (run_query "   " "Which capital?").2 !! "talk"
  = Some [ mkConversationMessage USER "Which capital?" ].
Proof. vm_compute. split; reflexivity. Qed.

(** ** The agent with any model: what every request does *)

Section AgentFrame.
Context `{Runtime} {W : Type} `{WorldOps W} `{VectorStore W} `{LLMClient W}.

Local Abbreviation St := (AgentState W).

(** A computation that leaves the short-term memory alone. *)
Definition keeps_short_term {A} (m : Py St A) : Prop :=
  forall st, short_term_memory (memory (m st).2) = short_term_memory (memory st).

Lemma keeps_ret {A} (a : A) : keeps_short_term (py_ret a).
Proof. done. Qed.

Lemma keeps_raise {A} (e : PyExc) : keeps_short_term (@py_raise St A e).
Proof. done. Qed.

Lemma keeps_lift {A} (r : Exc A) : keeps_short_term (@py_lift St A r).
Proof. done. Qed.

Lemma keeps_bind {A B} (m : Py St A) (k : A -> Py St B) :
  keeps_short_term m -> (forall a, keeps_short_term (k a)) ->
  keeps_short_term (py_bind m k).
Proof.
  intros Hm Hk st. unfold py_bind. specialize (Hm st).
  destruct (m st) as [[a|e] st1]; simpl in *; [|done].
  by rewrite Hk.
Qed.

Lemma keeps_try_except {A} (m : Py St A) (h : PyExc -> Py St A) :
  keeps_short_term m -> (forall e, keeps_short_term (h e)) ->
  keeps_short_term (try_except m h).
Proof.
  intros Hm Hh st. unfold try_except. specialize (Hm st).
  destruct (m st) as [[a|e] st1]; simpl in *; [done|].
  by rewrite Hh.
Qed.

Lemma keeps_for {A B} (xs : list A) (acc : B) (body : B -> A -> Py St B) :
  (forall acc x, keeps_short_term (body acc x)) ->
  keeps_short_term (py_for xs acc body).
Proof.
  intros Hbody. revert acc. induction xs as [|x xs IH]; intros acc; simpl.
  - apply keeps_ret.
  - apply keeps_bind; [apply Hbody | intros acc'; apply IH].
Qed.

Lemma keeps_with_manager {A} (m : Py (Managed W) A) : keeps_short_term (with_manager m).
Proof. intros st. unfold with_manager. by destruct (m _). Qed.

Lemma keeps_with_chain {A} (m : Py (ChainState W) A) : keeps_short_term (with_chain m).
Proof. intros st. unfold with_chain. by destruct (m _). Qed.

Lemma keeps_with_world {A} (m : Py W A) : keeps_short_term (with_world m).
Proof. intros st. unfold with_world. by destruct (m _). Qed.

Lemma keeps_note_working_memory (key : string) (value : PyVal) :
  keeps_short_term (note_working_memory key value).
Proof.
  unfold note_working_memory. apply keeps_bind; [apply keeps_with_world|].
  intros t st. done.
Qed.

Ltac keeps_step :=
  first
    [ apply keeps_ret | apply keeps_raise | apply keeps_lift
    | apply keeps_with_manager | apply keeps_with_chain | apply keeps_with_world
    | apply keeps_note_working_memory
    | apply keeps_try_except; [|intros ?]
    | apply keeps_bind; [|intros ?]
    | apply keeps_for; intros ? ?
    | match goal with
      | |- keeps_short_term (if ?b then _ else _) => destruct b
      | |- keeps_short_term (match ?x with _ => _ end) => destruct x
      | |- keeps_short_term (let '(_, _) := ?x in _) => destruct x
      end ].

Lemma keeps_execute_recommended_tools (recommended : list ToolCall) :
  keeps_short_term (_execute_recommended_tools recommended).
Proof. unfold _execute_recommended_tools. repeat keeps_step. Qed.

Lemma keeps_add_fetched_content (user_input : string)
    (repository title url text : PyVal) :
  keeps_short_term (add_fetched_content user_input repository title url text).
Proof. unfold add_fetched_content. repeat keeps_step. Qed.

Lemma keeps_render_content_result (user_input : string) (parts : list string)
    (entry : Z * PyVal) :
  keeps_short_term (render_content_result user_input parts entry).
Proof.
  destruct entry as [i found]. unfold render_content_result.
  repeat first [apply keeps_add_fetched_content | keeps_step].
Qed.

Lemma keeps_render_github_content (user_input : string) (payload : PyVal)
    (parts : list string) :
  keeps_short_term (render_github_content user_input payload parts).
Proof.
  unfold render_github_content.
  repeat first [apply keeps_render_content_result | keeps_step].
Qed.

Lemma keeps_build_tool_context (user_input : string) (tool_results : list ToolResult) :
  keeps_short_term (build_tool_context user_input tool_results).
Proof.
  unfold build_tool_context. apply keeps_for. intros [parts used] outcome.
  repeat first [apply keeps_render_github_content | keeps_step].
Qed.

Lemma keeps_generate_response_with_tools (self : Agent) (user_input : string)
    (tool_results : list ToolResult) :
  keeps_short_term (_generate_response_with_tools self user_input tool_results).
Proof.
  unfold _generate_response_with_tools, agent_process_query, agent_generate.
  apply keeps_bind; [apply keeps_build_tool_context|]. intros [parts used].
  repeat keeps_step.
Qed.

Lemma keeps_generate_simple_response (self : Agent) (user_input : string) :
  keeps_short_term (_generate_simple_response self user_input).
Proof.
  unfold _generate_simple_response, agent_process_query, agent_generate.
  repeat keeps_step.
Qed.

Lemma wp_keeps {A} (m : Py St A) (st : St) (Q : Exc A -> St -> Prop) :
  keeps_short_term m ->
  (forall r st',
     short_term_memory (memory st') = short_term_memory (memory st) -> Q r st') ->
  wp m st Q.
Proof. intros Hm HQ. unfold wp. apply HQ, Hm. Qed.

Lemma wp_agent_now_memory (st : St) (Q : Exc Z -> St -> Prop) :
  (forall t st', memory st' = memory st -> Q (Ok t) st') -> wp agent_now st Q.
Proof.
  intros HQ. unfold agent_now. apply wp_with_world. intros r w.
  unfold now. destruct (clock (agent_world st)) as [t w0]. intros [= <- <-].
  by apply HQ.
Qed.

Lemma wp_remember_memory (memory_item : gmap string PyVal) (st : St)
    (Q : Exc unit -> St -> Prop) :
  (forall t_item st',
     short_term_memory (memory st')
     = last50 (short_term_memory (memory st) ++ [stamp memory_item t_item]) ->
     Q (Ok tt) st') ->
  wp (remember memory_item) st Q.
Proof.
  intros HQ. unfold remember.
  apply wp_bind, wp_agent_now_memory. intros t1 st1 Hsame1. wp_simpl.
  apply wp_bind, wp_agent_now_memory. intros t2 st2 Hsame2. wp_simpl.
  apply wp_modify, (HQ t1). cbn [memory].
  by rewrite add_to_short_term_last50, Hsame2, Hsame1.
Qed.

(** The entries that a request adds to the short-term memory. *)
Definition input_entry (self : Agent) (user_input : string) : gmap string PyVal :=
  <["type" := PStr "user_input"]>
    (<["content" := PStr user_input]>
    (<["conversation_id" := PStr (conversation_id self)]> ∅)).

Definition reply_entry (self : Agent) (res : RequestResult) : gmap string PyVal :=
  if request_success res
  then <["type" := PStr "agent_response"]>
         (<["content" := PStr (default "" (request_response res))]>
         (<["conversation_id" := PStr (conversation_id self)]>
         (<["tools_used" := PList (map PStr (default [] (request_tools_used res)))]> ∅)))
  else <["type" := PStr "error"]>
         (<["content" := PStr (default "" (request_error res))]>
         (<["conversation_id" := PStr (conversation_id self)]> ∅)).

(** Whatever the model, the vector store and the tools do, a request
    returns a result and raises nothing. The result names the agent's
    conversation and has either a response and the names of the tools
    used, or an error text, never both. The request adds exactly two
    entries at the end of the short-term memory, which keeps its last
    fifty: first the user's input, then the response or the error, each
    with the conversation and a time stamp; nothing else in the request
    touches the short-term memory. On success [memory_items] is the
    number of entries the memory then holds, which is at least 2 and at
    most 50. *)
Theorem process_request_always_returns (self : Agent) (user_input : string)
    (with_tools : bool) (st : St) :
  exists res st' t_input t_reply,
    process_request self user_input with_tools st = (Ok res, st') /\
    request_conversation_id res = conversation_id self /\
    short_term_memory (memory st')
    = last50 (short_term_memory (memory st)
              ++ [stamp (input_entry self user_input) t_input;
                  stamp (reply_entry self res) t_reply]) /\
    (if request_success res
     then is_Some (request_response res) /\ is_Some (request_tools_used res) /\
          request_error res = None /\
          memory_items res = Some (zlen (short_term_memory (memory st'))) /\
          2 <= zlen (short_term_memory (memory st')) <= 50
     else request_response res = None /\ request_tools_used res = None /\
          is_Some (request_error res) /\ memory_items res = None).
Proof.
  assert (Hwp : wp (process_request self user_input with_tools) st (fun r st' =>
    exists res t_input t_reply,
      r = Ok res /\
      request_conversation_id res = conversation_id self /\
      short_term_memory (memory st')
      = last50 (short_term_memory (memory st)
                ++ [stamp (input_entry self user_input) t_input;
                    stamp (reply_entry self res) t_reply]) /\
      (if request_success res
       then is_Some (request_response res) /\ is_Some (request_tools_used res) /\
            request_error res = None /\
            memory_items res = Some (zlen (short_term_memory (memory st')))
       else request_response res = None /\ request_tools_used res = None /\
            is_Some (request_error res) /\ memory_items res = None))).
  { unfold process_request.
    apply wp_bind, wp_agent_now_memory. intros t0 st0 Hsame0. wp_simpl.
    apply wp_bind, wp_remember_memory. intros t_input st1 Hinput. wp_simpl.
    fold (input_entry self user_input) in Hinput. rewrite Hsame0 in Hinput.
    assert (Htwo : forall (entry : gmap string PyVal) (t : Z) (st2 st3 : St),
              short_term_memory (memory st2) = short_term_memory (memory st1) ->
              short_term_memory (memory st3)
              = last50 (short_term_memory (memory st2) ++ [stamp entry t]) ->
              short_term_memory (memory st3)
              = last50 (short_term_memory (memory st)
                        ++ [stamp (input_entry self user_input) t_input;
                            stamp entry t])).
    { intros entry t st2 st3 Hkept Hreply.
      rewrite Hreply, Hkept, Hinput, last50_app_l. by rewrite <- app_assoc. }
    apply wp_try_except, wp_bind.
    apply wp_keeps.
    { destruct with_tools; [|apply keeps_generate_simple_response].
      destruct (use_tools (_decide_tool_usage user_input));
        [|apply keeps_generate_simple_response].
      apply keeps_bind; [apply keeps_execute_recommended_tools|]. intros results.
      apply keeps_bind; [apply keeps_note_working_memory|]. intros _.
      apply keeps_generate_response_with_tools. }
    intros [generated|e] st2 Hkept; wp_simpl.
    - apply wp_bind, wp_remember_memory. intros t_reply st3 Hreply. wp_simpl.
      apply wp_bind, wp_agent_now_memory. intros t1 st4 Hsame4. wp_simpl.
      apply wp_bind, wp_get. wp_simpl. apply wp_ret.
      eexists _, t_input, t_reply. split; [reflexivity|].
      cbn [request_conversation_id request_success request_response
           request_tools_used request_error memory_items].
      split; [done|]. rewrite Hsame4.
      split; [by apply (Htwo _ _ st2)|].
      split; [by eexists|]. split; [by eexists|]. done.
    - apply wp_bind, wp_agent_now_memory. intros t1 st3 Hsame3. wp_simpl.
      apply wp_bind, wp_remember_memory. intros t_reply st4 Hreply. wp_simpl.
      apply wp_ret.
      eexists _, t_input, t_reply. split; [reflexivity|].
      cbn [request_conversation_id request_success request_response
           request_tools_used request_error memory_items].
      split; [done|].
      split; [apply (Htwo _ _ st3); [by rewrite Hsame3 | done]|].
      split; [done|]. split; [done|]. split; [by eexists | done]. }
  apply wp_run in Hwp as (r & st' & Hrun & res & t_input & t_reply & -> & Hid & Hmem & Hres).
  exists res, st', t_input, t_reply. split; [done|]. split; [done|]. split; [done|].
  destruct (request_success res); [|done].
  destruct Hres as (? & ? & ? & ?). repeat split; try done.
  - rewrite Hmem. unfold zlen, last50. rewrite length_drop, length_app. simpl. lia.
  - rewrite Hmem. unfold zlen. pose proof (last50_length
      (short_term_memory (memory st)
       ++ [stamp (input_entry self user_input) t_input;
           stamp (reply_entry self res) t_reply])). lia.
Qed.

Lemma with_manager_execute_step (tname : string) (kwargs : gmap string PyVal)
    (st0 : St) :
  bindable kwargs ->
  exists res st1,
    with_manager (execute_tool tname kwargs) st0 = (Ok res, st1) /\
    match tools (tool_manager st0) !! tname with
    | None =>
        res = mkToolResult tname false PNone
                (Some ("Tool '" +:+ tname +:+ "' not found")) 0 ∅
    | Some tool =>
        enabled tool = false ->
        res = mkToolResult tname false PNone
                (Some ("Tool '" +:+ tname +:+ "' is disabled")) 0 ∅
    end /\
    length (execution_history (tool_manager st1))
    = (length (execution_history (tool_manager st0))
       + if match tools (tool_manager st0) !! tname with
            | Some tool => enabled tool
            | None => false
            end then 1 else 0)%nat /\
    tools (tool_manager st1) = tools (tool_manager st0) /\
    memory st1 = memory st0 /\
    agent_conversations st1 = agent_conversations st0.
Proof.
  intros Hbindable. unfold with_manager.
  pose proof (execute_tool_cases tname kwargs
                (mkManaged (tool_manager st0) (agent_world st0)) Hbindable) as Hwp.
  apply wp_run in Hwp as (r & ms & Hrun & Htools & Hcases). rewrite Hrun.
  cbn [manager manager_world] in Htools, Hcases.
  destruct (tools (tool_manager st0) !! tname) as [tool|].
  - destruct (enabled tool).
    + destruct Hcases as (res & t & -> & Hhistory & _). eexists _, _.
      split; [reflexivity|]. split; [done|]. cbn [tool_manager memory agent_conversations].
      split; [rewrite Hhistory, length_app; simpl; lia | done].
    + destruct Hcases as [-> ->]. eexists _, _.
      split; [reflexivity|]. split; [done|]. cbn [tool_manager manager]. split; [lia | done].
  - destruct Hcases as [-> ->]. eexists _, _.
    split; [reflexivity|]. split; [done|]. cbn [tool_manager manager]. split; [lia | done].
Qed.

Lemma with_manager_execute_unbound (tname : string) (kwargs : gmap string PyVal)
    (st0 : St) :
  ~ bindable kwargs ->
  exists e st1,
    with_manager (execute_tool tname kwargs) st0 = (Raise e, st1) /\
    exc_class e = "TypeError" /\
    tool_manager st1 = tool_manager st0 /\
    memory st1 = memory st0 /\
    agent_conversations st1 = agent_conversations st0.
Proof.
  intros Hcollision. unfold with_manager.
  destruct (execute_tool_unbound tname kwargs
              (mkManaged (tool_manager st0) (agent_world st0)) Hcollision)
    as (e & -> & Hclass).
  by eexists _, _.
Qed.

Lemma bindable_or_not (kwargs : gmap string PyVal) : bindable kwargs \/ ~ bindable kwargs.
Proof.
  destruct (binding_collision kwargs) as [parameter|] eqn:Hbinding.
  - right. intros Hbindable. apply binding_collision_bindable in Hbindable. congruence.
  - left. by apply binding_collision_bindable.
Qed.

(** The recommended tools are run in the order of the
    recommendations. When the parameters of every recommendation can be
    passed to [execute_tool] as keyword arguments, the call returns one
    result for each of them and does not raise: a recommendation that
    names no registered tool, or a disabled one, gets the failure that
    says so; the execution history grows by exactly the recommendations
    that reach an enabled tool. When one of the recommendations has a
    parameter named [tool_name] or [self], the call raises the
    [TypeError] of that call of [execute_tool]. Either way the registered
    tools stay as they are, and neither the agent's memory nor its
    conversations are touched. *)
Theorem execute_recommended_tools_results (recommended : list ToolCall) (st : St) :
  let registered := tools (tool_manager st) in
  let reaches (call : ToolCall) : bool :=
    match registered !! call_tool_name call with
    | Some tool => enabled tool
    | None => false
    end in
  (Forall (fun call => bindable (call_parameters call)) recommended ->
   exists results st',
     _execute_recommended_tools recommended st = (Ok results, st') /\
     Forall2 (fun call res =>
                match registered !! call_tool_name call with
                | None =>
                    res = mkToolResult (call_tool_name call) false PNone
                            (Some ("Tool '" +:+ call_tool_name call +:+ "' not found"))
                            0 ∅
                | Some tool =>
                    enabled tool = false ->
                    res = mkToolResult (call_tool_name call) false PNone
                            (Some ("Tool '" +:+ call_tool_name call +:+ "' is disabled"))
                            0 ∅
                end)
             recommended results /\
     length (execution_history (tool_manager st'))
     = (length (execution_history (tool_manager st))
        + length (List.filter reaches recommended))%nat /\
     tools (tool_manager st') = registered /\
     memory st' = memory st /\
     agent_conversations st' = agent_conversations st) /\
  (Exists (fun call => ~ bindable (call_parameters call)) recommended ->
   exists e st',
     _execute_recommended_tools recommended st = (Raise e, st') /\
     exc_class e = "TypeError" /\
     tools (tool_manager st') = registered /\
     memory st' = memory st /\
     agent_conversations st' = agent_conversations st).
Proof.
  cbv zeta. unfold _execute_recommended_tools.
  set (registered := tools (tool_manager st)).
  split.
  - intros Hbindable.
    assert (Hloop : forall (acc : list ToolResult) (st0 : St),
      tools (tool_manager st0) = registered ->
      exists results st',
        py_for recommended acc
          (fun results tool_config =>
             py_bind (with_manager (execute_tool (call_tool_name tool_config)
                                      (call_parameters tool_config)))
               (fun outcome => py_ret (results ++ [outcome]))) st0
        = (Ok (acc ++ results), st') /\
        Forall2 (fun call res =>
                   match registered !! call_tool_name call with
                   | None =>
                       res = mkToolResult (call_tool_name call) false PNone
                               (Some ("Tool '" +:+ call_tool_name call +:+ "' not found"))
                               0 ∅
                   | Some tool =>
                       enabled tool = false ->
                       res = mkToolResult (call_tool_name call) false PNone
                               (Some ("Tool '" +:+ call_tool_name call +:+ "' is disabled"))
                               0 ∅
                   end)
                recommended results /\
        length (execution_history (tool_manager st'))
        = (length (execution_history (tool_manager st0))
           + length (List.filter
                       (fun call => match registered !! call_tool_name call with
                                    | Some tool => enabled tool
                                    | None => false
                                    end) recommended))%nat /\
        tools (tool_manager st') = registered /\
        memory st' = memory st0 /\
        agent_conversations st' = agent_conversations st0).
    { induction Hbindable as [|call rest Hcall _ IH]; intros acc st0 Hregistered.
      - exists [], st0. cbn [py_for]. rewrite app_nil_r.
        split; [done|]. split; [constructor|]. simpl. split; [lia | done].
      - cbn [py_for]. unfold py_bind at 1. cbv beta. unfold py_bind at 1.
        destruct (with_manager_execute_step (call_tool_name call) (call_parameters call)
                    st0 Hcall)
          as (res & st1 & -> & Hres & Hgrows & Htools & Hmemory & Hconversations).
        rewrite Hregistered in Hres, Hgrows.
        destruct (IH (acc ++ [res]) st1) as (results & st' & Hrest & Hall & Hhistory & Hkept);
          [congruence|].
        exists (res :: results), st'. unfold py_ret at 1.
        rewrite Hrest, <- app_assoc. split; [done|].
        split; [by constructor|]. split.
        + rewrite Hhistory, Hgrows. cbn [List.filter].
          destruct (match registered !! call_tool_name call with
                    | Some tool => enabled tool
                    | None => false
                    end); cbn [length]; lia.
        + destruct Hkept as (? & ? & ?). repeat split; congruence. }
    destruct (Hloop [] st eq_refl) as (results & st' & Hrun & Hrest).
    exists results, st'. split; [exact Hrun | exact Hrest].
  - intros Hcollision.
    assert (Hloop : forall (acc : list ToolResult) (st0 : St),
      tools (tool_manager st0) = registered ->
      exists e st',
        py_for recommended acc
          (fun results tool_config =>
             py_bind (with_manager (execute_tool (call_tool_name tool_config)
                                      (call_parameters tool_config)))
               (fun outcome => py_ret (results ++ [outcome]))) st0
        = (Raise e, st') /\
        exc_class e = "TypeError" /\
        tools (tool_manager st') = registered /\
        memory st' = memory st0 /\
        agent_conversations st' = agent_conversations st0).
    { induction recommended as [|call rest IH]; intros acc st0 Hregistered;
        [by apply Exists_nil in Hcollision|].
      cbn [py_for]. unfold py_bind at 1. cbv beta. unfold py_bind at 1.
      destruct (bindable_or_not (call_parameters call)) as [Hcall|Hcall].
      - destruct (with_manager_execute_step (call_tool_name call) (call_parameters call)
                    st0 Hcall)
          as (res & st1 & -> & _ & _ & Htools & Hmemory & Hconversations).
        apply Exists_cons in Hcollision as [Hhere|Hlater]; [done|].
        destruct (IH Hlater (acc ++ [res]) st1) as (e & st' & Hrest & Hclass & Hkept);
          [congruence|].
        exists e, st'. unfold py_ret at 1. rewrite Hrest. split; [done|].
        split; [done|]. destruct Hkept as (? & ? & ?). repeat split; congruence.
      - destruct (with_manager_execute_unbound (call_tool_name call)
                    (call_parameters call) st0 Hcall)
          as (e & st1 & -> & Hclass & Hmanager & Hmemory & Hconversations).
        exists e, st1. split; [done|]. split; [done|].
        repeat split; congruence. }
    destruct (Hloop [] st eq_refl) as (e & st' & Hrun & Hrest).
    exists e, st'. split; [exact Hrun | exact Hrest].
Qed.

End AgentFrame.

(** *** A recommendation that cannot be passed on *)

(** The policy never recommends it, but a recommendation with a
    parameter named [tool_name] makes the whole call raise: no list of
    results comes back, not even for the recommendation before it. *)
Example colliding_recommendation_raises :
  (@_execute_recommended_tools simple_runtime SimWorld sim_clock
     [ mkToolCall "text_analysis" {[ "text" := PStr "two words" ]};
       mkToolCall "text_analysis"
         (<["text" := PStr "two words"]> {[ "tool_name" := PStr "text_analysis" ]}) ]
     sample_agent_state).1
  = Raise (TypeError
             "ToolManager.execute_tool() got multiple values for argument 'tool_name'").
Proof. vm_compute. reflexivity. Qed.

(** ** Document search, the Chroma store and the application's documents *)

Section DocumentSearchFacts.
Context {W : Type} `{WorldOps W} `{VectorStore W}.

(** The document search tool cannot fail on arguments of the
    declared types: it always returns a result with [success = True]
    and no error, a blank query included, which finds nothing. The
    payload lists what the retriever returned, in its order, one entry
    per document with its content, score, source and chunk index, and
    "total_results" is their number; with a positive threshold every
    listed score reaches it. The payload has the shape that the agent
    reads when it builds the context from tool results. *)
Theorem document_search_always_succeeds (query : string) (k : Z)
    (min_score : PyFloat) (w : W) :
  exists res w' found,
    DocumentSearchTool_execute query k min_score w = (Ok res, w') /\
    found = (retrieve_documents query k min_score (clock w).2).1 /\
    tool_name res = "document_search" /\
    success res = true /\
    error res = None /\
    result res = PDict [ ("query", PStr query);
                         ("results", PList (map search_hit found));
                         ("total_results", PInt (zlen found)) ] /\
    (PyStr.blank query = true -> found = []) /\
    (float_lt (FiniteFloat 0) min_score = true ->
       Forall (fun r => float_le min_score (FiniteFloat (score r)) = true) found) /\
    (forall m, min_score = FiniteFloat m -> (0 < m)%Q ->
       Forall (fun r => (m <= score r)%Q) found) /\
    well_shaped res.
Proof.
  unfold DocumentSearchTool_execute, py_bind, try_except, now, world_retrieve, py_ret.
  destruct (clock w) as [t0 w0]. cbn [snd].
  destruct (retrieve_documents query k min_score w0) as [found w1] eqn:Hfound.
  destruct (clock w1) as [t1 w2].
  eexists _, _, found. split; [reflexivity|]. cbn [fst tool_name success error result].
  split; [done|]. split; [done|]. split; [done|]. split; [done|]. split; [done|].
  assert (Hreached : float_lt (FiniteFloat 0) min_score = true ->
            Forall (fun r => float_le min_score (FiniteFloat (score r)) = true) found).
  { intros Hpositive. unfold retrieve_documents in Hfound.
    destruct (PyStr.blank query); [injection Hfound as <- _; constructor|].
    destruct (similarity_search query k w0) as [results w'].
    rewrite Hpositive in Hfound. injection Hfound as <- _.
    apply Forall_forall. intros r Hin.
    by apply list_elem_of_In, filter_In in Hin as [_ Hscore]. }
  split; [|split; [exact Hreached|split]].
  - intros Hblank. unfold retrieve_documents in Hfound. rewrite Hblank in Hfound.
    by injection Hfound as <- _.
  - intros m -> Hpositive.
    eapply Forall_impl; [apply Hreached|].
    + cbn [float_lt]. apply negb_true_iff.
      destruct (Qle_bool m 0) eqn:Hle; [|done].
      apply Qle_bool_iff in Hle. exfalso. by apply (Qlt_not_le _ _ Hpositive).
    + intros r Hscore. cbn [float_le] in Hscore. by apply Qle_bool_iff.
  - intros _ _. cbn [tool_name result].
    split; [|split; [discriminate|split; [intros [?|?]; discriminate | discriminate]]].
    intros _. eexists _, (map search_hit found).
    split; [reflexivity|]. split; [reflexivity|].
    apply Forall_forall. intros hit Hin. apply list_elem_of_In, in_map_iff in Hin as (r & <- & _).
    by eexists _, _.
Qed.

End DocumentSearchFacts.

(** *** Scores and ranks of the Chroma store *)

Lemma distance_to_score_bounds (distance : Q) :
  (0 <= distance_to_score distance /\ distance_to_score distance <= 1)%Q.
Proof.
  unfold distance_to_score, float_max, float_min.
  destruct (Qle_bool 1 (1 - distance)) eqn:Hhigh.
  - assert (Hone : Qle_bool 1 0 = false) by done. rewrite Hone.
    split; [done | apply Qle_refl].
  - destruct (Qle_bool (1 - distance) 0) eqn:Hlow.
    + split; [apply Qle_refl | done].
    + split.
      * apply Qnot_lt_le. intros Hlt. apply Qlt_le_weak, Qle_bool_iff in Hlt. congruence.
      * apply Qnot_lt_le. intros Hlt. apply Qlt_le_weak, Qle_bool_iff in Hlt. congruence.
Qed.

Lemma distance_to_score_antitone (nearer farther : Q) :
  (nearer <= farther)%Q ->
  (distance_to_score farther <= distance_to_score nearer)%Q.
Proof.
  intros Hle.
  assert (Hflip : (1 - farther <= 1 - nearer)%Q).
  { unfold Qminus. apply Qplus_le_r. by apply Qopp_le_compat. }
  pose proof (distance_to_score_bounds nearer) as [Hlow Hhigh].
  unfold distance_to_score, float_max, float_min in *.
  destruct (Qle_bool 1 (1 - farther)) eqn:Hfar1.
  - apply Qle_bool_iff in Hfar1.
    assert (Hnear1 : Qle_bool 1 (1 - nearer) = true)
      by (apply Qle_bool_iff; by eapply Qle_trans).
    rewrite Hnear1. apply Qle_refl.
  - destruct (Qle_bool (1 - farther) 0) eqn:Hfar0; [exact Hlow|].
    destruct (Qle_bool 1 (1 - nearer)) eqn:Hnear1.
    + assert (Hone : Qle_bool 1 0 = false) by done. rewrite Hone.
      apply Qnot_lt_le. intros Hlt. apply Qlt_le_weak, Qle_bool_iff in Hlt. congruence.
    + destruct (Qle_bool (1 - nearer) 0) eqn:Hnear0; [|done].
      apply Qle_bool_iff in Hnear0.
      assert (Qle_bool (1 - farther) 0 = true)
        by (apply Qle_bool_iff; by eapply Qle_trans).
      congruence.
Qed.

Lemma chroma_results_spec (query : string) (start : Z)
    (rows : list (string * ChromaMeta * Q)) :
  match chroma_results query start rows with
  | Ok results =>
      Forall (fun row => PyStr.blank row.1.1 = false) rows /\
      length results = length rows /\
      Forall valid_search_result results /\
      forall i r,
        results !! i = Some r ->
        rank r = start + Z.of_nat i /\
        exists doc meta distance,
          rows !! i = Some (doc, meta, distance) /\
          PyStr.blank doc = false /\
          content (chunk r) = PyStr.strip doc /\
          score r = distance_to_score distance /\
          search_metadata r !! "distance" = Some (PFloat distance)
  | Raise _ => Exists (fun row => PyStr.blank row.1.1 = true) rows
  end.
Proof.
  revert start. induction rows as [|[[doc meta] distance] rest IH]; intros start.
  - cbn. split; [constructor|]. split; [done|]. split; [constructor|].
    intros i r Hr. by rewrite lookup_nil in Hr.
  - cbn [chroma_results chroma_result].
    unfold DocumentChunk_new, validate_content.
    destruct (PyStr.blank doc) eqn:Hdoc; cbn [exc_bind]; [by left|].
    unfold SearchResult_new, validate_score.
    pose proof (distance_to_score_bounds distance) as [Hlow Hhigh].
    assert (Hvalid : negb (Qle_bool 0 (distance_to_score distance)
                           && Qle_bool (distance_to_score distance) 1) = false).
    { apply negb_false_iff, andb_true_iff. split; by apply Qle_bool_iff. }
    rewrite Hvalid. cbn [exc_bind].
    specialize (IH (start + 1)).
    destruct (chroma_results query (start + 1) rest) as [more|e]; cbn [exc_bind].
    + destruct IH as (Hrows & Hlen & Hall & Hrank).
      split; [by constructor|]. split; [simpl; congruence|].
      split; [constructor; [by split | done]|].
      intros [|i] r Hr.
      * injection Hr as <-. cbn [rank chunk content score search_metadata].
        split; [lia|]. exists doc, meta, distance.
        split; [done|]. split; [done|]. split; [done|]. split; [done|].
        apply lookup_insert_eq.
      * cbn [lookup list_lookup] in Hr. destruct (Hrank i r Hr) as [Hi Hrow].
        split; [lia | done].
    + by right.
Qed.

Section ChromaFacts.
Context {C : Type} `{ChromaClient C}.

(** Every failure of the embedding manager is a [ValueError]. Blank
    text and a missing provider are refused before the provider is
    called, and leave the world as it was. A result that is returned
    holds what the provider computed for the text without its
    surrounding white space: a vector that is not empty, with its length
    as the number of dimensions. *)
Theorem generate_embedding_outcomes (self : EmbeddingManager) (text : string) (c : C) :
  match generate_embedding self text c with
  | (Ok made, c') =>
      PyStr.blank text = false /\ provider self = true /\
      embed_query (PyStr.strip text) c = (Ok (embedding_vector made), c') /\
      embedding_vector made <> [] /\
      embedding_dimensions made = zlen (embedding_vector made) /\
      embedding_model_name made = manager_model self
  | (Raise e, c') =>
      exc_class e = "ValueError" /\
      (PyStr.blank text = true \/ provider self = false -> c' = c)
  end.
Proof.
  unfold generate_embedding.
  destruct (PyStr.blank text) eqn:Hblank; [by cbn|].
  destruct (provider self) eqn:Hprovider; cbn [negb]; [|by cbn].
  unfold try_except, py_bind, py_lift, py_raise.
  destruct (embed_query (PyStr.strip text) c) as [[vector|e] c'] eqn:Hembed.
  - destruct vector as [|x vector]; cbn.
    + split; [done|]. intros [?|?]; discriminate.
    + by repeat split.
  - cbn. split; [done|]. intros [?|?]; discriminate.
Qed.

Lemma generate_embedding_needs_provider (self : EmbeddingManager) (text : string)
    (c : C) :
  match generate_embedding self text c with
  | (Ok _, _) => provider self = true
  | (Raise _, c') => provider self = false -> c' = c
  end.
Proof.
  unfold generate_embedding.
  destruct (PyStr.blank text); [by cbn|].
  destruct (provider self); cbn [negb]; [|by cbn].
  unfold try_except, py_bind, py_lift, py_raise.
  destruct (embed_query (PyStr.strip text) c) as [[[|x vector]|e] c']; by cbn.
Qed.

(** The similarity search of the Chroma store never raises: whatever
    the embedding provider and the collection do, it returns a list. A
    blank query returns the empty list without calling either of them.
    Every score is the distance turned round and clamped, so it lies
    between 0 and 1 and never grows with the distance; every result
    passes the validator of search results; and the ranks count the
    results from 0 in the order the collection gave them. *)
Theorem chroma_search_returns_valid_results (embedding_manager : EmbeddingManager)
    (query : string) (k : Z) (c : C) :
  exists results c',
    ChromaVectorStore_similarity_search embedding_manager query k c = (Ok results, c') /\
    Forall valid_search_result results /\
    (forall i r, results !! i = Some r -> rank r = Z.of_nat i) /\
    Forall (fun r => exists distance,
                       search_metadata r !! "distance" = Some (PFloat distance) /\
                       score r = distance_to_score distance /\
                       content (chunk r) <> EmptyString) results /\
    (PyStr.blank query = true -> results = [] /\ c' = c) /\
    (provider embedding_manager = false -> results = [] /\ c' = c) /\
    (forall nearer farther,
       (nearer <= farther)%Q ->
       (distance_to_score farther <= distance_to_score nearer)%Q).
Proof.
  unfold ChromaVectorStore_similarity_search.
  assert (Hempty : forall c' : C,
            c' = c \/ PyStr.blank query = false /\ provider embedding_manager = true ->
            exists results c'',
              (Ok ([] : list SearchResult), c') = (Ok results, c'') /\
              Forall valid_search_result results /\
              (forall i r, results !! i = Some r -> rank r = Z.of_nat i) /\
              Forall (fun r => exists distance,
                         search_metadata r !! "distance" = Some (PFloat distance) /\
                         score r = distance_to_score distance /\
                         content (chunk r) <> EmptyString) results /\
              (PyStr.blank query = true -> results = [] /\ c'' = c) /\
              (provider embedding_manager = false -> results = [] /\ c'' = c) /\
              (forall nearer farther,
                 (nearer <= farther)%Q ->
                 (distance_to_score farther <= distance_to_score nearer)%Q)).
  { intros c' Hc'. exists [], c'. split; [done|]. split; [constructor|].
    split; [intros i r Hr; by rewrite lookup_nil in Hr|]. split; [constructor|].
    split; [|split; [|apply distance_to_score_antitone]].
    - intros Hblank. split; [done|]. destruct Hc' as [->|[? _]]; [done | congruence].
    - intros Hno. split; [done|]. destruct Hc' as [->|[_ ?]]; [done | congruence]. }
  destruct (PyStr.blank query) eqn:Hquery; [apply Hempty; by left|].
  unfold try_except, py_bind at 1.
  pose proof (generate_embedding_needs_provider embedding_manager (PyStr.strip query) c)
    as Hembedding.
  destruct (generate_embedding embedding_manager (PyStr.strip query) c)
    as [[made|e] c1]; cbn [py_ret].
  2: { apply Hempty. destruct (provider embedding_manager) eqn:Hprovider; [by right|].
       left. by apply Hembedding. }
  unfold py_bind, py_lift.
  destruct (collection_query [embedding_vector made] k c1) as [[answer|e] c2];
    [|apply Hempty; by right].
  destruct (query_documents answer) as [[|docs others]|];
    [apply Hempty; by right| |apply Hempty; by right].
  pose proof (chroma_results_spec query 0
                (zip3 docs (first_or_empty (query_metadatas answer))
                   (first_or_empty (query_distances answer)))) as Hspec.
  destruct (chroma_results query 0 _) as [results|e]; [|apply Hempty; by right].
  destruct Hspec as (_ & _ & Hall & Hrank).
  exists results, c2. split; [done|]. split; [done|].
  split; [intros i r Hr; destruct (Hrank i r Hr) as [-> _]; lia|].
  split; [|split; [done|split; [congruence | apply distance_to_score_antitone]]].
  apply Forall_lookup. intros i r Hr.
  destruct (Hrank i r Hr)
    as (_ & doc & meta & distance & Hrow & Hdoc & Hcontent & Hscore & Hdistance).
  exists distance. split; [done|]. split; [done|].
  rewrite Hcontent. apply blank_false in Hdoc. by destruct (PyStr.strip doc).
Qed.

End ChromaFacts.

(** *** Adding documents through the application *)

Section LibraryFacts.
Context `{Runtime} `{Platform} {VS W : Type} `{VectorStore VS} `{WorldOps W}.

Local Abbreviation Lib := (Library VS W).

Definition missing_method : string :=
  "'DocumentProcessor' object has no attribute 'process_file'".

(** The document manager of the application asks the processor for a
    method it does not have, so it never adds a document. For a file that
    exists, [add_document_from_file] reports the failure of that call;
    for one that does not, that the file was not found; either way the
    result has [success = False], and the files, the vector store and
    the statistics are as before. [add_document_from_text] never has a
    result with [success = True] either, and leaves the vector store and
    the statistics as they were. When the text could be written to the
    temporary file, it fails on that file in the same way and removes
    the file again. When [f.write] raised, for a text that the encoding
    of the file cannot represent, it reports "Failed to process text: "
    followed by the text of that exception, and the temporary file,
    which was created already, stays behind empty. *)
Theorem application_never_adds_documents (file_path : Path) (text title : string)
    (lib : Lib) :
  (exists outcome,
     add_document_from_file file_path lib = (Ok outcome, lib) /\
     add_success outcome = false /\
     add_chunks_added outcome = None /\
     add_error outcome
     = Some (match library_files lib !! path_str file_path with
             | Some _ => "Failed to process " +:+ path_str file_path +:+ ": "
                         +:+ missing_method
             | None => "File not found: " +:+ path_str file_path
             end)) /\
  (let temporary :=
     path_str (mkPath "/tmp" ("tmp" +:+ pretty (library_temp_counter lib)) ".txt") in
   exists outcome lib',
     add_document_from_text text title lib = (Ok outcome, lib') /\
     add_success outcome = false /\
     library_books lib' = library_books lib /\
     library_store lib' = library_store lib /\
     match encode_text text with
     | Ok _ =>
         add_error outcome
         = Some ("Failed to process " +:+ temporary +:+ ": " +:+ missing_method) /\
         library_files lib' = delete temporary (library_files lib)
     | Raise e =>
         add_error outcome = Some ("Failed to process text: " +:+ exc_str e) /\
         library_files lib' = <[temporary := ""]> (library_files lib)
     end).
Proof.
  assert (Hfile : forall (p : Path) (l : Lib),
            add_document_from_file p l
            = (Ok (mkAddResult false
                     (Some (match library_files l !! path_str p with
                            | Some _ => "Failed to process " +:+ path_str p +:+ ": "
                                        +:+ missing_method
                            | None => "File not found: " +:+ path_str p
                            end)) None None None), l)).
  { intros p l. unfold add_document_from_file, try_except, py_bind, py_get, py_lift,
      process_file, py_ret.
    by destruct (library_files l !! path_str p). }
  split.
  - eexists. split; [apply Hfile|]. done.
  - cbv zeta. unfold add_document_from_text, try_except, py_bind.
    destruct (encode_text text) as [bytes|e].
    + rewrite Hfile.
      cbn [library_files]. rewrite !lookup_insert_eq. cbn [add_success py_ret].
      eexists _, _. split; [reflexivity|]. cbn [add_success add_error library_books
        library_store library_files].
      split; [done|]. split; [done|]. split; [done|]. split; [done|].
      by rewrite delete_insert_eq.
    + cbn [py_ret]. eexists _, _. split; [reflexivity|].
      cbn [add_success add_error library_books library_store library_files]. done.
Qed.

End LibraryFacts.

(** *** The Chroma store on a fixed collection *)

Definition stored_meta (index : Z) : ChromaMeta :=
  mkChromaMeta (Some ("guide.txt_" +:+ format_04d index)) (Some index)
    (Some "guide.txt") ∅.

(** A collection that answers every query with the same rows. *)
Record FixedCollection : Type := mkFixedCollection {
  fixed_documents : list string;
  fixed_distances : list Q;
}.

#[export] Instance fixed_client : ChromaClient FixedCollection := {|
  embed_query _ c := (Ok [1%Q; 0%Q], c);
  collection_query _ _ c :=
    (Ok (mkQueryResult (Some [fixed_documents c])
           (Some [imap (fun i _ => stored_meta (Z.of_nat i)) (fixed_documents c)])
           (Some [fixed_distances c])), c);
|}.

Definition fixed_search (documents : list string) (distances : list Q)
    : Exc (list SearchResult) :=
  (ChromaVectorStore_similarity_search (mkEmbeddingManager true "text-embedding-ada-002")
     "capital" 5 (mkFixedCollection documents distances)).1.

Example chroma_scores_and_ranks :
  (map (fun r => (rank r, score r, content (chunk r)))
     <$> match fixed_search [" Paris is a capital. "; "Rome too."]
                 [Qmake 1 4; Qmake 3 2] with
         | Ok found => Some found | Raise _ => None end)
  = Some [ (0, (1 - Qmake 1 4)%Q, "Paris is a capital."); (1, 0%Q, "Rome too.") ].
Proof. reflexivity. Qed.

(** One blank document among the rows makes the whole search come
    back empty. *)
Example chroma_blank_row_empties_the_search :
  fixed_search ["Paris is a capital."; "   "] [Qmake 1 4; Qmake 1 2] = Ok [].
Proof. reflexivity. Qed.

(** *** The application's documents on a concrete machine *)

Definition sample_library : Library (list (DocumentChunk * Q)) Z :=
  mkLibrary ∅ 0 [] new_document_manager 0.

Definition run_add_text (platform : Platform) (text : string)
    : Exc AddResult * Library (list (DocumentChunk * Q)) Z :=
  @add_document_from_text simple_runtime platform _ _ list_store counter_clock
    text "note" sample_library.

(** A text that can be written fails on the missing method, and its
    temporary file is removed; a text that cannot be written fails at
    the write, and the file stays. *)
Example add_text_fails_either_way :
  (add_error <$> match (run_add_text plain_platform "Paris is a capital.").1 with
                 | Ok outcome => Some outcome | Raise _ => None end)
  = Some (Some ("Failed to process /tmp/tmp0.txt: "
                +:+ "'DocumentProcessor' object has no attribute 'process_file'")) /\
  library_files (run_add_text plain_platform "Paris is a capital.").2 = ∅ /\
  (add_error <$> match (run_add_text seven_bit_platform (String "233"%char "")).1 with
                 | Ok outcome => Some outcome | Raise _ => None end)
  = Some (Some ("Failed to process text: "
                +:+ "'ascii' codec can't encode character: ordinal not in range(128)")) /\
  library_files (run_add_text seven_bit_platform (String "233"%char "")).2
    !! "/tmp/tmp0.txt" = Some "".
Proof. vm_compute. repeat split; reflexivity. Qed.
